(** * TvStreamer launcher: redraw scheduling, navigation and child supervision

    A shallow embedding of [launcher.c]: the launcher state, the event
    handler, the child supervisor, the statistics thread's loop body and one
    iteration of the main loop, followed by the properties of the
    specification that concern them.

    The C code talks to SDL, to the kernel ([fork], [waitpid], [time]) and to
    the shell ([system]).  Those calls are kept as primitives of a small
    monad: their results come from an environment (a script of pending SDL
    events and oracles indexed by call number) and each call that is visible
    from outside the process is logged as an [Effect], as are the return of
    the confirmation dialog and the statistics thread's store to the flag it
    shares with the main thread. *)

From Stdlib Require Import ZArith List String Bool Lia.
Import ListNotations.
Local Open Scope string_scope.
Local Open Scope Z_scope.

(** ** Configuration *)

Definition NUM_APPS : Z := 5.

Record App := { name : string; command : string; icon : string }.

Definition apps : list App :=
  [ {| name := "Kodi";      command := "kodi";                            icon := "ICON_TV" |};
    {| name := "Stremio";   command := "/home/aleksa/.local/bin/stremio"; icon := "ICON_PLAY" |};
    {| name := "IPTV";      command := "/home/aleksa/omarchy-iptv";       icon := "ICON_VIDEO" |};
    {| name := "Tidal";     command := "tidal-hifi";                      icon := "ICON_MUSIC" |};
    {| name := "Bluetooth"; command := "blueman-manager";                 icon := "ICON_BLUETOOTH" |} ].

(** [apps[i].command]; the index is always within the array (see
    [selected_in_range_keydown]), the default is never used. *)
Definition app_command (i : Z) : string :=
  match nth_error apps (Z.to_nat i) with
  | Some a => command a
  | None => ""
  end.

(** ** State *)

Record Stats := {
  cpu : Z;
  mem : Z;
  temp : Z;
  disk : Z;
  changed : Z;
  running : Z
}.

(** The fields of [Launcher] that the control flow reads or writes; windows,
    fonts, textures and layout rectangles are rendering data. *)
Record Launcher := {
  selected : Z;
  settings_selected : Z;
  needs_redraw : Z;
  last_minute : Z;
  app_running : Z;
  stats : Stats
}.

Definition set_selected (v : Z) (l : Launcher) : Launcher :=
  {| selected := v; settings_selected := settings_selected l;
     needs_redraw := needs_redraw l; last_minute := last_minute l;
     app_running := app_running l; stats := stats l |}.

Definition set_settings_selected (v : Z) (l : Launcher) : Launcher :=
  {| selected := selected l; settings_selected := v;
     needs_redraw := needs_redraw l; last_minute := last_minute l;
     app_running := app_running l; stats := stats l |}.

Definition set_needs_redraw (v : Z) (l : Launcher) : Launcher :=
  {| selected := selected l; settings_selected := settings_selected l;
     needs_redraw := v; last_minute := last_minute l;
     app_running := app_running l; stats := stats l |}.

Definition set_last_minute (v : Z) (l : Launcher) : Launcher :=
  {| selected := selected l; settings_selected := settings_selected l;
     needs_redraw := needs_redraw l; last_minute := v;
     app_running := app_running l; stats := stats l |}.

Definition set_app_running (v : Z) (l : Launcher) : Launcher :=
  {| selected := selected l; settings_selected := settings_selected l;
     needs_redraw := needs_redraw l; last_minute := last_minute l;
     app_running := v; stats := stats l |}.

Definition set_stats (s : Stats) (l : Launcher) : Launcher :=
  {| selected := selected l; settings_selected := settings_selected l;
     needs_redraw := needs_redraw l; last_minute := last_minute l;
     app_running := app_running l; stats := s |}.

Definition set_cpu (v : Z) (s : Stats) : Stats :=
  {| cpu := v; mem := mem s; temp := temp s; disk := disk s;
     changed := changed s; running := running s |}.

Definition set_mem (v : Z) (s : Stats) : Stats :=
  {| cpu := cpu s; mem := v; temp := temp s; disk := disk s;
     changed := changed s; running := running s |}.

Definition set_temp (v : Z) (s : Stats) : Stats :=
  {| cpu := cpu s; mem := mem s; temp := v; disk := disk s;
     changed := changed s; running := running s |}.

Definition set_disk (v : Z) (s : Stats) : Stats :=
  {| cpu := cpu s; mem := mem s; temp := temp s; disk := v;
     changed := changed s; running := running s |}.

Definition set_changed (v : Z) (s : Stats) : Stats :=
  {| cpu := cpu s; mem := mem s; temp := temp s; disk := disk s;
     changed := v; running := running s |}.

(** ** Environment *)

Inductive SDL_Keycode :=
| SDLK_ESCAPE | SDLK_q
| SDLK_LEFT | SDLK_RIGHT | SDLK_UP | SDLK_DOWN
| SDLK_RETURN | SDLK_KP_ENTER
| SDLK_r | SDLK_p
| SDLK_other.

Inductive SDL_Event :=
| SDL_QUIT
| SDL_KEYDOWN (sym : SDL_Keycode)
| SDL_OTHER.

(** What [fork] gives the parent: the child's pid, or -1.  The branch
    [pid == 0] of [launch_app] runs in the child only, which replaces itself
    by the shell or exits. *)
Inductive fork_outcome := Spawned (pid : positive) | SpawnFailed.

Definition fork_ret (o : fork_outcome) : Z :=
  match o with Spawned p => Z.pos p | SpawnFailed => -1 end.

(** What [waitpid(pid, &status, WNOHANG)] gives: [pid] once the child has
    changed state, 0 while it runs, -1 on error. *)
Inductive wait_outcome := ChildExited | ChildRunning | WaitError.

Definition waitpid_ret (pid : Z) (o : wait_outcome) : Z :=
  match o with ChildExited => pid | ChildRunning => 0 | WaitError => -1 end.

(** [localtime(time(NULL))], the two fields the code reads. *)
Record tm := { tm_hour : Z; tm_min : Z }.

(** Raw readings of one sampling cycle; [None] is a source that cannot be
    read. *)
Record CpuTicks := {
  t_user : Z; t_nice : Z; t_sys : Z; t_idle : Z;
  t_iowait : Z; t_irq : Z; t_softirq : Z
}.
Record SysInfo := { totalram : Z; freeram : Z; bufferram : Z; mem_unit : Z }.
Record StatVfs := { f_blocks : Z; f_bavail : Z; f_frsize : Z }.
Record Readings := {
  proc_stat : option CpuTicks;
  sys_info : option SysInfo;
  thermal_zone0 : option Z;
  statvfs_root : option StatVfs
}.

Record Env := {
  env_fork : nat -> fork_outcome;
  env_waitpid : nat -> wait_outcome;
  env_time : nat -> tm;
  env_readings : nat -> Readings
}.

(** ** Effects *)

(** What [draw] reads to paint a frame. *)
Record Frame := {
  fr_time : tm;
  fr_selected : Z;
  fr_settings_selected : Z;
  fr_cpu : Z; fr_mem : Z; fr_temp : Z; fr_disk : Z
}.

Inductive Effect :=
| EDraw (f : Frame)                          (* draw(l): a full repaint *)
| EDialog (action : string)                  (* show_confirm paints the dialog *)
| EConfirm (action : string) (accept : bool) (* show_confirm returns 1 / 0 *)
| EDelay (ms : Z)                            (* SDL_Delay *)
| ESleep (s : Z)                             (* sleep, statistics thread *)
| EHideWindow
| EShowWindow
| ERaiseWindow
| EFork (cmd : string) (o : fork_outcome)    (* fork + sh -c cmd in the child *)
| EWaitpid (pid : Z) (o : wait_outcome)
| ESystem (cmd : string)                     (* system(cmd) *)
| EStatsChanged.                             (* l->stats.changed = 1 *)

(** ** World and monad *)

Record World := {
  launcher : Launcher;              (* *l *)
  launched_app_pid : Z;             (* static pid_t launched_app_pid *)
  window_shown : bool;              (* SDL's visibility of l->window *)
  prev_idle : Z;                    (* locals of stats_thread_func *)
  prev_total : Z;
  sdl_queue : list (option SDL_Event);
    (* results of the coming SDL_PollEvent calls, [None] for an empty queue;
       after the script the queue stays empty *)
  n_fork : nat;                     (* calls made so far *)
  n_waitpid : nat;
  n_time : nat;
  n_sample : nat;
  env : Env
}.

Definition with_launcher (l : Launcher) (w : World) : World :=
  {| launcher := l; launched_app_pid := launched_app_pid w;
     window_shown := window_shown w; prev_idle := prev_idle w;
     prev_total := prev_total w; sdl_queue := sdl_queue w;
     n_fork := n_fork w; n_waitpid := n_waitpid w; n_time := n_time w;
     n_sample := n_sample w; env := env w |}.

Definition with_pid (p : Z) (w : World) : World :=
  {| launcher := launcher w; launched_app_pid := p;
     window_shown := window_shown w; prev_idle := prev_idle w;
     prev_total := prev_total w; sdl_queue := sdl_queue w;
     n_fork := n_fork w; n_waitpid := n_waitpid w; n_time := n_time w;
     n_sample := n_sample w; env := env w |}.

Definition with_window (b : bool) (w : World) : World :=
  {| launcher := launcher w; launched_app_pid := launched_app_pid w;
     window_shown := b; prev_idle := prev_idle w;
     prev_total := prev_total w; sdl_queue := sdl_queue w;
     n_fork := n_fork w; n_waitpid := n_waitpid w; n_time := n_time w;
     n_sample := n_sample w; env := env w |}.

Definition with_prev (i t : Z) (w : World) : World :=
  {| launcher := launcher w; launched_app_pid := launched_app_pid w;
     window_shown := window_shown w; prev_idle := i;
     prev_total := t; sdl_queue := sdl_queue w;
     n_fork := n_fork w; n_waitpid := n_waitpid w; n_time := n_time w;
     n_sample := n_sample w; env := env w |}.

Definition with_queue (q : list (option SDL_Event)) (w : World) : World :=
  {| launcher := launcher w; launched_app_pid := launched_app_pid w;
     window_shown := window_shown w; prev_idle := prev_idle w;
     prev_total := prev_total w; sdl_queue := q;
     n_fork := n_fork w; n_waitpid := n_waitpid w; n_time := n_time w;
     n_sample := n_sample w; env := env w |}.

Definition tick_fork (w : World) : World :=
  {| launcher := launcher w; launched_app_pid := launched_app_pid w;
     window_shown := window_shown w; prev_idle := prev_idle w;
     prev_total := prev_total w; sdl_queue := sdl_queue w;
     n_fork := S (n_fork w); n_waitpid := n_waitpid w; n_time := n_time w;
     n_sample := n_sample w; env := env w |}.

Definition tick_waitpid (w : World) : World :=
  {| launcher := launcher w; launched_app_pid := launched_app_pid w;
     window_shown := window_shown w; prev_idle := prev_idle w;
     prev_total := prev_total w; sdl_queue := sdl_queue w;
     n_fork := n_fork w; n_waitpid := S (n_waitpid w); n_time := n_time w;
     n_sample := n_sample w; env := env w |}.

Definition tick_time (w : World) : World :=
  {| launcher := launcher w; launched_app_pid := launched_app_pid w;
     window_shown := window_shown w; prev_idle := prev_idle w;
     prev_total := prev_total w; sdl_queue := sdl_queue w;
     n_fork := n_fork w; n_waitpid := n_waitpid w; n_time := S (n_time w);
     n_sample := n_sample w; env := env w |}.

Definition tick_sample (w : World) : World :=
  {| launcher := launcher w; launched_app_pid := launched_app_pid w;
     window_shown := window_shown w; prev_idle := prev_idle w;
     prev_total := prev_total w; sdl_queue := sdl_queue w;
     n_fork := n_fork w; n_waitpid := n_waitpid w; n_time := n_time w;
     n_sample := S (n_sample w); env := env w |}.

(** A computation ends with a value, a new world and the effects it
    emitted, or it does not end: [Blocked] is [show_confirm] waiting for a
    key that never comes, [Fault] a division by zero in the statistics
    thread, both with the effects emitted until then; [OutOfFuel] is a loop
    of the model cut short (never the case for [handle_events], see
    [handle_events_fuel]). *)
Inductive outcome (A : Type) : Type :=
| Done (a : A) (w : World) (tr : list Effect)
| Blocked (tr : list Effect)
| Fault (tr : list Effect)
| OutOfFuel.
Arguments Done {A} a w tr.
Arguments Blocked {A} tr.
Arguments Fault {A} tr.
Arguments OutOfFuel {A}.

Definition M (A : Type) : Type := World -> outcome A.

Definition ret {A} (a : A) : M A := fun w => Done a w [].

Definition bind {A B} (m : M A) (f : A -> M B) : M B :=
  fun w =>
    match m w with
    | Done a w1 t1 =>
        match f a w1 with
        | Done b w2 t2 => Done b w2 (t1 ++ t2)
        | Blocked t2 => Blocked (t1 ++ t2)
        | Fault t2 => Fault (t1 ++ t2)
        | OutOfFuel => OutOfFuel
        end
    | Blocked t1 => Blocked t1
    | Fault t1 => Fault t1
    | OutOfFuel => OutOfFuel
    end.

Notation "x <- c1 ;; c2" := (bind c1 (fun x => c2))
  (at level 61, c1 at next level, right associativity).
Notation "c1 ;; c2" := (bind c1 (fun _ => c2))
  (at level 61, right associativity).

Definition emit (e : Effect) : M unit := fun w => Done tt w [e].
Definition get_l : M Launcher := fun w => Done (launcher w) w [].
Definition modify_l (f : Launcher -> Launcher) : M unit :=
  fun w => Done tt (with_launcher (f (launcher w)) w) [].
Definition get_pid : M Z := fun w => Done (launched_app_pid w) w [].
Definition put_pid (p : Z) : M unit := fun w => Done tt (with_pid p w) [].

(** ** Primitives *)

(** C truth of an [int]. *)
Definition truthy (z : Z) : bool := negb (z =? 0).

Definition SDL_PollEvent : M (option SDL_Event) :=
  fun w =>
    match sdl_queue w with
    | [] => Done None w []
    | e :: q => Done e (with_queue q w) []
    end.

Definition SDL_Delay (ms : Z) : M unit := emit (EDelay ms).

Definition SDL_HideWindow : M unit :=
  fun w => Done tt (with_window false w) [EHideWindow].

Definition SDL_ShowWindow : M unit :=
  fun w => Done tt (with_window true w) [EShowWindow].

Definition SDL_RaiseWindow : M unit := emit ERaiseWindow.

Definition system (cmd : string) : M unit := emit (ESystem cmd).

(** [fork], seen from the parent; the child runs [sh -c cmd]. *)
Definition fork (cmd : string) : M Z :=
  fun w =>
    let o := env_fork (env w) (n_fork w) in
    Done (fork_ret o) (tick_fork w) [EFork cmd o].

Definition waitpid (pid : Z) : M Z :=
  fun w =>
    let o := env_waitpid (env w) (n_waitpid w) in
    Done (waitpid_ret pid o) (tick_waitpid w) [EWaitpid pid o].

Definition localtime_now : M tm :=
  fun w => Done (env_time (env w) (n_time w)) (tick_time w) [].

(** ** Rendering, at its interface *)

Definition draw : M unit :=
  t <- localtime_now ;;
  l <- get_l ;;
  emit (EDraw {| fr_time := t;
                 fr_selected := selected l;
                 fr_settings_selected := settings_selected l;
                 fr_cpu := cpu (stats l); fr_mem := mem (stats l);
                 fr_temp := temp (stats l); fr_disk := disk (stats l) |}).

(** ** App launch *)

Definition launch_app (command : string) : M unit :=
  pid <- fork command ;;
  if 0 <? pid then put_pid pid else ret tt.

Definition is_app_running : M Z :=
  pid <- get_pid ;;
  if pid <=? 0 then ret 0
  else
    result <- waitpid pid ;;
    if result =? pid then put_pid 0 ;; ret 0
    else if result =? 0 then ret 1
    else put_pid 0 ;; ret 0.

(** ** Confirmation dialog *)

(** The wait loop of [show_confirm]: poll until Enter or Escape; an empty
    queue costs a 50 ms delay.  The result is the return value with the rest
    of the script, or [None] when the script ends before either key: the
    loop never leaves. *)
Fixpoint confirm_wait (q : list (option SDL_Event))
  : list Effect * option (Z * list (option SDL_Event)) :=
  match q with
  | [] => ([], None)
  | None :: q' => let (tr, r) := confirm_wait q' in (EDelay 50 :: tr, r)
  | Some (SDL_KEYDOWN SDLK_RETURN) :: q' => ([], Some (1, q'))
  | Some (SDL_KEYDOWN SDLK_KP_ENTER) :: q' => ([], Some (1, q'))
  | Some (SDL_KEYDOWN SDLK_ESCAPE) :: q' => ([], Some (0, q'))
  | Some _ :: q' => confirm_wait q'
  end.

Definition show_confirm (action : string) : M Z :=
  emit (EDialog action) ;;
  fun w =>
    match confirm_wait (sdl_queue w) with
    | (tr, Some (r, q')) =>
        Done r (with_queue q' w) (tr ++ [EConfirm action (truthy r)])
    | (tr, None) => Blocked tr
    end.

(** The wait loop written with the primitives, one unit of fuel per poll;
    [show_confirm_loop_returns] and [show_confirm_loop_waits] relate it to
    [confirm_wait]. *)
Fixpoint show_confirm_loop (fuel : nat) : M Z :=
  match fuel with
  | O => fun _ => OutOfFuel
  | S n =>
      e <- SDL_PollEvent ;;
      match e with
      | Some (SDL_KEYDOWN SDLK_RETURN) => ret 1
      | Some (SDL_KEYDOWN SDLK_KP_ENTER) => ret 1
      | Some (SDL_KEYDOWN SDLK_ESCAPE) => ret 0
      | Some _ => show_confirm_loop n
      | None => SDL_Delay 50 ;; show_confirm_loop n
      end
  end.

(** ** Event handling *)

Definition key_left (l : Launcher) : Launcher :=
  if truthy (settings_selected l) then set_settings_selected 0 l
  else set_selected (Z.rem (selected l - 1 + NUM_APPS) NUM_APPS) l.

Definition key_right (l : Launcher) : Launcher :=
  if truthy (settings_selected l)
  then set_selected 0 (set_settings_selected 0 l)
  else set_selected (Z.rem (selected l + 1) NUM_APPS) l.

Definition key_up (l : Launcher) : Launcher :=
  if negb (truthy (settings_selected l)) then set_settings_selected 1 l
  else l.

Definition key_down (l : Launcher) : Launcher :=
  if truthy (settings_selected l) then set_settings_selected 0 l
  else l.

(** How a [case] of the switch ends: [break], or [return v]. *)
Inductive control := Break | Return (v : Z).

(** The body of [if (e.type == SDL_KEYDOWN)]. *)
Definition handle_keydown (sym : SDL_Keycode) : M control :=
  modify_l (set_needs_redraw 1) ;;
  match sym with
  | SDLK_ESCAPE | SDLK_q => ret (Return 0)
  | SDLK_LEFT => modify_l key_left ;; ret Break
  | SDLK_RIGHT => modify_l key_right ;; ret Break
  | SDLK_UP => modify_l key_up ;; ret Break
  | SDLK_DOWN => modify_l key_down ;; ret Break
  | SDLK_RETURN | SDLK_KP_ENTER =>
      l <- get_l ;;
      (if truthy (settings_selected l)
       then launch_app "gnome-control-center"
       else launch_app (app_command (selected l))) ;;
      modify_l (set_app_running 1) ;;
      SDL_HideWindow ;;
      ret Break
  | SDLK_r =>
      r <- show_confirm "Reboot" ;;
      (if truthy r then system "sudo reboot" else ret tt) ;;
      modify_l (set_needs_redraw 1) ;;
      ret Break
  | SDLK_p =>
      r <- show_confirm "Power Off" ;;
      (if truthy r then system "sudo poweroff" else ret tt) ;;
      modify_l (set_needs_redraw 1) ;;
      ret Break
  | SDLK_other => ret Break
  end.

(** [while (SDL_PollEvent(&e)) ...]; one unit of fuel per iteration. *)
Fixpoint handle_events_loop (fuel : nat) : M Z :=
  match fuel with
  | O => fun _ => OutOfFuel
  | S n =>
      e <- SDL_PollEvent ;;
      match e with
      | None => ret 1
      | Some SDL_QUIT => ret 0
      | Some (SDL_KEYDOWN sym) =>
          c <- handle_keydown sym ;;
          match c with
          | Return v => ret v
          | Break => handle_events_loop n
          end
      | Some SDL_OTHER => handle_events_loop n
      end
  end.

(** Every iteration takes an event off the script, and the iteration that
    finds it empty returns. *)
Definition handle_events : M Z :=
  fun w => handle_events_loop (S (List.length (sdl_queue w))) w.

(** ** Statistics thread *)

Definition wrap_signed (bits x : Z) : Z :=
  (x + 2 ^ (bits - 1)) mod 2 ^ bits - 2 ^ (bits - 1).
Definition wrap_unsigned (bits x : Z) : Z := x mod 2 ^ bits.

(** [(int) x] *)
Definition to_int (x : Z) : Z := wrap_signed 32 x.

Definition modify_stats (f : Stats -> Stats) : M unit :=
  modify_l (fun l => set_stats (f (stats l)) l).
Definition get_prev : M (Z * Z) :=
  fun w => Done (prev_idle w, prev_total w) w [].
Definition put_prev (i t : Z) : M unit :=
  fun w => Done tt (with_prev i t w) [].
Definition next_readings : M Readings :=
  fun w => Done (env_readings (env w) (n_sample w)) (tick_sample w) [].
Definition fault {A} : M A := fun _ => Fault [].
Definition sleep (s : Z) : M unit := emit (ESleep s).

Section Sampler.

(** Width of [long] and [unsigned long]: 64 on x86-64, 32 on the
    Raspberry Pi's hard-float ABI. *)
Variable long_bits : Z.

Definition to_long (x : Z) : Z := wrap_signed long_bits x.
Definition to_ulong (x : Z) : Z := wrap_unsigned long_bits x.

(** [read_cpu_stats(&idle, &total)]: both are left alone when /proc/stat
    gives nothing. *)
Definition read_cpu_stats (r : option CpuTicks) (idle total : Z) : Z * Z :=
  match r with
  | None => (idle, total)
  | Some c =>
      (to_long (t_idle c + t_iowait c),
       to_long (t_user c + t_nice c + t_sys c + t_idle c + t_iowait c
                + t_irq c + t_softirq c))
  end.

(** [100 * (total - free) / total] in [unsigned long], then [(int)]. *)
Definition used_percent (total free : Z) : Z :=
  to_int (to_ulong (100 * to_ulong (total - free)) / total).

Definition snapshot_differs (old new : Stats) : bool :=
  negb (cpu new =? cpu old) || negb (mem new =? mem old)
  || negb (temp new =? temp old) || negb (disk new =? disk old).

(** "CPU" *)
Definition sample_cpu (r : Readings) : M unit :=
  let (idle, total) := read_cpu_stats (proc_stat r) 0 0 in
  prev <- get_prev ;;
  (if 0 <? snd prev then
     let idle_d := to_long (idle - fst prev) in
     let total_d := to_long (total - snd prev) in
     if 0 <? total_d
     then modify_stats
            (set_cpu (to_int (100 - to_int (Z.quot (to_long (100 * idle_d)) total_d))))
     else ret tt
   else ret tt) ;;
  put_prev idle total.

(** "Memory" *)
Definition sample_mem (r : Readings) : M unit :=
  match sys_info r with
  | Some si =>
      let total_mem := to_ulong (totalram si * mem_unit si) in
      let free_mem := to_ulong (freeram si * mem_unit si) in
      let buffers := to_ulong (bufferram si * mem_unit si) in
      let avail := to_ulong (free_mem + buffers) in
      if total_mem =? 0 then fault
      else modify_stats (set_mem (used_percent total_mem avail))
  | None => ret tt
  end.

(** "Temperature" *)
Definition sample_temp (r : Readings) : M unit :=
  match thermal_zone0 r with
  | Some temp_milli => modify_stats (set_temp (Z.quot temp_milli 1000))
  | None => ret tt
  end.

(** "Disk" *)
Definition sample_disk (r : Readings) : M unit :=
  match statvfs_root r with
  | Some sv =>
      let total_d := to_ulong (f_blocks sv * f_frsize sv) in
      let free_d := to_ulong (f_bavail sv * f_frsize sv) in
      if total_d =? 0 then fault
      else modify_stats (set_disk (used_percent total_d free_d))
  | None => ret tt
  end.

(** "Check if changed" *)
Definition check_changed (old : Stats) : M unit :=
  l <- get_l ;;
  if snapshot_differs old (stats l)
  then modify_stats (set_changed 1) ;; emit EStatsChanged
  else ret tt.

(** One iteration of [while (l->stats.running)]. *)
Definition stats_thread_body : M unit :=
  l <- get_l ;;
  let old := stats l in
  r <- next_readings ;;
  sample_cpu r ;;
  sample_mem r ;;
  sample_temp r ;;
  sample_disk r ;;
  check_changed old ;;
  sleep 2.

(** The first [n] iterations of the thread's loop. *)
Fixpoint stats_thread_func (n : nat) : M unit :=
  match n with
  | O => ret tt
  | S n' =>
      l <- get_l ;;
      if truthy (running (stats l))
      then stats_thread_body ;; stats_thread_func n'
      else ret tt
  end.

End Sampler.

(** ** Main loop *)

(** "Check clock minute change" *)
Definition check_minute : M unit :=
  t <- localtime_now ;;
  let current_minute := tm_hour t * 60 + tm_min t in
  l <- get_l ;;
  if negb (current_minute =? last_minute l)
  then modify_l (set_last_minute current_minute) ;;
       modify_l (set_needs_redraw 1)
  else ret tt.

(** "Check stats change" *)
Definition check_stats : M unit :=
  l <- get_l ;;
  if truthy (changed (stats l))
  then modify_stats (set_changed 0) ;; modify_l (set_needs_redraw 1)
  else ret tt.

(** "Redraw if needed" *)
Definition redraw_if_needed : M unit :=
  l <- get_l ;;
  if truthy (needs_redraw l)
  then draw ;; modify_l (set_needs_redraw 0)
  else ret tt.

(** "Check if launched app is still running"; [true] is the [continue]. *)
Definition check_app : M bool :=
  l <- get_l ;;
  if truthy (app_running l) then
    r <- is_app_running ;;
    if negb (truthy r) then
      modify_l (set_app_running 0) ;;
      SDL_ShowWindow ;;
      SDL_RaiseWindow ;;
      modify_l (set_needs_redraw 1) ;;
      ret false
    else
      SDL_Delay 200 ;;
      ret true
  else ret false.

(** One iteration of [while (1)] in [run]; [false] is the [break]. *)
Definition run_iter : M bool :=
  go <- handle_events ;;
  if negb (truthy go) then ret false
  else
    skip <- check_app ;;
    if skip then ret true
    else
      check_minute ;;
      check_stats ;;
      redraw_if_needed ;;
      SDL_Delay 50 ;;
      ret true.

(** [run], cut after [ticks] iterations. *)
Fixpoint run_loop (ticks : nat) : M unit :=
  match ticks with
  | O => fun _ => OutOfFuel
  | S n => go <- run_iter ;; if go then run_loop n else ret tt
  end.

Definition run (ticks : nat) : M unit :=
  draw ;;
  modify_l (set_needs_redraw 0) ;;
  run_loop ticks.

(** The state [launcher_create] leaves. *)
Definition launcher_create : Launcher :=
  {| selected := 0; settings_selected := 0; needs_redraw := 1;
     last_minute := -1; app_running := 0;
     stats := {| cpu := 0; mem := 0; temp := 0; disk := 0;
                 changed := 0; running := 1 |} |}.

Definition initial_world (e : Env) (q : list (option SDL_Event)) : World :=
  {| launcher := launcher_create; launched_app_pid := 0;
     window_shown := true; prev_idle := 0; prev_total := 0;
     sdl_queue := q; n_fork := 0; n_waitpid := 0; n_time := 0;
     n_sample := 0; env := e |}.

(** * Definitions used by the statements *)

(** ** The specification's navigation table (section 4.3) *)

Inductive focus := TilesFocused (tile : Z) | SettingsFocused (last_tile : Z).

Inductive dir_key := KLeft | KRight | KUp | KDown.

Definition keycode (k : dir_key) : SDL_Keycode :=
  match k with
  | KLeft => SDLK_LEFT | KRight => SDLK_RIGHT
  | KUp => SDLK_UP | KDown => SDLK_DOWN
  end.

(** The table, in the specification's words: previous and next tile with
    wrap, settings above the grid, left keeps the last tile, right goes to
    tile 0. *)
Definition spec_transition (k : dir_key) (f : focus) : focus :=
  match f, k with
  | TilesFocused i, KLeft => TilesFocused (if i =? 0 then NUM_APPS - 1 else i - 1)
  | TilesFocused i, KRight => TilesFocused (if i =? NUM_APPS - 1 then 0 else i + 1)
  | TilesFocused i, KUp => SettingsFocused i
  | TilesFocused i, KDown => TilesFocused i
  | SettingsFocused i, KLeft => TilesFocused i
  | SettingsFocused _, KRight => TilesFocused 0
  | SettingsFocused i, KUp => SettingsFocused i
  | SettingsFocused i, KDown => TilesFocused i
  end.

(** The focus a launcher state stands for. *)
Definition focus_of (l : Launcher) : focus :=
  if truthy (settings_selected l) then SettingsFocused (selected l)
  else TilesFocused (selected l).

Definition key_fun (k : dir_key) : Launcher -> Launcher :=
  match k with
  | KLeft => key_left | KRight => key_right
  | KUp => key_up | KDown => key_down
  end.

(** ** Sample environments and worlds *)

(** Every launch succeeds with pid 4242, the child is seen running on the
    first poll and gone on the next ones, the clock reads 10:59 three times
    and 11:00 from then on, and no telemetry source can be read. *)
Definition sample_env : Env :=
  {| env_fork := fun _ => Spawned 4242;
     env_waitpid := fun n => match n with O => ChildRunning | _ => ChildExited end;
     env_time := fun n => if (n <? 3)%nat
                          then {| tm_hour := 10; tm_min := 59 |}
                          else {| tm_hour := 11; tm_min := 0 |};
     env_readings := fun _ => {| proc_stat := None; sys_info := None;
                                 thermal_zone0 := None; statvfs_root := None |} |}.

(** The same machine when [fork] fails. *)
Definition failing_env : Env :=
  {| env_fork := fun _ => SpawnFailed;
     env_waitpid := env_waitpid sample_env;
     env_time := env_time sample_env;
     env_readings := env_readings sample_env |}.

(** The launcher at rest on tile [i], after its first frame. *)
Definition idle_world (e : Env) (i : Z) (q : list (option SDL_Event)) : World :=
  with_launcher (set_selected i (set_needs_redraw 0 launcher_create))
                (initial_world e q).

(** ** Observations on traces and worlds *)

Definition is_draw (e : Effect) : bool :=
  match e with EDraw _ => true | _ => false end.

Definition is_flag_store (e : Effect) : bool :=
  match e with EStatsChanged => true | _ => false end.

Definition count_draws (tr : list Effect) : nat :=
  List.length (filter is_draw tr).

Definition count_flag_stores (tr : list Effect) : nat :=
  List.length (filter is_flag_store tr).

(** The minute the next [time] call reads, as [run] computes it. *)
Definition minute_read (w : World) : Z :=
  let t := env_time (env w) (n_time w) in tm_hour t * 60 + tm_min t.

(** No key event among the events the next [handle_events] drains. *)
Fixpoint no_key_pending (q : list (option SDL_Event)) : bool :=
  match q with
  | [] => true
  | None :: _ => true
  | Some (SDL_KEYDOWN _) :: _ => false
  | Some SDL_QUIT :: _ => true
  | Some SDL_OTHER :: q' => no_key_pending q'
  end.

(** ** Confirmation gating, as a monitor on traces *)

(** [system cmd] is authorised when the effect of the main thread just
    before it is the dialog of the matching action returning 1.  The effects
    of the statistics thread can fall anywhere in between and are skipped. *)
Definition authorises (prev : option Effect) (cmd : string) : bool :=
  match prev with
  | Some (EConfirm action true) =>
      (String.eqb action "Reboot" && String.eqb cmd "sudo reboot")
      || (String.eqb action "Power Off" && String.eqb cmd "sudo poweroff")
  | _ => false
  end.

Fixpoint gated (prev : option Effect) (tr : list Effect) : bool :=
  match tr with
  | [] => true
  | ESystem cmd :: tr' => authorises prev cmd && gated (Some (ESystem cmd)) tr'
  | ESleep _ :: tr' | EStatsChanged :: tr' => gated prev tr'
  | e :: tr' => gated (Some e) tr'
  end.

Fixpoint last_effect (prev : option Effect) (tr : list Effect) : option Effect :=
  match tr with
  | [] => prev
  | ESleep _ :: tr' | EStatsChanged :: tr' => last_effect prev tr'
  | e :: tr' => last_effect (Some e) tr'
  end.

(** A piece of trace that is gated wherever it is placed. *)
Definition safe (tr : list Effect) : Prop := forall prev, gated prev tr = true.

(** Traces of the executions of the two threads, interleaved at whole
    iterations: main-loop iterations, the last of which may break out of
    the loop or wait in the dialog for ever, and iterations of the
    statistics thread. *)
Inductive exec (long_bits : Z) : World -> list Effect -> Prop :=
| exec_stop w : exec long_bits w []
| exec_tick w w1 tr1 tr2 :
    run_iter w = Done true w1 tr1 ->
    exec long_bits w1 tr2 ->
    exec long_bits w (tr1 ++ tr2)
| exec_break w w1 tr1 :
    run_iter w = Done false w1 tr1 ->
    exec long_bits w tr1
| exec_blocked w tr1 :
    run_iter w = Blocked tr1 ->
    exec long_bits w tr1
| exec_sample w w1 tr1 tr2 :
    stats_thread_body long_bits w = Done tt w1 tr1 ->
    exec long_bits w1 tr2 ->
    exec long_bits w (tr1 ++ tr2)
| exec_sample_fault w tr1 tr2 :
    stats_thread_body long_bits w = Fault tr1 ->
    exec long_bits w tr2 ->
    exec long_bits w (tr1 ++ tr2).

(** What a computation emits, whether it ends or not. *)
Definition emits {A} (P : list Effect -> Prop) (m : M A) : Prop :=
  forall w,
    match m w with
    | Done _ _ tr | Blocked tr | Fault tr => P tr
    | OutOfFuel => True
    end.

(** Whether steps 3 to 5 of an iteration end in a repaint: the minute
    differs from the recorded one, the statistics thread flagged a change,
    or a redraw was already requested. *)
Definition redraw_due (w : World) : bool :=
  negb (minute_read w =? last_minute (launcher w))
  || truthy (changed (stats (launcher w)))
  || truthy (needs_redraw (launcher w)).

(** The rest of an iteration once no child holds the display. *)
Definition tick_tail : M bool :=
  check_minute ;;
  check_stats ;;
  redraw_if_needed ;;
  SDL_Delay 50 ;;
  ret true.

(** What [handle_events] leaves alone. *)
Definition events_frame (w w' : World) : Prop :=
  env w' = env w /\ n_time w' = n_time w /\ n_waitpid w' = n_waitpid w /\
  last_minute (launcher w') = last_minute (launcher w) /\
  stats (launcher w') = stats (launcher w).

(** What the statistics thread leaves alone: everything the main thread
    owns. *)
Definition main_state_kept (w w' : World) : Prop :=
  selected (launcher w') = selected (launcher w) /\
  settings_selected (launcher w') = settings_selected (launcher w) /\
  needs_redraw (launcher w') = needs_redraw (launcher w) /\
  last_minute (launcher w') = last_minute (launcher w) /\
  app_running (launcher w') = app_running (launcher w) /\
  running (stats (launcher w')) = running (stats (launcher w)) /\
  launched_app_pid w' = launched_app_pid w /\
  window_shown w' = window_shown w /\
  sdl_queue w' = sdl_queue w /\
  n_fork w' = n_fork w /\ n_waitpid w' = n_waitpid w /\
  n_time w' = n_time w /\ env w' = env w.

(** A machine whose thermal sensor reads 45.2 degrees and nothing else. *)
Definition warm_env : Env :=
  {| env_fork := env_fork sample_env;
     env_waitpid := env_waitpid sample_env;
     env_time := env_time sample_env;
     env_readings := fun _ => {| proc_stat := None; sys_info := None;
                                 thermal_zone0 := Some 45200;
                                 statvfs_root := None |} |}.

(** A block of the sampling cycle stores at most its own field, or faults
    on a zero total. *)
Definition sample_block (m : M unit) : Prop :=
  forall w,
    match m w with
    | Done _ w' tr =>
        tr = [] /\ main_state_kept w w' /\
        changed (stats (launcher w')) = changed (stats (launcher w))
    | Fault tr => tr = []
    | Blocked _ | OutOfFuel => False
    end.

(** Kodi selected, Enter pressed, and [fork] about to fail. *)
Definition failed_launch_world : World :=
  idle_world failing_env 0 [Some (SDL_KEYDOWN SDLK_RETURN)].

(** The launcher at rest at 10:59, two clock reads into the run, with
    nothing to handle for two iterations. *)
Definition before_rollover : World :=
  tick_time (tick_time
    (with_launcher (set_last_minute 659 (set_needs_redraw 0 launcher_create))
                   (initial_world sample_env [None; None]))).
Definition is_system (e : Effect) : bool :=
  match e with ESystem _ => true | _ => false end.


(** ** Reachable worlds *)

(** What holds between any two events and between any two iterations: the
    selection is an index of [apps], and a pid is tracked only while an app
    is marked running. *)
Definition launcher_invariant (w : World) : Prop :=
  0 <= selected (launcher w) < NUM_APPS /\
  0 <= launched_app_pid w /\
  (app_running (launcher w) = 0 -> launched_app_pid w = 0).

(** The worlds at the head of the main loop, from [launcher_create] on,
    with the statistics thread running alongside. *)
Inductive reachable (long_bits : Z) (e : Env) (q : list (option SDL_Event))
  : World -> Prop :=
| reach_start w tr :
    (draw ;; modify_l (set_needs_redraw 0)) (initial_world e q) = Done tt w tr ->
    reachable long_bits e q w
| reach_tick w w1 tr :
    reachable long_bits e q w ->
    run_iter w = Done true w1 tr ->
    reachable long_bits e q w1
| reach_sample w w1 tr :
    reachable long_bits e q w ->
    stats_thread_body long_bits w = Done tt w1 tr ->
    reachable long_bits e q w1.

(** The totals a sampling cycle divides by. *)
Definition totals_nonzero (long_bits : Z) (r : Readings) : Prop :=
  (forall si, sys_info r = Some si ->
     to_ulong long_bits (totalram si * mem_unit si) <> 0) /\
  (forall sv, statvfs_root r = Some sv ->
     to_ulong long_bits (f_blocks sv * f_frsize sv) <> 0).

(** * The rest of launcher.c *)

(** ** Colours of the statistics *)

Record SDL_Color := { c_r : Z; c_g : Z; c_b : Z; c_a : Z }.

Definition make_color (r g b a : Z) : SDL_Color :=
  {| c_r := r; c_g := g; c_b := b; c_a := a |}.

Definition COL_GREEN : SDL_Color := make_color 0x3C 0xEC 0x85 0xFF.
Definition COL_YELLOW : SDL_Color := make_color 0xEA 0xCD 0x61 0xFF.
Definition COL_RED : SDL_Color := make_color 0xE3 0x55 0x35 0xFF.
Definition COL_ORANGE : SDL_Color := make_color 0xFF 0x95 0x5C 0xFF.

Definition get_stat_color (value is_temp : Z) : SDL_Color :=
  if truthy is_temp then
    if 70 <=? value then COL_RED
    else if 55 <=? value then COL_ORANGE
    else if 45 <=? value then COL_YELLOW
    else COL_GREEN
  else
    if 80 <=? value then COL_RED
    else if 60 <=? value then COL_YELLOW
    else COL_GREEN.

(** ** What a frame highlights *)

(** [is_sel] of tile [i] in [draw]. *)
Definition tile_is_sel (f : Frame) (i : Z) : bool :=
  (i =? fr_selected f) && negb (truthy (fr_settings_selected f)).

(** The branch [draw] takes for the settings icon. *)
Definition settings_is_sel (f : Frame) : bool :=
  truthy (fr_settings_selected f).

(** ** Layout *)

Definition TILE_WIDTH : Z := 140.
Definition TILE_HEIGHT : Z := 130.
Definition TILE_SPACING : Z := 20.
Definition TILE_RADIUS : Z := 16.

Record SDL_Rect := { rx : Z; ry : Z; rw : Z; rh : Z }.

(** The layout fields of [Launcher]. *)
Record Layout := {
  width : Z;
  height : Z;
  tile_rects : list SDL_Rect;
  stats_bar_x : Z;
  stats_bar_y : Z;
  stats_bar_w : Z;
  stats_bar_h : Z
}.

(** [calc_layout].  [grid_y] stands for [(int)(l->height * 0.48)], computed
    in floating point and taken here as given. *)
Definition calc_layout (grid_y : Z) (l : Layout) : Layout :=
  let total_w := NUM_APPS * TILE_WIDTH + (NUM_APPS - 1) * TILE_SPACING in
  let grid_x := Z.quot (width l - total_w) 2 in
  {| width := width l;
     height := height l;
     tile_rects :=
       map (fun i => {| rx := grid_x + i * (TILE_WIDTH + TILE_SPACING);
                        ry := grid_y; rw := TILE_WIDTH; rh := TILE_HEIGHT |})
           [0; 1; 2; 3; 4];
     stats_bar_x := Z.quot (width l - stats_bar_w l) 2;
     stats_bar_y := height l - stats_bar_h l - 65;
     stats_bar_w := stats_bar_w l;
     stats_bar_h := stats_bar_h l |}.

(** What [cache_surfaces] writes to the layout fields. *)
Definition cache_surfaces (l : Layout) : Layout :=
  {| width := width l; height := height l; tile_rects := tile_rects l;
     stats_bar_x := stats_bar_x l; stats_bar_y := stats_bar_y l;
     stats_bar_w := 600; stats_bar_h := 100 |}.

(** The layout [launcher_create] builds: the structure comes zeroed from
    [calloc], the window size is stored, then "Calculate layout" and
    "Cache surfaces" run in this order. *)
Definition launcher_create_layout (actual_w actual_h grid_y : Z) : Layout :=
  cache_surfaces
    (calc_layout grid_y
       {| width := actual_w; height := actual_h; tile_rects := [];
          stats_bar_x := 0; stats_bar_y := 0;
          stats_bar_w := 0; stats_bar_h := 0 |}).

(** [stats_dst] in [draw]. *)
Definition stats_dst (l : Layout) : SDL_Rect :=
  {| rx := stats_bar_x l; ry := stats_bar_y l;
     rw := stats_bar_w l; rh := stats_bar_h l |}.

(** ** Rounded rectangles *)

Inductive RenderOp :=
| FillRect (r : SDL_Rect)
| DrawLine (x1 y1 x2 y2 : Z).

(** The states [(x, y, d)] at which the body of [while (x >= y)] runs, one
    unit of fuel per iteration. *)
Fixpoint circle_steps (fuel : nat) (x y d : Z) : option (list (Z * Z * Z)) :=
  if x >=? y then
    match fuel with
    | O => None
    | S n =>
        let y' := y + 1 in
        let rest :=
          if d <? 0 then circle_steps n x y' (d + (2 * y' + 1))
          else circle_steps n (x - 1) y' (d + (2 * (y' - (x - 1)) + 1)) in
        match rest with
        | Some l => Some ((x, y, d) :: l)
        | None => None
        end
    end
  else Some [].

(** The four lines of one iteration. *)
Definition corner_lines (x0 y0 : Z) (s : Z * Z * Z) : list RenderOp :=
  let '(x, y, _) := s in
  [ DrawLine (x0 - x) (y0 + y) (x0 + x) (y0 + y);
    DrawLine (x0 - x) (y0 - y) (x0 + x) (y0 - y);
    DrawLine (x0 - y) (y0 + x) (x0 + y) (y0 + x);
    DrawLine (x0 - y) (y0 - x) (x0 + y) (y0 - x) ].

Definition draw_corner (radius : Z) (c : Z * Z) : option (list RenderOp) :=
  match circle_steps (S (Z.to_nat radius)) radius 0 (1 - radius) with
  | Some l => Some (flat_map (corner_lines (fst c) (snd c)) l)
  | None => None
  end.

(** [draw_rounded_rect]: the render calls in order, [None] if a corner loop
    ran out of fuel (it does not, see [circle_steps_ends]). *)
Definition draw_rounded_rect (rect : SDL_Rect) (radius : Z)
  : option (list RenderOp) :=
  let center := {| rx := rx rect + radius; ry := ry rect;
                   rw := rw rect - 2 * radius; rh := rh rect |} in
  let sides := {| rx := rx rect; ry := ry rect + radius;
                  rw := rw rect; rh := rh rect - 2 * radius |} in
  let corners :=
    [ (rx rect + radius, ry rect + radius);
      (rx rect + rw rect - radius - 1, ry rect + radius);
      (rx rect + radius, ry rect + rh rect - radius - 1);
      (rx rect + rw rect - radius - 1, ry rect + rh rect - radius - 1) ] in
  match map (draw_corner radius) corners with
  | [Some a; Some b; Some c; Some d] =>
      Some (FillRect center :: FillRect sides :: a ++ b ++ c ++ d)
  | _ => None
  end.

(** ** Fonts *)

(** A font handle, as [TTF_OpenFont] returns it, or [None] for NULL. *)
Definition TTF_Font := Z.

(** The first path of the list that opens. *)
Fixpoint open_first (open : string -> Z -> option TTF_Font)
    (paths : list string) (size : Z) : option TTF_Font :=
  match paths with
  | [] => None
  | p :: rest =>
      match open p size with
      | Some f => Some f
      | None => open_first open rest size
      end
  end.

Definition default_fonts : list string :=
  [ "/usr/share/fonts/TTF/DejaVuSans.ttf";
    "/usr/share/fonts/truetype/dejavu/DejaVuSans.ttf";
    "/usr/share/fonts/dejavu/DejaVuSans.ttf";
    "/usr/share/fonts/noto/NotoSans-Regular.ttf";
    "/usr/share/fonts/google-noto/NotoSans-Regular.ttf";
    "/usr/share/fonts/Adwaita/AdwaitaSans-Regular.ttf";
    "/usr/share/fonts/liberation/LiberationSans-Regular.ttf";
    "/usr/share/fonts/TTF/LiberationSans-Regular.ttf" ].

Definition nerd_fonts : list string :=
  [ "/usr/share/fonts/TTF/JetBrainsMonoNerdFont-Regular.ttf";
    "/usr/share/fonts/TTF/JetBrainsMonoNerdFontMono-Regular.ttf";
    "/usr/share/fonts/TTF/JetBrainsMonoNLNerdFont-Regular.ttf";
    "/usr/share/fonts/TTF/JetBrainsMonoNLNerdFontMono-Regular.ttf" ].

Definition load_font (open : string -> Z -> option TTF_Font)
    (path : option string) (size : Z) : option TTF_Font :=
  match match path with Some p => open p size | None => None end with
  | Some f => Some f
  | None => open_first open default_fonts size
  end.

Definition load_nerd_font (open : string -> Z -> option TTF_Font)
    (size : Z) : option TTF_Font :=
  open_first open nerd_fonts size.

(** The seven font fields of [Launcher]. *)
Record Fonts := {
  font_clock : option TTF_Font;
  font_date : option TTF_Font;
  font_tile : option TTF_Font;
  font_stat_value : option TTF_Font;
  font_stat_label : option TTF_Font;
  font_icon : option TTF_Font;
  font_icon_small : option TTF_Font
}.

(** "Load fonts" in [launcher_create]: [None] is the fatal return (clock or
    tile font missing); without a Nerd Font both icon fields take the
    pointers of the tile and label fonts. *)
Definition load_fonts (open : string -> Z -> option TTF_Font) : option Fonts :=
  let clock := load_font open None 180 in
  let date := load_font open None 42 in
  let tile := load_font open None 22 in
  let stat_value := load_font open None 36 in
  let stat_label := load_font open None 16 in
  let icon := load_nerd_font open 42 in
  let icon_small := load_nerd_font open 22 in
  match clock, tile with
  | None, _ => None
  | _, None => None
  | Some _, Some _ =>
      match icon with
      | None =>
          Some {| font_clock := clock; font_date := date; font_tile := tile;
                  font_stat_value := stat_value; font_stat_label := stat_label;
                  font_icon := tile; font_icon_small := stat_label |}
      | Some _ =>
          Some {| font_clock := clock; font_date := date; font_tile := tile;
                  font_stat_value := stat_value; font_stat_label := stat_label;
                  font_icon := icon; font_icon_small := icon_small |}
      end
  end.

(** "Free fonts" in [launcher_destroy]: the handles given to
    [TTF_CloseFont], in order. *)
Definition close_fonts (f : Fonts) : list TTF_Font :=
  flat_map (fun o => match o with Some h => [h] | None => [] end)
    [ font_clock f; font_date f; font_tile f; font_stat_value f;
      font_stat_label f; font_icon f; font_icon_small f ].

(** ** Definitions used by the statements on the rest *)

(** Green, yellow, orange, red, in this order. *)
Definition severity (c : SDL_Color) : Z :=
  if c_r c =? c_r COL_RED then 3
  else if c_r c =? c_r COL_ORANGE then 2
  else if c_r c =? c_r COL_YELLOW then 1
  else 0.

(** The pixels of a rectangle and of a horizontal line lie in [rect]. *)
Definition rect_within (rect r : SDL_Rect) : Prop :=
  rx rect <= rx r /\ rx r + rw r <= rx rect + rw rect /\
  ry rect <= ry r /\ ry r + rh r <= ry rect + rh rect.

Definition op_within (rect : SDL_Rect) (op : RenderOp) : Prop :=
  match op with
  | FillRect r => rect_within rect r
  | DrawLine x1 y1 x2 y2 =>
      y1 = y2 /\ rx rect <= x1 <= x2 /\ x2 < rx rect + rw rect /\
      ry rect <= y1 < ry rect + rh rect
  end.

(** The events the confirmation dialog throws away. *)
Definition dialog_ignores (e : SDL_Event) : bool :=
  match e with
  | SDL_KEYDOWN SDLK_RETURN | SDL_KEYDOWN SDLK_KP_ENTER
  | SDL_KEYDOWN SDLK_ESCAPE => false
  | _ => true
  end.

(** The launcher window is on screen exactly when no app is marked
    running. *)
Definition visibility_invariant (w : World) : Prop :=
  app_running (launcher w) = 0 <-> window_shown w = true.

(** A cycle in which no source can be read. *)
Definition no_readings : Readings :=
  {| proc_stat := None; sys_info := None;
     thermal_zone0 := None; statvfs_root := None |}.

(** How many of the settings icon and the five tiles a frame draws as
    selected. *)
Definition highlights (f : Frame) : nat :=
  ((if settings_is_sel f then 1 else 0)
   + List.length (filter (tile_is_sel f) [0; 1; 2; 3; 4]%Z))%nat.

(** The events that end [handle_events] with 0. *)
Definition quits (e : SDL_Event) : bool :=
  match e with
  | SDL_QUIT | SDL_KEYDOWN SDLK_ESCAPE | SDL_KEYDOWN SDLK_q => true
  | _ => false
  end.

(** What the blocks after "CPU" leave alone. *)
Definition cpu_state_kept (w w' : World) : Prop :=
  cpu (stats (launcher w')) = cpu (stats (launcher w)) /\
  prev_idle w' = prev_idle w /\ prev_total w' = prev_total w /\
  n_sample w' = n_sample w /\ env w' = env w.

(** [idle] and [total] as [read_cpu_stats] computes them, before any
    wrap-around. *)
Definition idle_ticks (c : CpuTicks) : Z := t_idle c + t_iowait c.
Definition total_ticks (c : CpuTicks) : Z :=
  t_user c + t_nice c + t_sys c + t_idle c + t_iowait c + t_irq c + t_softirq c.

(** The tick counters of /proc/stat count up from zero at boot: none is
    negative, and between two reads none goes back. *)
Definition ticks_nonneg (c : CpuTicks) : Prop :=
  0 <= t_user c /\ 0 <= t_nice c /\ 0 <= t_sys c /\ 0 <= t_idle c /\
  0 <= t_iowait c /\ 0 <= t_irq c /\ 0 <= t_softirq c.
Definition ticks_le (p c : CpuTicks) : Prop :=
  t_user p <= t_user c /\ t_nice p <= t_nice c /\ t_sys p <= t_sys c /\
  t_idle p <= t_idle c /\ t_iowait p <= t_iowait c /\ t_irq p <= t_irq c /\
  t_softirq p <= t_softirq c.

(** The counters read by the cycle before [sampling_world]. *)
Definition earlier_ticks : CpuTicks :=
  {| t_user := 300; t_nice := 0; t_sys := 200; t_idle := 960;
     t_iowait := 40; t_irq := 0; t_softirq := 0 |}.

(** A machine that reads the CPU counters, the memory and the root file
    system: 8 GiB of RAM in 4 KiB units with a quarter free or in buffers,
    a disk of a million 4 KiB blocks with 40% available. *)
Definition busy_env : Env :=
  {| env_fork := env_fork sample_env;
     env_waitpid := env_waitpid sample_env;
     env_time := env_time sample_env;
     env_readings := fun _ =>
       {| proc_stat := Some {| t_user := 700; t_nice := 0; t_sys := 250;
                               t_idle := 1000; t_iowait := 50; t_irq := 0;
                               t_softirq := 0 |};
          sys_info := Some {| totalram := 2097152; freeram := 393216;
                              bufferram := 131072; mem_unit := 4096 |};
          thermal_zone0 := Some 45200;
          statvfs_root := Some {| f_blocks := 1000000; f_bavail := 400000;
                                  f_frsize := 4096 |} |} |}.

(** The statistics thread one cycle in, with counters of 1000 idle ticks
    out of 1500. *)
Definition sampling_world : World :=
  with_prev 1000 1500 (idle_world busy_env 0 []).

(** A state of the corner loop on the circle of radius [r] in the first
    octant: [x * x + y * y] differs from [r * r] by at most [x], which is
    less than one pixel off the circle, with [d] far from the limits of
    [int]. *)
Definition on_circle (r : Z) (s : Z * Z * Z) : Prop :=
  let '(x, y, d) := s in
  0 <= y <= x /\ x <= r /\
  - x <= x * x + y * y - r * r <= x /\
  - (2 * r) <= d <= 2 * r + 1.

(** The loop invariant of [while (x >= y)]. *)
Definition circle_invariant (r x y d : Z) : Prop :=
  d = (y + 1) * (y + 1) + x * x - x - r * r /\
  0 <= y /\ x <= r /\
  - x <= x * x + y * y - r * r /\
  (y <= x -> x * x + y * y - r * r <= x).

(** The tile [calc_layout] puts at column [i] of a grid starting at
    [grid_x]. *)
Definition tile_at (grid_x grid_y i : Z) : SDL_Rect :=
  {| rx := grid_x + i * 160; ry := grid_y; rw := 140; rh := 130 |}.

(** A machine with DejaVu Sans in the Arch location and no other font;
    each size opens as its own handle. *)
Definition only_dejavu (p : string) (size : Z) : option TTF_Font :=
  if String.eqb p "/usr/share/fonts/TTF/DejaVuSans.ttf"
  then Some (1000 + size) else None.

(** The first [n] iterations of [while (1)] in [run]; [false] when one of
    them left the loop. *)
Fixpoint run_ticks (n : nat) : M bool :=
  match n with
  | O => ret true
  | S k => go <- run_iter ;; if go then run_ticks k else ret false
  end.

(** Kodi was launched as pid 4242 and runs for as long as it is polled. *)
Definition kodi_running : World :=
  with_pid 4242
    (with_window false
       (with_launcher (set_app_running 1 (set_needs_redraw 0 launcher_create))
          (initial_world
             {| env_fork := env_fork sample_env;
                env_waitpid := fun _ => ChildRunning;
                env_time := env_time sample_env;
                env_readings := env_readings sample_env |}
             []))).

(** ** The two threads, statement by statement *)

(** The threads share [l->stats] without a lock or an atomic, so each can
    run between any two statements of the other.  The stores of one
    sampling cycle to the shared snapshot, in program order: "CPU",
    "Memory", "Temperature" and "Disk". *)
Definition field_stores (long_bits : Z) (r : Readings) : list (M unit) :=
  [sample_cpu long_bits r; sample_mem long_bits r; sample_temp r;
   sample_disk long_bits r].

Fixpoint run_all (ms : list (M unit)) : M unit :=
  match ms with
  | [] => ret tt
  | m :: ms' => m ;; run_all ms'
  end.

(** One iteration of [while (l->stats.running)] with the code [main] of
    the main thread running after its first [k] stores; with nothing to
    run it is [stats_thread_body]. *)
Definition stats_thread_body_with
    (long_bits : Z) (k : nat) (main : M unit) : M unit :=
  l <- get_l ;;
  let old := stats l in
  r <- next_readings ;;
  run_all (firstn k (field_stores long_bits r)) ;;
  main ;;
  run_all (skipn k (field_stores long_bits r)) ;;
  check_changed old ;;
  sleep 2.

(** "Check stats change" with the code [sampler] of the statistics thread
    running between the test of [l->stats.changed] and the statement that
    clears it; with nothing to run it is [check_stats]. *)
Definition check_stats_with (sampler : M unit) : M unit :=
  l <- get_l ;;
  sampler ;;
  if truthy (changed (stats l))
  then modify_stats (set_changed 0) ;; modify_l (set_needs_redraw 1)
  else ret tt.

(** What a frame shows of the snapshot, and the snapshot itself, as
    (cpu, mem, temp, disk). *)
Definition shown (f : Frame) : Z * Z * Z * Z :=
  (fr_cpu f, fr_mem f, fr_temp f, fr_disk f).
Definition snapshot (w : World) : Z * Z * Z * Z :=
  (cpu (stats (launcher w)), mem (stats (launcher w)),
   temp (stats (launcher w)), disk (stats (launcher w))).

(** A machine whose readings move between the first cycle and the later
    ones: from 75% to 80% of memory used, from 45.2 to 50 degrees, from 60%
    to 61% of the disk used, and 500 ticks of which 50 idle. *)
Definition drifting_env : Env :=
  {| env_fork := env_fork sample_env;
     env_waitpid := env_waitpid sample_env;
     env_time := env_time sample_env;
     env_readings := fun n =>
       match n with
       | O => env_readings busy_env 0
       | S _ =>
           {| proc_stat := Some {| t_user := 1100; t_nice := 0; t_sys := 300;
                                   t_idle := 1040; t_iowait := 60; t_irq := 0;
                                   t_softirq := 0 |};
              sys_info := Some {| totalram := 1000; freeram := 150;
                                  bufferram := 50; mem_unit := 4096 |};
              thermal_zone0 := Some 50000;
              statvfs_root := Some {| f_blocks := 1000000; f_bavail := 390000;
                                      f_frsize := 4096 |} |}
       end |}.

(** The flag is up from an earlier cycle, and the snapshot has moved since
    the cycle in progress read it. *)
Definition flagged_world : World :=
  with_launcher
    (set_stats (set_changed 1 (set_temp 50 (stats launcher_create)))
       (set_needs_redraw 0 launcher_create))
    (initial_world sample_env []).

(** * Properties *)

(** ** Small facts about the monad and the state *)

Lemma truthy_true (z : Z) : truthy z = true <-> z <> 0.
Proof.
  unfold truthy. destruct (Z.eqb_spec z 0); simpl; split; intros; congruence.
Qed.

Lemma truthy_false (z : Z) : truthy z = false <-> z = 0.
Proof.
  unfold truthy. destruct (Z.eqb_spec z 0); simpl; split; intros; congruence.
Qed.

Lemma with_launcher_id (w : World) : with_launcher (launcher w) w = w.
Proof. destruct w; reflexivity. Qed.

(** A directional key only runs its pure step, after the redraw request. *)
Lemma handle_keydown_dir (k : dir_key) (w : World) :
  handle_keydown (keycode k) w =
  Done Break (with_launcher (key_fun k (set_needs_redraw 1 (launcher w))) w) [].
Proof. destruct k; reflexivity. Qed.

Lemma key_fun_focus (k : dir_key) (l : Launcher) :
  0 <= selected l < NUM_APPS ->
  focus_of (key_fun k l) = spec_transition k (focus_of l).
Proof.
  intros Hsel. unfold focus_of, NUM_APPS in *.
  destruct k; simpl; unfold key_left, key_right, key_up, key_down;
    destruct (truthy (settings_selected l)) eqn:Hs; simpl; try rewrite Hs;
    try reflexivity.
  - (* left among the tiles *)
    unfold NUM_APPS. f_equal.
    destruct (Z.eqb_spec (selected l) 0) as [E | E].
    + rewrite E. reflexivity.
    + replace (selected l - 1 + 5) with (selected l - 1 + 1 * 5) by lia.
      rewrite Z.rem_add by lia. apply Z.rem_small. lia.
  - (* right among the tiles *)
    unfold NUM_APPS. f_equal.
    change (5 - 1) with 4.
    destruct (Z.eqb_spec (selected l) 4) as [E | E].
    + rewrite E. reflexivity.
    + apply Z.rem_small. lia.
Qed.

(** The selection stays an index of [apps] whatever key is handled. *)
Lemma key_fun_in_range (k : dir_key) (l : Launcher) :
  0 <= selected l < NUM_APPS -> 0 <= selected (key_fun k l) < NUM_APPS.
Proof.
  intros Hsel. unfold NUM_APPS in *.
  destruct k; simpl; unfold key_left, key_right, key_up, key_down;
    destruct (truthy (settings_selected l)); simpl; try lia.
  - unfold NUM_APPS.
    pose proof (Z.rem_bound_pos (selected l - 1 + 5) 5). lia.
  - unfold NUM_APPS.
    pose proof (Z.rem_bound_pos (selected l + 1) 5). lia.
Qed.

(** ** Navigation *)

(** C4: for each of the four directional keys and both focus states the
    handler's step is the transition of the table of section 4.3: among the
    tiles left and right move the selection with wrap-around modulo 5 (right
    from tile 4 gives tile 0, left from tile 0 gives tile 4), up enters the
    settings focus and down changes nothing; from the settings focus left and
    down return to the last tile, right returns to tile 0 and up changes
    nothing. *)
Theorem navigation_matches_table (w : World) :
  0 <= selected (launcher w) < NUM_APPS ->
  (forall k : dir_key,
     exists w',
       handle_keydown (keycode k) w = Done Break w' [] /\
       focus_of (launcher w') = spec_transition k (focus_of (launcher w))) /\
  (focus_of (launcher w) = TilesFocused 4 ->
     exists w',
       handle_keydown SDLK_RIGHT w = Done Break w' [] /\
       focus_of (launcher w') = TilesFocused 0) /\
  (focus_of (launcher w) = TilesFocused 0 ->
     exists w',
       handle_keydown SDLK_LEFT w = Done Break w' [] /\
       focus_of (launcher w') = TilesFocused 4).
Proof.
  intros Hsel.
  assert (Hk : forall k : dir_key,
             exists w',
               handle_keydown (keycode k) w = Done Break w' [] /\
               focus_of (launcher w') = spec_transition k (focus_of (launcher w))).
  { intros k. eexists. split.
    - apply handle_keydown_dir.
    - cbn [launcher with_launcher].
      rewrite key_fun_focus; [reflexivity | exact Hsel]. }
  split; [exact Hk | split].
  - intros Hf. destruct (Hk KRight) as [w' [Hrun Hfoc]].
    exists w'. split; [exact Hrun |]. rewrite Hfoc, Hf. reflexivity.
  - intros Hf. destruct (Hk KLeft) as [w' [Hrun Hfoc]].
    exists w'. split; [exact Hrun |]. rewrite Hfoc, Hf. reflexivity.
Qed.

Lemma navigation_matches_table_witness :
  0 <= selected (launcher (idle_world sample_env 4 [])) < NUM_APPS /\
  exists w',
    handle_keydown SDLK_RIGHT (idle_world sample_env 4 []) = Done Break w' [] /\
    focus_of (launcher w') = TilesFocused 0.
Proof.
  assert (H : 0 <= selected (launcher (idle_world sample_env 4 [])) < NUM_APPS)
    by (simpl; unfold NUM_APPS; lia).
  split; [exact H |].
  apply (navigation_matches_table (idle_world sample_env 4 []) H).
  reflexivity.
Defined.

(** C10: up and down never touch the selected tile, nor does left when the
    settings icon has the focus; so going up and coming back with down or
    left restores the tile that was selected, and only right, from the
    settings focus, resets the selection, to tile 0. *)
Theorem selection_survives_settings_focus (w : World) :
  (forall k, k = KUp \/ k = KDown ->
     exists w',
       handle_keydown (keycode k) w = Done Break w' [] /\
       selected (launcher w') = selected (launcher w)) /\
  (settings_selected (launcher w) <> 0 ->
     exists w',
       handle_keydown SDLK_LEFT w = Done Break w' [] /\
       selected (launcher w') = selected (launcher w) /\
       settings_selected (launcher w') = 0) /\
  (settings_selected (launcher w) = 0 ->
     forall back, back = KDown \/ back = KLeft ->
       exists w',
         (handle_keydown SDLK_UP ;; handle_keydown (keycode back)) w
           = Done Break w' [] /\
         selected (launcher w') = selected (launcher w) /\
         settings_selected (launcher w') = 0) /\
  (settings_selected (launcher w) <> 0 ->
     exists w',
       handle_keydown SDLK_RIGHT w = Done Break w' [] /\
       selected (launcher w') = 0 /\
       settings_selected (launcher w') = 0).
Proof.
  repeat split.
  - intros k [-> | ->]; eexists; (split; [apply handle_keydown_dir |]);
      simpl; unfold key_up, key_down; simpl;
      destruct (truthy (settings_selected (launcher w))); reflexivity.
  - intros Hs. apply truthy_true in Hs. eexists.
    split; [apply (handle_keydown_dir KLeft) |].
    simpl. unfold key_left. simpl. rewrite Hs. split; reflexivity.
  - intros Hs back Hback. apply truthy_false in Hs.
    unfold bind. rewrite (handle_keydown_dir KUp).
    destruct Hback as [-> | ->]; rewrite handle_keydown_dir; eexists;
      (split; [reflexivity |]); simpl;
      unfold key_up, key_down, key_left; simpl; rewrite Hs; simpl;
      split; reflexivity.
  - intros Hs. apply truthy_true in Hs. eexists.
    split; [apply (handle_keydown_dir KRight) |].
    simpl. unfold key_right. simpl. rewrite Hs. split; reflexivity.
Qed.

Lemma selection_survives_settings_focus_witness :
  settings_selected (launcher (idle_world sample_env 3 [])) = 0 /\
  exists w',
    (handle_keydown SDLK_UP ;; handle_keydown SDLK_DOWN)
      (idle_world sample_env 3 []) = Done Break w' [] /\
    selected (launcher w') = 3 /\
    settings_selected (launcher w') = 0.
Proof.
  split; [reflexivity |].
  destruct (selection_survives_settings_focus (idle_world sample_env 3 []))
    as (_ & _ & Hback & _).
  apply (Hback eq_refl KDown). left; reflexivity.
Defined.

(** ** Child supervision *)

Lemma is_app_running_untracked (w : World) :
  launched_app_pid w <= 0 -> is_app_running w = Done 0 w [].
Proof.
  intros Hpid. unfold is_app_running, bind, get_pid.
  destruct (Z.leb_spec (launched_app_pid w) 0); [reflexivity | lia].
Qed.

Lemma is_app_running_tracked (w : World) :
  0 < launched_app_pid w ->
  is_app_running w =
  match env_waitpid (env w) (n_waitpid w) with
  | ChildRunning =>
      Done 1 (tick_waitpid w) [EWaitpid (launched_app_pid w) ChildRunning]
  | o =>
      Done 0 (with_pid 0 (tick_waitpid w)) [EWaitpid (launched_app_pid w) o]
  end.
Proof.
  intros Hpid. unfold is_app_running, bind, get_pid, waitpid.
  destruct (launched_app_pid w) as [| pid | pid] eqn:Epid; try lia.
  change (Z.pos pid <=? 0) with false. cbv beta iota zeta.
  destruct (env_waitpid (env w) (n_waitpid w)); simpl;
    rewrite ?Pos.eqb_refl; reflexivity.
Qed.

(** C9: once a child is launched its pid is tracked.  A poll while the
    child runs answers 1 and keeps the pid; the first poll after it exited
    answers 0 and clears the pid; a poll that fails does exactly the same;
    and with the pid cleared every later poll answers 0, calls nothing and
    changes nothing. *)
Theorem child_poll_lifecycle (w : World) (cmd : string) (p : positive) :
  env_fork (env w) (n_fork w) = Spawned p ->
  (exists w1,
     launch_app cmd w = Done tt w1 [EFork cmd (Spawned p)] /\
     launched_app_pid w1 = Z.pos p) /\
  (forall w2, launched_app_pid w2 = Z.pos p ->
     (env_waitpid (env w2) (n_waitpid w2) = ChildRunning ->
        is_app_running w2
          = Done 1 (tick_waitpid w2) [EWaitpid (Z.pos p) ChildRunning] /\
        launched_app_pid (tick_waitpid w2) = Z.pos p) /\
     (forall o, o = ChildExited \/ o = WaitError ->
        env_waitpid (env w2) (n_waitpid w2) = o ->
        is_app_running w2
          = Done 0 (with_pid 0 (tick_waitpid w2)) [EWaitpid (Z.pos p) o] /\
        launched_app_pid (with_pid 0 (tick_waitpid w2)) = 0)) /\
  (forall w3, launched_app_pid w3 = 0 ->
     is_app_running w3 = Done 0 w3 []).
Proof.
  intros Hfork. split; [| split].
  - unfold launch_app, bind, fork. rewrite Hfork. simpl.
    eexists. split; reflexivity.
  - intros w2 Hpid. split.
    + intros Hrun. rewrite is_app_running_tracked by lia.
      rewrite Hrun, Hpid. split; [reflexivity | exact Hpid].
    + intros o Ho Hwait. rewrite is_app_running_tracked by lia.
      rewrite Hwait, Hpid. destruct Ho as [-> | ->]; split; reflexivity.
  - intros w3 Hpid. apply is_app_running_untracked. lia.
Qed.

Lemma child_poll_lifecycle_witness :
  env_fork (env (idle_world sample_env 0 [])) (n_fork (idle_world sample_env 0 []))
    = Spawned 4242 /\
  exists w1,
    launch_app "kodi" (idle_world sample_env 0 [])
      = Done tt w1 [EFork "kodi" (Spawned 4242)] /\
    launched_app_pid w1 = 4242.
Proof.
  split; [reflexivity |].
  apply (child_poll_lifecycle (idle_world sample_env 0 []) "kodi" 4242 eq_refl).
Defined.

(** ** What computations emit *)

Section Emits.

Variable P : list Effect -> Prop.
Hypothesis P_nil : P [].
Hypothesis P_app : forall t1 t2, P t1 -> P t2 -> P (t1 ++ t2).

Lemma emits_ret {A} (a : A) : emits P (ret a).
Proof. intros w. exact P_nil. Qed.

Lemma emits_bind {A B} (m : M A) (f : A -> M B) :
  emits P m -> (forall a, emits P (f a)) -> emits P (bind m f).
Proof.
  intros Hm Hf w. unfold bind. specialize (Hm w).
  destruct (m w) as [a w1 t1 | t1 | t1 |]; try assumption.
  specialize (Hf a w1).
  destruct (f a w1); try apply P_app; trivial.
Qed.

Lemma emits_silent {A} (m : M A) :
  (forall w, exists a w', m w = Done a w' []) -> emits P m.
Proof. intros H w. destruct (H w) as (a & w' & ->). exact P_nil. Qed.

Lemma emits_emit (e : Effect) : P [e] -> emits P (emit e).
Proof. intros H w. exact H. Qed.

(** The event loop emits what its key handler emits. *)
Lemma emits_handle_events_loop (n : nat) :
  (forall sym, emits P (handle_keydown sym)) ->
  emits P (handle_events_loop n).
Proof.
  intros Hkey. induction n as [| n IH]; [intros w; exact I |].
  cbn [handle_events_loop]. apply emits_bind.
  - apply emits_silent. intros w. unfold SDL_PollEvent.
    destruct (sdl_queue w); eauto.
  - intros [[| sym |] |]; try apply emits_ret; try exact IH.
    apply emits_bind; [apply Hkey |].
    intros [| v]; [exact IH | apply emits_ret].
Qed.

Lemma emits_handle_events :
  (forall sym, emits P (handle_keydown sym)) -> emits P handle_events.
Proof.
  intros Hkey w. unfold handle_events.
  apply (emits_handle_events_loop _ Hkey w).
Qed.

End Emits.

(** ** The confirmation dialog *)

Lemma confirm_wait_delays (q : list (option SDL_Event)) :
  Forall (fun e => e = EDelay 50) (fst (confirm_wait q)).
Proof.
  induction q as [| [[| [] |] |] q IH]; simpl; auto.
  destruct (confirm_wait q) as [tr r]. simpl in *. constructor; auto.
Qed.

Lemma confirm_wait_result (q q' : list (option SDL_Event)) tr r :
  confirm_wait q = (tr, Some (r, q')) ->
  (r = 0 \/ r = 1) /\ (List.length q' < List.length q)%nat.
Proof.
  revert tr. induction q as [| [[| [] |] |] q IH]; simpl; intros tr H;
    try discriminate;
    try (injection H as <- <- <-; split; [auto | lia]);
    try (apply IH in H; destruct H; split; [assumption | lia]).
  destruct (confirm_wait q) as [tr0 [[r0 q0] |]]; [| discriminate].
  injection H as <- <- <-.
  destruct (IH _ eq_refl). split; [assumption | lia].
Qed.

(** With enough fuel the loop over the primitives returns what
    [confirm_wait] computes. *)
Lemma show_confirm_loop_returns (fuel : nat) (w : World) tr r q' :
  confirm_wait (sdl_queue w) = (tr, Some (r, q')) ->
  (List.length (sdl_queue w) < fuel)%nat ->
  show_confirm_loop fuel w = Done r (with_queue q' w) tr.
Proof.
  revert w tr. induction fuel as [| n IH]; intros w tr Hwait Hlen; [lia |].
  cbn [show_confirm_loop]. unfold bind at 1, SDL_PollEvent at 1.
  destruct (sdl_queue w) as [| e q] eqn:Eq; [discriminate |].
  simpl in Hwait, Hlen.
  assert (Hrec : forall tr0,
             confirm_wait q = (tr0, Some (r, q')) ->
             show_confirm_loop n (with_queue q w) = Done r (with_queue q' w) tr0).
  { intros tr0 H0. apply (IH (with_queue q w) tr0); simpl; [exact H0 | lia]. }
  destruct e as [[| [] |] |];
    try (rewrite (Hrec _ Hwait); reflexivity);
    try (injection Hwait as <- <- <-; reflexivity).
  destruct (confirm_wait q) as [tr0 [[r0 q0] |]]; [| discriminate].
  injection Hwait as <- <- <-.
  unfold bind, SDL_Delay, emit. rewrite (Hrec _ eq_refl). reflexivity.
Qed.

(** When the script ends before Enter or Escape no amount of fuel makes the
    loop return. *)
Lemma show_confirm_loop_waits (fuel : nat) (w : World) tr :
  confirm_wait (sdl_queue w) = (tr, None) ->
  show_confirm_loop fuel w = OutOfFuel.
Proof.
  revert w tr. induction fuel as [| n IH]; intros w tr Hwait; [reflexivity |].
  cbn [show_confirm_loop]. unfold bind at 1, SDL_PollEvent at 1.
  destruct (sdl_queue w) as [| e q] eqn:Eq.
  - unfold bind, SDL_Delay, emit. rewrite (IH w []); [reflexivity |].
    rewrite Eq. reflexivity.
  - simpl in Hwait.
    assert (Hrec : forall tr0,
               confirm_wait q = (tr0, None) ->
               show_confirm_loop n (with_queue q w) = OutOfFuel).
    { intros tr0 H0. apply (IH (with_queue q w) tr0). exact H0. }
    destruct e as [[| [] |] |];
      try (rewrite (Hrec _ Hwait); reflexivity);
      try discriminate.
    destruct (confirm_wait q) as [tr0 [[r0 q0] |]]; [discriminate |].
    unfold bind, SDL_Delay, emit. rewrite (Hrec _ eq_refl). reflexivity.
Qed.

(** ** The key handler *)

Ltac unfold_keydown :=
  unfold handle_keydown, show_confirm, launch_app, fork, system,
    SDL_HideWindow, modify_l, get_l, put_pid, emit, bind, ret;
  cbv beta iota zeta.

Ltac break_guards :=
  unfold key_left, key_right, key_up, key_down;
  repeat match goal with
    | |- context [confirm_wait ?q] =>
        let E := fresh "E" in
        destruct (confirm_wait q) as [? [[? ?] |]] eqn:E;
        [pose proof (confirm_wait_result _ _ _ _ E) as [? ?] |]
    | |- context [truthy ?x] => destruct (truthy x) eqn:?
    | |- context [env_fork ?e ?n] => destruct (env_fork e n) eqn:?
    end.

(** The handler ends or waits in the dialog; it leaves the environment
    alone and only takes events off the script. *)
Lemma handle_keydown_frame (sym : SDL_Keycode) (w : World) :
  match handle_keydown sym w with
  | Done _ w' _ =>
      (List.length (sdl_queue w') <= List.length (sdl_queue w))%nat /\
      env w' = env w /\ n_time w' = n_time w /\ n_waitpid w' = n_waitpid w /\
      last_minute (launcher w') = last_minute (launcher w) /\
      stats (launcher w') = stats (launcher w) /\
      needs_redraw (launcher w') = 1
  | Blocked _ => True
  | Fault _ | OutOfFuel => False
  end.
Proof.
  destruct sym; unfold_keydown; break_guards; simpl; try exact I;
    repeat split; try reflexivity; simpl in *; lia.
Qed.

(** ** The event loop *)

(** [handle_events] never runs out of fuel and never faults: it returns, or
    it waits in the dialog. *)
Lemma handle_events_loop_fuel (n : nat) (w : World) :
  (List.length (sdl_queue w) < n)%nat ->
  match handle_events_loop n w with
  | Done _ w' _ => events_frame w w'
  | Blocked _ => True
  | Fault _ | OutOfFuel => False
  end.
Proof.
  revert w. induction n as [| n IH]; intros w Hlen; [lia |].
  cbn [handle_events_loop]. unfold bind, SDL_PollEvent.
  destruct (sdl_queue w) as [| e q] eqn:Eq.
  { simpl. unfold events_frame. repeat split. }
  simpl in Hlen.
  assert (Hq : events_frame w (with_queue q w)) by (unfold events_frame; repeat split).
  destruct e as [[| sym |] |]; try (simpl; exact Hq).
  - (* a key *)
    pose proof (handle_keydown_frame sym (with_queue q w)) as Hk.
    destruct (handle_keydown sym (with_queue q w)) as [c w1 t1 | t1 | t1 |];
      try contradiction; [| exact I].
    simpl in Hk. destruct Hk as (Hl & He & Ht & Hw & Hm & Hs & _).
    destruct c as [| v]; [| simpl; unfold events_frame; repeat split; assumption].
    specialize (IH w1 ltac:(lia)).
    destruct (handle_events_loop n w1) as [go w2 t2 | t2 | t2 |];
      try contradiction; [| exact I].
    unfold events_frame in *. destruct IH as (? & ? & ? & ? & ?).
    repeat split; congruence.
  - (* an event that is not a key *)
    specialize (IH (with_queue q w) ltac:(simpl; lia)).
    destruct (handle_events_loop n (with_queue q w)) as [go w2 t2 | t2 | t2 |];
      try contradiction; [| exact I].
    simpl. exact IH.
Qed.

Lemma handle_events_fuel (w : World) :
  match handle_events w with
  | Done _ w' _ => events_frame w w'
  | Blocked _ => True
  | Fault _ | OutOfFuel => False
  end.
Proof. unfold handle_events. apply handle_events_loop_fuel. lia. Qed.

(** With nothing pending the loop returns 1 at its first poll. *)
Lemma handle_events_idle (w : World) (q : list (option SDL_Event)) :
  sdl_queue w = None :: q -> handle_events w = Done 1 (with_queue q w) [].
Proof.
  intros Hq. unfold handle_events. rewrite Hq.
  cbn [handle_events_loop List.length]. unfold bind, SDL_PollEvent.
  rewrite Hq. reflexivity.
Qed.

Lemma handle_events_end_of_script (w : World) :
  sdl_queue w = [] -> handle_events w = Done 1 w [].
Proof.
  intros Hq. unfold handle_events. rewrite Hq.
  cbn [handle_events_loop List.length]. unfold bind, SDL_PollEvent.
  rewrite Hq. reflexivity.
Qed.

(** Without a key among the pending events the loop changes nothing but
    the script and emits nothing. *)
Lemma handle_events_loop_no_key (n : nat) (w : World) :
  (List.length (sdl_queue w) < n)%nat ->
  no_key_pending (sdl_queue w) = true ->
  exists go q', handle_events_loop n w = Done go (with_queue q' w) [].
Proof.
  revert w. induction n as [| n IH]; intros w Hlen Hno; [lia |].
  cbn [handle_events_loop]. unfold bind, SDL_PollEvent.
  destruct (sdl_queue w) as [| e q] eqn:Eq.
  { exists 1, []. simpl. rewrite <- Eq. destruct w; reflexivity. }
  simpl in Hlen, Hno.
  destruct e as [[| sym |] |]; try discriminate.
  - exists 0, q. reflexivity.
  - destruct (IH (with_queue q w) ltac:(simpl; lia) Hno) as (go & q' & H).
    rewrite H. exists go, q'. reflexivity.
  - exists 1, q. reflexivity.
Qed.

Lemma count_draws_app (t1 t2 : list Effect) :
  count_draws (t1 ++ t2) = (count_draws t1 + count_draws t2)%nat.
Proof. unfold count_draws. rewrite filter_app, length_app. reflexivity. Qed.

Lemma count_draws_cons (e : Effect) (t : list Effect) :
  count_draws (e :: t) = ((if is_draw e then 1 else 0) + count_draws t)%nat.
Proof. unfold count_draws. simpl. destruct (is_draw e); reflexivity. Qed.

Lemma delays_no_draw (tr : list Effect) :
  Forall (fun e => e = EDelay 50) tr -> count_draws tr = O.
Proof.
  induction 1 as [| e tr He _ IH]; [reflexivity |].
  subst e. rewrite count_draws_cons. exact IH.
Qed.

(** The handler never paints the frame. *)
Lemma handle_keydown_no_draw (sym : SDL_Keycode) :
  emits (fun tr => count_draws tr = O) (handle_keydown sym).
Proof.
  intros w. destruct sym; unfold_keydown; break_guards; simpl;
    try reflexivity;
    match goal with
    | E : confirm_wait ?q = _ |- _ =>
        pose proof (confirm_wait_delays q) as Hd; rewrite E in Hd
    end; simpl in Hd;
    rewrite ?count_draws_cons, ?count_draws_app, (delays_no_draw _ Hd);
    reflexivity.
Qed.

Lemma handle_events_no_draw :
  emits (fun tr => count_draws tr = O) handle_events.
Proof.
  apply emits_handle_events.
  - reflexivity.
  - intros t1 t2 H1 H2. rewrite count_draws_app, H1, H2. reflexivity.
  - exact handle_keydown_no_draw.
Qed.

(** ** One iteration of the main loop *)

Lemma run_iter_unfold (w : World) :
  run_iter w =
  (go <- handle_events ;;
   if negb (truthy go) then ret false
   else skip <- check_app ;; if skip then ret true else tick_tail) w.
Proof. reflexivity. Qed.

(** Steps 3 to 6 in closed form: one repaint when it is due and none
    otherwise, the minute recorded, the flag consumed, the request
    cleared, then the 50 ms idle. *)
Lemma tick_tail_spec (w : World) :
  exists w' f,
    tick_tail w
      = Done true w' ((if redraw_due w then [EDraw f] else []) ++ [EDelay 50]) /\
    needs_redraw (launcher w') = 0 /\
    last_minute (launcher w') = minute_read w /\
    changed (stats (launcher w')) = 0 /\
    app_running (launcher w') = app_running (launcher w) /\
    selected (launcher w') = selected (launcher w) /\
    settings_selected (launcher w') = settings_selected (launcher w) /\
    launched_app_pid w' = launched_app_pid w /\
    window_shown w' = window_shown w /\
    sdl_queue w' = sdl_queue w /\
    env w' = env w /\
    n_time w' = (n_time w + if redraw_due w then 2 else 1)%nat.
Proof.
  unfold redraw_due, minute_read, tick_tail, check_minute, check_stats,
    redraw_if_needed, draw, localtime_now, SDL_Delay, modify_stats, modify_l,
    get_l, emit, bind, ret.
  cbv beta iota zeta. simpl.
  set (m := tm_hour (env_time (env w) (n_time w)) * 60
            + tm_min (env_time (env w) (n_time w))).
  destruct (Z.eqb_spec m (last_minute (launcher w))) as [Em | Em];
    destruct (truthy (changed (stats (launcher w)))) eqn:Ec;
    destruct (truthy (needs_redraw (launcher w))) eqn:En; simpl;
    rewrite ?Ec; simpl; rewrite ?En; simpl;
    do 2 eexists; repeat split; simpl; try reflexivity;
    try (apply truthy_false; assumption); try (symmetry; assumption);
    try lia; exact 0.
Qed.

Lemma check_app_idle (w : World) :
  app_running (launcher w) = 0 -> check_app w = Done false w [].
Proof.
  intros H. unfold check_app, bind, get_l. apply truthy_false in H.
  rewrite H. reflexivity.
Qed.

(** The poll always answers, touches nothing but the tracked pid and the
    call counter, and calls [waitpid] once when a pid is tracked. *)
Lemma is_app_running_total (w : World) :
  exists r wp tp,
    is_app_running w = Done r wp tp /\
    launcher wp = launcher w /\ window_shown wp = window_shown w /\
    sdl_queue wp = sdl_queue w /\ env wp = env w /\ n_time wp = n_time w /\
    count_draws tp = O /\ safe tp /\
    (0 < launched_app_pid w ->
       tp = [EWaitpid (launched_app_pid w) (env_waitpid (env w) (n_waitpid w))]) /\
    (r = 0 -> launched_app_pid wp = Z.min 0 (launched_app_pid w)) /\
    (r <> 0 -> launched_app_pid wp = launched_app_pid w).
Proof.
  destruct (Z.leb_spec (launched_app_pid w) 0) as [Hle | Hgt].
  - exists 0, w, []. rewrite is_app_running_untracked by exact Hle.
    repeat split; auto; lia.
  - rewrite is_app_running_tracked by exact Hgt.
    destruct (env_waitpid (env w) (n_waitpid w));
      do 3 eexists; (split; [reflexivity |]);
      repeat split; simpl; auto; try discriminate; try congruence; lia.
Qed.

Lemma check_app_polled (w : World) r wp tp :
  app_running (launcher w) <> 0 ->
  is_app_running w = Done r wp tp ->
  check_app w =
  if truthy r
  then Done true wp (tp ++ [EDelay 200])
  else Done false
         (with_launcher (set_needs_redraw 1 (set_app_running 0 (launcher wp)))
                        (with_window true wp))
         (tp ++ [EShowWindow; ERaiseWindow]).
Proof.
  intros Hrun Hpoll. apply truthy_true in Hrun.
  unfold check_app, bind, get_l. rewrite Hrun, Hpoll.
  destruct (truthy r); reflexivity.
Qed.

(** C3: when the events are handled and the launcher has an app marked
    running, the iteration polls the child without waiting.  A child still
    running ends the iteration at once after a 200 ms delay: no clock read,
    no flag check, no repaint, the launcher state as the handler left it.
    A child that is gone clears the mark, shows and raises the window,
    requests a redraw and goes on with the minute check, which ends in a
    repaint and the 50 ms delay. *)
Theorem tick_polls_tracked_child (w w1 : World) (go : Z) (tr1 : list Effect) :
  handle_events w = Done go w1 tr1 ->
  go <> 0 ->
  app_running (launcher w1) <> 0 ->
  exists r wp tp,
    is_app_running w1 = Done r wp tp /\
    (0 < launched_app_pid w1 ->
       tp = [EWaitpid (launched_app_pid w1)
                      (env_waitpid (env w1) (n_waitpid w1))]) /\
    (r <> 0 ->
       run_iter w = Done true wp (tr1 ++ tp ++ [EDelay 200]) /\
       launcher wp = launcher w1 /\ n_time wp = n_time w1) /\
    (r = 0 ->
       exists w2 f,
         tick_tail
           (with_launcher (set_needs_redraw 1 (set_app_running 0 (launcher w1)))
                          (with_window true wp))
           = Done true w2 [EDraw f; EDelay 50] /\
         run_iter w
           = Done true w2
               (tr1 ++ tp ++ [EShowWindow; ERaiseWindow; EDraw f; EDelay 50]) /\
         app_running (launcher w2) = 0 /\
         window_shown w2 = true /\
         needs_redraw (launcher w2) = 0 /\
         last_minute (launcher w2) = minute_read w1).
Proof.
  intros Hev Hgo Hrun.
  destruct (is_app_running_total w1)
    as (r & wp & tp & Hpoll & Hl & Hwin & Hq & Henv & Htime & _ & _ & Htp & _).
  exists r, wp, tp. split; [exact Hpoll |]. split; [exact Htp |].
  pose proof (check_app_polled w1 r wp tp Hrun Hpoll) as Hcheck.
  apply truthy_true in Hgo.
  split.
  - intros Hr. apply truthy_true in Hr. rewrite Hr in Hcheck.
    rewrite run_iter_unfold. unfold bind at 1. rewrite Hev, Hgo. simpl.
    unfold bind. rewrite Hcheck. simpl. rewrite app_nil_r.
    repeat split; assumption.
  - intros Hr. apply truthy_false in Hr. rewrite Hr in Hcheck.
    rewrite Hl in Hcheck.
    set (ws := with_launcher (set_needs_redraw 1 (set_app_running 0 (launcher w1)))
                             (with_window true wp)) in *.
    destruct (tick_tail_spec ws)
      as (w2 & f & Htail & Hn & Hm & _ & Ha & _ & _ & _ & Hws & _).
    assert (Hdue : redraw_due ws = true).
    { unfold redraw_due, ws. simpl. apply orb_true_r. }
    rewrite Hdue in Htail. simpl in Htail.
    exists w2, f. split; [exact Htail |]. split.
    + rewrite run_iter_unfold. unfold bind at 1. rewrite Hev, Hgo. simpl.
      unfold bind. rewrite Hcheck, Htail. rewrite <- app_assoc. reflexivity.
    + split; [rewrite Ha; reflexivity |].
      split; [rewrite Hws; reflexivity |].
      split; [exact Hn |].
      rewrite Hm. unfold minute_read, ws. simpl. rewrite Henv, Htime.
      reflexivity.
Qed.

(** ** The statistics thread *)

Lemma main_state_kept_refl (w : World) : main_state_kept w w.
Proof. unfold main_state_kept. repeat split. Qed.

Lemma main_state_kept_trans (w1 w2 w3 : World) :
  main_state_kept w1 w2 -> main_state_kept w2 w3 -> main_state_kept w1 w3.
Proof.
  unfold main_state_kept. intros H1 H2.
  destruct H1 as (? & ? & ? & ? & ? & ? & ? & ? & ? & ? & ? & ? & ?).
  destruct H2 as (? & ? & ? & ? & ? & ? & ? & ? & ? & ? & ? & ? & ?).
  repeat split; congruence.
Qed.

Section SamplerFacts.

Variable long_bits : Z.

Ltac sample_block_done :=
  simpl; repeat split; try reflexivity.

Lemma sample_cpu_block (r : Readings) : sample_block (sample_cpu long_bits r).
Proof.
  intros w. unfold sample_cpu.
  destruct (read_cpu_stats long_bits (proc_stat r) 0 0) as [idle total].
  unfold bind, get_prev, put_prev, modify_stats, modify_l, ret.
  cbv beta iota zeta. simpl.
  destruct (0 <? prev_total w); [| sample_block_done].
  destruct (0 <? _); sample_block_done.
Qed.

Lemma sample_mem_block (r : Readings) : sample_block (sample_mem long_bits r).
Proof.
  intros w. unfold sample_mem.
  destruct (sys_info r) as [si |]; [| sample_block_done].
  cbv zeta. destruct (_ =? 0); sample_block_done.
Qed.

Lemma sample_temp_block (r : Readings) : sample_block (sample_temp r).
Proof.
  intros w. unfold sample_temp.
  destruct (thermal_zone0 r); sample_block_done.
Qed.

Lemma sample_disk_block (r : Readings) : sample_block (sample_disk long_bits r).
Proof.
  intros w. unfold sample_disk.
  destruct (statvfs_root r) as [sv |]; [| sample_block_done].
  cbv zeta. destruct (_ =? 0); sample_block_done.
Qed.

Lemma sample_block_seq (m1 m2 : M unit) :
  sample_block m1 -> sample_block m2 -> sample_block (m1 ;; m2).
Proof.
  intros H1 H2 w. unfold bind. specialize (H1 w).
  destruct (m1 w) as [[] w1 t1 | t1 | t1 |]; try contradiction; [| exact H1].
  destruct H1 as (-> & Hk1 & Hc1). specialize (H2 w1).
  destruct (m2 w1) as [[] w2 t2 | t2 | t2 |]; try contradiction.
  - destruct H2 as (-> & Hk2 & Hc2).
    split; [reflexivity | split].
    + exact (main_state_kept_trans _ _ _ Hk1 Hk2).
    + congruence.
  - subst t2. reflexivity.
Qed.

Lemma snapshot_differs_set_changed (old s : Stats) (v : Z) :
  snapshot_differs old (set_changed v s) = snapshot_differs old s.
Proof. reflexivity. Qed.

(** One sampling cycle: the main thread's state is untouched, and the flag
    is stored, once, exactly when a field of the snapshot differs from its
    value before the cycle. *)
Lemma stats_thread_body_spec (w w1 : World) (tr : list Effect) :
  stats_thread_body long_bits w = Done tt w1 tr ->
  main_state_kept w w1 /\
  changed (stats (launcher w1))
    = (if snapshot_differs (stats (launcher w)) (stats (launcher w1))
       then 1 else changed (stats (launcher w))) /\
  tr = ((if snapshot_differs (stats (launcher w)) (stats (launcher w1))
         then [EStatsChanged] else []) ++ [ESleep 2])%list.
Proof.
  unfold stats_thread_body.
  set (blocks r := sample_cpu long_bits r ;; sample_mem long_bits r ;;
                   sample_temp r ;; sample_disk long_bits r).
  assert (Hblocks : forall r, sample_block (blocks r)).
  { intros r. unfold blocks.
    repeat apply sample_block_seq;
      auto using sample_cpu_block, sample_mem_block, sample_temp_block,
        sample_disk_block. }
  unfold bind at 1. unfold get_l at 1. cbv beta iota zeta.
  unfold bind at 1. unfold next_readings at 1. cbv beta iota zeta.
  set (r := env_readings (env w) (n_sample w)).
  set (w0 := tick_sample w).
  pose proof (Hblocks r w0) as Hb. unfold blocks in Hb.
  unfold bind in Hb |- *.
  destruct (sample_cpu long_bits r w0) as [[] wa ta | ta | ta |];
    try contradiction; try discriminate.
  destruct (sample_mem long_bits r wa) as [[] wb tb | tb | tb |];
    try contradiction; try discriminate.
  destruct (sample_temp r wb) as [[] wc tc | tc | tc |];
    try contradiction; try discriminate.
  destruct (sample_disk long_bits r wc) as [[] wd td | td | td |];
    try contradiction; try discriminate.
  destruct Hb as (Htr & Hk & Hc).
  unfold check_changed, sleep, modify_stats, modify_l, get_l, emit, bind, ret.
  cbv beta iota zeta. simpl app.
  assert (Hk0 : main_state_kept w wd).
  { apply (main_state_kept_trans w w0 wd); [| exact Hk].
    unfold main_state_kept, w0. repeat split. }
  apply app_eq_nil in Htr. destruct Htr as [-> Htr].
  apply app_eq_nil in Htr. destruct Htr as [-> Htr].
  apply app_eq_nil in Htr. destruct Htr as [-> ->].
  destruct (snapshot_differs (stats (launcher w)) (stats (launcher wd))) eqn:Ed;
    intros H; injection H as <- <-; simpl.
  - rewrite snapshot_differs_set_changed, Ed.
    split; [exact Hk0 | split; reflexivity].
  - rewrite Ed. split; [exact Hk0 | split; [exact Hc | reflexivity]].
Qed.

End SamplerFacts.

Lemma count_flag_stores_app (t1 t2 : list Effect) :
  count_flag_stores (t1 ++ t2)
  = (count_flag_stores t1 + count_flag_stores t2)%nat.
Proof. unfold count_flag_stores. rewrite filter_app, length_app. reflexivity. Qed.

(** The comparison of "Check if changed", field by field. *)
Lemma snapshot_differs_true (old new : Stats) :
  snapshot_differs old new = true <->
  cpu new <> cpu old \/ mem new <> mem old \/
  temp new <> temp old \/ disk new <> disk old.
Proof.
  unfold snapshot_differs. rewrite !orb_true_iff, !negb_true_iff, !Z.eqb_neq.
  tauto.
Qed.

Lemma snapshot_differs_false (old new : Stats) :
  snapshot_differs old new = false <->
  cpu new = cpu old /\ mem new = mem old /\
  temp new = temp old /\ disk new = disk old.
Proof.
  unfold snapshot_differs. rewrite !orb_false_iff, !negb_false_iff, !Z.eqb_eq.
  tauto.
Qed.

Lemma stats_thread_body_stores (long_bits : Z) (w w1 : World) tr :
  stats_thread_body long_bits w = Done tt w1 tr ->
  count_flag_stores tr
  = (if snapshot_differs (stats (launcher w)) (stats (launcher w1))
     then 1 else 0)%nat.
Proof.
  intros H. apply stats_thread_body_spec in H. destruct H as (_ & _ & ->).
  destruct (snapshot_differs _ _); reflexivity.
Qed.

(** Any number of cycles: the main thread's state is untouched and the
    flag is raised if one of them stored it, however many did. *)
Lemma stats_thread_func_spec (long_bits : Z) (n : nat) (w wn : World) tr :
  stats_thread_func long_bits n w = Done tt wn tr ->
  main_state_kept w wn /\
  changed (stats (launcher wn))
    = (if (0 <? count_flag_stores tr)%nat then 1
       else changed (stats (launcher w))).
Proof.
  revert w tr. induction n as [| n IH]; intros w tr.
  - simpl. unfold ret. intros H. injection H as <- <-.
    split; [apply main_state_kept_refl | reflexivity].
  - cbn [stats_thread_func]. unfold bind at 1. unfold get_l at 1.
    cbv beta iota zeta.
    destruct (truthy (running (stats (launcher w)))).
    + unfold bind.
      destruct (stats_thread_body long_bits w) as [[] w1 t1 | t1 | t1 |] eqn:Hb;
        try discriminate.
      destruct (stats_thread_func long_bits n w1) as [[] w2 t2 | t2 | t2 |] eqn:Hf;
        try discriminate.
      intros H. injection H as <- <-.
      pose proof (stats_thread_body_stores _ _ _ _ Hb) as Hcount.
      apply stats_thread_body_spec in Hb. destruct Hb as (Hk1 & Hc1 & _).
      apply IH in Hf. destruct Hf as (Hk2 & Hc2).
      split; [exact (main_state_kept_trans _ _ _ Hk1 Hk2) |].
      rewrite count_flag_stores_app, Hc2, Hc1, Hcount.
      destruct (snapshot_differs _ _); simpl;
        destruct (0 <? count_flag_stores t2)%nat eqn:E; reflexivity.
    + unfold ret. intros H. injection H as <- <-.
      split; [apply main_state_kept_refl | reflexivity].
Qed.

Lemma check_stats_spec (w : World) :
  exists w1,
    check_stats w = Done tt w1 [] /\
    changed (stats (launcher w1)) = 0 /\
    needs_redraw (launcher w1)
      = (if truthy (changed (stats (launcher w))) then 1
         else needs_redraw (launcher w)) /\
    check_stats w1 = Done tt w1 [].
Proof.
  unfold check_stats, modify_stats, modify_l, get_l, bind, ret.
  cbv beta iota zeta.
  destruct (truthy (changed (stats (launcher w)))) eqn:E; simpl.
  - eexists. repeat split.
  - exists w. rewrite E. repeat split. apply truthy_false. exact E.
Qed.

(** C2: a sampling cycle stores the flag exactly when one of cpu, mem,
    temp, disk differs from its value before the cycle, and then once (the
    flag is 1 after it); a cycle that leaves the four fields equal stores
    nothing and leaves the flag as it was.
    After any number of cycles the flag is raised if at least one of them
    stored it, whatever their number; the main loop's check then requests
    one redraw and clears the flag, and a second check finds nothing. *)
Theorem dirty_flag_edge_triggered (long_bits : Z) :
  (forall w w1 tr,
     stats_thread_body long_bits w = Done tt w1 tr ->
     (cpu (stats (launcher w1)) <> cpu (stats (launcher w)) \/
      mem (stats (launcher w1)) <> mem (stats (launcher w)) \/
      temp (stats (launcher w1)) <> temp (stats (launcher w)) \/
      disk (stats (launcher w1)) <> disk (stats (launcher w))
      <-> count_flag_stores tr = 1%nat) /\
     (cpu (stats (launcher w1)) <> cpu (stats (launcher w)) \/
      mem (stats (launcher w1)) <> mem (stats (launcher w)) \/
      temp (stats (launcher w1)) <> temp (stats (launcher w)) \/
      disk (stats (launcher w1)) <> disk (stats (launcher w)) ->
      changed (stats (launcher w1)) = 1) /\
     (cpu (stats (launcher w1)) = cpu (stats (launcher w)) /\
      mem (stats (launcher w1)) = mem (stats (launcher w)) /\
      temp (stats (launcher w1)) = temp (stats (launcher w)) /\
      disk (stats (launcher w1)) = disk (stats (launcher w)) ->
      count_flag_stores tr = 0%nat /\
      changed (stats (launcher w1)) = changed (stats (launcher w)))) /\
  (forall n w wn tr,
     stats_thread_func long_bits n w = Done tt wn tr ->
     needs_redraw (launcher wn) = needs_redraw (launcher w) /\
     changed (stats (launcher wn))
       = (if (0 <? count_flag_stores tr)%nat then 1
          else changed (stats (launcher w)))) /\
  (forall w,
     exists w1,
       check_stats w = Done tt w1 [] /\
       changed (stats (launcher w1)) = 0 /\
       needs_redraw (launcher w1)
         = (if truthy (changed (stats (launcher w))) then 1
            else needs_redraw (launcher w)) /\
       check_stats w1 = Done tt w1 []).
Proof.
  split; [| split].
  - intros w w1 tr H.
    pose proof (stats_thread_body_stores _ _ _ _ H) as Hcount.
    apply stats_thread_body_spec in H. destruct H as (_ & Hflag & _).
    destruct (snapshot_differs (stats (launcher w)) (stats (launcher w1)))
      eqn:Ed.
    + apply snapshot_differs_true in Ed.
      split; [tauto |]. split; [intros _; exact Hflag |].
      intros (Ec & Em & Et & Edk). tauto.
    + apply snapshot_differs_false in Ed. destruct Ed as (Ec & Em & Et & Edk).
      split; [| split].
      * split; [tauto | rewrite Hcount; discriminate].
      * tauto.
      * intros _. split; assumption.
  - intros n w wn tr H. apply stats_thread_func_spec in H.
    destruct H as (Hk & Hc). split; [apply Hk | exact Hc].
  - exact check_stats_spec.
Qed.

Lemma dirty_flag_edge_triggered_witness :
  exists w1 tr,
    stats_thread_body 64 (idle_world warm_env 0 []) = Done tt w1 tr /\
    temp (stats (launcher w1)) = 45 /\
    count_flag_stores tr = 1%nat /\
    changed (stats (launcher w1)) = 1.
Proof.
  do 2 eexists.
  assert (H : stats_thread_body 64 (idle_world warm_env 0 []) = Done tt _ _)
    by (vm_compute; reflexivity).
  split; [exact H |]. split; [reflexivity |].
  destruct (proj1 (dirty_flag_edge_triggered 64) _ _ _ H) as (Hiff & Hset & _).
  split; [apply Hiff | apply Hset]; right; right; left;
    vm_compute; discriminate.
Defined.

(** ** Redraw decisions *)

Lemma bind_silent {A B} (m : M A) (f : A -> M B) (w w1 : World) (a : A) :
  m w = Done a w1 [] -> bind m f w = f a w1.
Proof. intros H. unfold bind. rewrite H. destruct (f a w1); reflexivity. Qed.

Lemma bind_done {A B} (m : M A) (f : A -> M B) (w w1 : World) (a : A) t1 :
  m w = Done a w1 t1 ->
  bind m f w =
  match f a w1 with
  | Done b w2 t2 => Done b w2 (t1 ++ t2)
  | Blocked t2 => Blocked (t1 ++ t2)
  | Fault t2 => Fault (t1 ++ t2)
  | OutOfFuel => OutOfFuel
  end.
Proof. intros H. unfold bind. rewrite H. reflexivity. Qed.

(** An iteration without a key to handle and without an app in front is the
    event drain followed by steps 3 to 6, or the break on a quit event. *)
Lemma run_iter_no_key (w : World) :
  no_key_pending (sdl_queue w) = true ->
  app_running (launcher w) = 0 ->
  exists go q',
    handle_events w = Done go (with_queue q' w) [] /\
    run_iter w = if truthy go then tick_tail (with_queue q' w)
                 else Done false (with_queue q' w) [].
Proof.
  intros Hno Happ.
  destruct (handle_events_loop_no_key (S (List.length (sdl_queue w))) w
              ltac:(lia) Hno) as (go & q' & Hev).
  change (handle_events w = Done go (with_queue q' w) []) in Hev.
  exists go, q'. split; [exact Hev |].
  rewrite run_iter_unfold. rewrite (bind_silent _ _ _ _ _ Hev).
  destruct (truthy go); [| reflexivity]. cbn [negb]. cbv iota.
  rewrite (bind_silent _ _ _ _ _ (check_app_idle (with_queue q' w) Happ)).
  reflexivity.
Qed.

(** After an iteration that painted, no redraw is requested, no app is
    marked running and the statistics flag is clear. *)
Lemma run_iter_after_repaint (w w1 : World) (b : bool) (tr : list Effect) :
  run_iter w = Done b w1 tr ->
  (0 < count_draws tr)%nat ->
  needs_redraw (launcher w1) = 0 /\
  app_running (launcher w1) = 0 /\
  changed (stats (launcher w1)) = 0.
Proof.
  rewrite run_iter_unfold. unfold bind at 1.
  pose proof (handle_events_no_draw w) as Hnd.
  destruct (handle_events w) as [go wa ta | ta | ta |]; try discriminate.
  destruct (truthy go).
  2:{ simpl. intros H. injection H as <- <- <-.
      rewrite app_nil_r, Hnd. lia. }
  cbn [negb]. cbv iota.
  destruct (Z.eq_dec (app_running (launcher wa)) 0) as [Happ | Happ].
  - rewrite (bind_silent _ _ _ _ _ (check_app_idle _ Happ)).
    destruct (tick_tail_spec wa)
      as (w2 & f & Htail & Hn & _ & Hc & Ha & _).
    rewrite Htail. intros H. injection H as <- <- <-.
    intros _. repeat split; congruence.
  - destruct (is_app_running_total wa)
      as (r & wp & tp & Hpoll & Hl & _ & _ & _ & _ & Htp & _).
    pose proof (check_app_polled _ _ _ _ Happ Hpoll) as Hcheck.
    destruct (truthy r).
    + rewrite (bind_done _ _ _ _ _ _ Hcheck). simpl.
      intros H. injection H as <- <- <-.
      rewrite !count_draws_app, Hnd, Htp.
      unfold count_draws. simpl. lia.
    + rewrite (bind_done _ _ _ _ _ _ Hcheck). cbv iota.
      match type of Hcheck with _ = Done _ ?x _ => set (ws := x) end.
      destruct (tick_tail_spec ws)
        as (w2 & f & Htail & Hn & _ & Hc & Ha & _).
      rewrite Htail. intros H. injection H as <- <- <-.
      intros _. repeat split; try assumption.
Qed.

(** C7: after an iteration that painted, the next iteration, reached with
    no key event pending, the clock in the minute already recorded and no
    change flagged by the statistics thread in between, paints nothing and
    leaves [needs_redraw] at 0. *)
Theorem redraw_is_idempotent
    (long_bits : Z) (cycles : nat) (w w1 w1' : World) (b : bool)
    (tr1 trs : list Effect) :
  run_iter w = Done b w1 tr1 ->
  (0 < count_draws tr1)%nat ->
  stats_thread_func long_bits cycles w1 = Done tt w1' trs ->
  count_flag_stores trs = O ->
  no_key_pending (sdl_queue w1') = true ->
  minute_read w1' = last_minute (launcher w1') ->
  exists b2 w2 tr2,
    run_iter w1' = Done b2 w2 tr2 /\
    count_draws tr2 = O /\
    needs_redraw (launcher w2) = 0.
Proof.
  intros Hrun Hdraw Hstats Hstores Hno Hmin.
  destruct (run_iter_after_repaint _ _ _ _ Hrun Hdraw) as (Hn & Ha & Hc).
  apply stats_thread_func_spec in Hstats. destruct Hstats as (Hk & Hc').
  rewrite Hstores in Hc'. simpl in Hc'. rewrite Hc in Hc'.
  destruct Hk as (_ & _ & Hn' & _ & Ha' & _).
  rewrite Hn in Hn'. rewrite Ha in Ha'.
  destruct (run_iter_no_key w1' Hno Ha') as (go & q' & _ & Hiter).
  destruct (truthy go).
  - destruct (tick_tail_spec (with_queue q' w1'))
      as (w2 & f & Htail & Hn2 & _).
    assert (Hdue : redraw_due (with_queue q' w1') = false).
    { unfold redraw_due. unfold minute_read in *. simpl.
      rewrite Hmin, Z.eqb_refl, Hc', Hn'. reflexivity. }
    rewrite Hdue in Htail. rewrite Htail in Hiter.
    exists true, w2, [EDelay 50]. repeat split; assumption.
  - exists false, (with_queue q' w1'), []. repeat split; assumption.
Qed.

Lemma redraw_is_idempotent_witness :
  exists w1 tr1 b2 w2 tr2,
    run_iter (idle_world sample_env 0 []) = Done true w1 tr1 /\
    (0 < count_draws tr1)%nat /\
    run_iter w1 = Done b2 w2 tr2 /\
    count_draws tr2 = O /\
    needs_redraw (launcher w2) = 0.
Proof.
  assert (H1 : run_iter (idle_world sample_env 0 []) = Done true _ _)
    by (vm_compute; reflexivity).
  do 2 eexists.
  destruct (redraw_is_idempotent 64 0 _ _ _ _ _ _ H1 ltac:(vm_compute; lia)
              eq_refl eq_refl eq_refl eq_refl)
    as (b2 & w2 & tr2 & H2 & Hd & Hn).
  exists b2, w2, tr2. split; [exact H1 |].
  split; [vm_compute; lia |]. split; [exact H2 |]. split; assumption.
Defined.

(** An iteration with no event to handle, no app in front, no change
    flagged and no redraw requested paints exactly when the minute it reads
    differs from the recorded one, and records the minute it read. *)
Lemma quiet_tick (w : World) :
  Forall (fun e => e = None) (sdl_queue w) ->
  app_running (launcher w) = 0 ->
  changed (stats (launcher w)) = 0 ->
  needs_redraw (launcher w) = 0 ->
  exists w1 tr1,
    run_iter w = Done true w1 tr1 /\
    count_draws tr1
      = (if (minute_read w =? last_minute (launcher w))%Z then 0 else 1)%nat /\
    last_minute (launcher w1) = minute_read w /\
    sdl_queue w1 = tl (sdl_queue w) /\
    app_running (launcher w1) = 0 /\
    changed (stats (launcher w1)) = 0 /\
    needs_redraw (launcher w1) = 0.
Proof.
  intros Hq Happ Hch Hnr.
  assert (Hev : handle_events w = Done 1 (with_queue (tl (sdl_queue w)) w) []).
  { destruct (sdl_queue w) as [| e q] eqn:Eq.
    - rewrite (handle_events_end_of_script w Eq). simpl. rewrite <- Eq.
      destruct w; reflexivity.
    - inversion Hq as [| ? ? He _]; subst e.
      exact (handle_events_idle w q Eq). }
  set (w0 := with_queue (tl (sdl_queue w)) w) in *.
  rewrite run_iter_unfold.
  rewrite (bind_silent _ _ _ _ _ Hev).
  change (negb (truthy 1)) with false. cbv iota.
  rewrite (bind_silent _ _ _ _ _ (check_app_idle w0 Happ)).
  cbv iota.
  destruct (tick_tail_spec w0)
    as (w1 & f & Htail & Hn & Hm & Hc & Ha & _ & _ & _ & _ & Hq1 & _).
  assert (Hdue : redraw_due w0
                 = negb (minute_read w =? last_minute (launcher w))).
  { unfold redraw_due, minute_read, w0. simpl. rewrite Hch, Hnr.
    simpl. rewrite !orb_false_r. reflexivity. }
  rewrite Hdue in Htail.
  do 2 eexists. split; [exact Htail |].
  repeat split; try assumption.
  - destruct (minute_read w =? last_minute (launcher w)); reflexivity.
  - rewrite Ha. exact Happ.
Qed.

(** C8: over two consecutive iterations with nothing else going on, each
    iteration paints once if the minute it reads differs from the minute
    recorded before it and not at all if it is the same minute, and the
    minute read is the one recorded afterwards. *)
Theorem minute_rollover_redraws_once (w : World) :
  Forall (fun e => e = None) (sdl_queue w) ->
  app_running (launcher w) = 0 ->
  changed (stats (launcher w)) = 0 ->
  needs_redraw (launcher w) = 0 ->
  exists w1 w2 tr1 tr2,
    run_iter w = Done true w1 tr1 /\
    run_iter w1 = Done true w2 tr2 /\
    count_draws tr1
      = (if (minute_read w =? last_minute (launcher w))%Z then 0 else 1)%nat /\
    last_minute (launcher w1) = minute_read w /\
    count_draws tr2
      = (if (minute_read w1 =? minute_read w)%Z then 0 else 1)%nat /\
    last_minute (launcher w2) = minute_read w1 /\
    needs_redraw (launcher w2) = 0.
Proof.
  intros Hq Happ Hch Hnr.
  destruct (quiet_tick w Hq Happ Hch Hnr)
    as (w1 & tr1 & H1 & Hd1 & Hm1 & Hq1 & Ha1 & Hc1 & Hn1).
  assert (Hq' : Forall (fun e => e = None) (sdl_queue w1)).
  { rewrite Hq1. destruct Hq; [constructor | assumption]. }
  destruct (quiet_tick w1 Hq' Ha1 Hc1 Hn1)
    as (w2 & tr2 & H2 & Hd2 & Hm2 & _ & _ & _ & Hn2).
  exists w1, w2, tr1, tr2. rewrite Hm1 in Hd2.
  repeat split; assumption.
Qed.

Lemma minute_rollover_redraws_once_witness :
  exists w1 w2 tr1 tr2,
    run_iter before_rollover = Done true w1 tr1 /\
    run_iter w1 = Done true w2 tr2 /\
    minute_read before_rollover = 659 /\
    count_draws tr1 = 0%nat /\
    minute_read w1 = 660 /\
    count_draws tr2 = 1%nat /\
    last_minute (launcher w2) = 660.
Proof.
  destruct (minute_rollover_redraws_once before_rollover
              ltac:(repeat constructor) eq_refl eq_refl eq_refl)
    as (w1 & w2 & tr1 & tr2 & H1 & H2 & Hd1 & Hm1 & Hd2 & Hm2 & _).
  exists w1, w2, tr1, tr2.
  assert (E1 : run_iter before_rollover = Done true _ _)
    by (vm_compute; reflexivity).
  rewrite E1 in H1. injection H1 as <- <-.
  split; [exact E1 |]. split; [exact H2 |].
  split; [reflexivity |]. split; [exact Hd1 |].
  split; [reflexivity |]. split; [exact Hd2 |]. exact Hm2.
Defined.

Lemma tick_polls_tracked_child_witness :
  exists w1 wp,
    handle_events (idle_world sample_env 0 [Some (SDL_KEYDOWN SDLK_RETURN)])
      = Done 1 w1 [EFork "kodi" (Spawned 4242); EHideWindow] /\
    app_running (launcher w1) <> 0 /\
    run_iter (idle_world sample_env 0 [Some (SDL_KEYDOWN SDLK_RETURN)])
      = Done true wp [EFork "kodi" (Spawned 4242); EHideWindow;
                      EWaitpid 4242 ChildRunning; EDelay 200].
Proof.
  assert (Hev : handle_events
                  (idle_world sample_env 0 [Some (SDL_KEYDOWN SDLK_RETURN)])
                = Done 1 _ [EFork "kodi" (Spawned 4242); EHideWindow])
    by (vm_compute; reflexivity).
  destruct (tick_polls_tracked_child _ _ _ _ Hev
              ltac:(discriminate) ltac:(simpl; discriminate))
    as (r & wp & tp & Hpoll & _ & Hrun & _).
  vm_compute in Hpoll. injection Hpoll as <- <- <-.
  do 2 eexists. split; [exact Hev |]. split; [simpl; discriminate |].
  exact (proj1 (Hrun ltac:(discriminate))).
Defined.

(** ** Failed launches *)

(** C1, as stated, fails: with Kodi selected and [fork] failing, the
    handler of the Enter key leaves the launcher marked as running an app
    and the window hidden, and the iteration it belongs to hides the window
    before showing it again. *)
Lemma failed_spawn_hides_launcher :
  app_running (launcher failed_launch_world) = 0 /\
  window_shown failed_launch_world = true /\
  env_fork (env failed_launch_world) (n_fork failed_launch_world) = SpawnFailed /\
  (exists w1,
     handle_events failed_launch_world
       = Done 1 w1 [EFork "kodi" SpawnFailed; EHideWindow] /\
     ~ (app_running (launcher w1) = 0 /\ window_shown w1 = true)) /\
  (exists w2 tr,
     run_iter failed_launch_world = Done true w2 tr /\ In EHideWindow tr).
Proof.
  repeat split.
  - eexists. split; [vm_compute; reflexivity |].
    simpl. intros [H _]. discriminate H.
  - do 2 eexists. split; [vm_compute; reflexivity |].
    simpl. auto.
Qed.

(** C1, amended: when Enter (or keypad Enter) is the one pending event, no
    child is tracked and [fork] fails, the handler does mark the app as
    running and hide the window, but the poll of the same iteration finds
    no pid to wait for: the mark is cleared, the window shown and raised
    and the frame repainted before the iteration ends, with the selection
    and the rest of the event script untouched. *)
Theorem failed_spawn_recovers_within_iteration
    (w : World) (key : SDL_Keycode) (q : list (option SDL_Event)) :
  key = SDLK_RETURN \/ key = SDLK_KP_ENTER ->
  sdl_queue w = Some (SDL_KEYDOWN key) :: None :: q ->
  app_running (launcher w) = 0 ->
  launched_app_pid w = 0 ->
  env_fork (env w) (n_fork w) = SpawnFailed ->
  exists cmd wh w1 f,
    cmd = (if truthy (settings_selected (launcher w))
           then "gnome-control-center"
           else app_command (selected (launcher w))) /\
    handle_events w = Done 1 wh [EFork cmd SpawnFailed; EHideWindow] /\
    app_running (launcher wh) = 1 /\
    window_shown wh = false /\
    run_iter w
      = Done true w1 [EFork cmd SpawnFailed; EHideWindow;
                      EShowWindow; ERaiseWindow; EDraw f; EDelay 50] /\
    app_running (launcher w1) = 0 /\
    window_shown w1 = true /\
    launched_app_pid w1 = 0 /\
    needs_redraw (launcher w1) = 0 /\
    selected (launcher w1) = selected (launcher w) /\
    settings_selected (launcher w1) = settings_selected (launcher w) /\
    sdl_queue w1 = q.
Proof.
  intros Hkey Hq Happ Hpid Hfork.
  set (cmd := if truthy (settings_selected (launcher w))
              then "gnome-control-center"
              else app_command (selected (launcher w))).
  set (wh := with_window false
               (with_launcher
                  (set_app_running 1 (set_needs_redraw 1 (launcher w)))
                  (tick_fork (with_queue q w)))).
  assert (Hev : handle_events w
                = Done 1 wh [EFork cmd SpawnFailed; EHideWindow]).
  { unfold handle_events. rewrite Hq.
    cbn [handle_events_loop List.length].
    unfold bind at 1. unfold SDL_PollEvent at 1. rewrite Hq.
    assert (Hk : handle_keydown key (with_queue (None :: q) w)
                 = Done Break (with_queue (None :: q) wh)
                     [EFork cmd SpawnFailed; EHideWindow]).
    { unfold cmd, wh.
      destruct Hkey as [-> | ->]; unfold_keydown; simpl;
        destruct (truthy (settings_selected (launcher w))); simpl;
        rewrite Hfork; reflexivity. }
    rewrite (bind_done _ _ _ _ _ _ Hk).
    unfold bind, SDL_PollEvent. reflexivity. }
  assert (Hrunning : app_running (launcher wh) <> 0) by (simpl; discriminate).
  assert (Hpoll : is_app_running wh = Done 0 wh []).
  { apply is_app_running_untracked. simpl. lia. }
  pose proof (check_app_polled _ _ _ _ Hrunning Hpoll) as Hcheck.
  change (truthy 0) with false in Hcheck. cbv iota in Hcheck.
  match type of Hcheck with _ = Done _ ?x _ => set (ws := x) in * end.
  destruct (tick_tail_spec ws)
    as (w1 & f & Htail & Hn & _ & _ & Ha & Hsel & Hset & Hp & Hwin & Hq1 & _).
  assert (Hdue : redraw_due ws = true).
  { unfold redraw_due, ws. simpl. apply orb_true_r. }
  rewrite Hdue in Htail. simpl in Htail.
  exists cmd, wh, w1, f. split; [reflexivity |].
  split; [exact Hev |]. split; [reflexivity |]. split; [reflexivity |].
  split.
  { rewrite run_iter_unfold. rewrite (bind_done _ _ _ _ _ _ Hev).
    change (negb (truthy 1)) with false. cbv iota.
    rewrite (bind_done _ _ _ _ _ _ Hcheck). cbv iota.
    rewrite Htail. reflexivity. }
  split; [rewrite Ha; reflexivity |].
  split; [rewrite Hwin; reflexivity |].
  split; [rewrite Hp; exact Hpid |].
  split; [exact Hn |].
  split; [rewrite Hsel; reflexivity |].
  split; [rewrite Hset; reflexivity |].
  rewrite Hq1. reflexivity.
Qed.

Lemma failed_spawn_recovers_within_iteration_witness :
  exists w1 f,
    run_iter (idle_world failing_env 0 [Some (SDL_KEYDOWN SDLK_RETURN); None])
      = Done true w1 [EFork "kodi" SpawnFailed; EHideWindow;
                      EShowWindow; ERaiseWindow; EDraw f; EDelay 50] /\
    app_running (launcher w1) = 0 /\
    window_shown w1 = true.
Proof.
  destruct (failed_spawn_recovers_within_iteration
              (idle_world failing_env 0 [Some (SDL_KEYDOWN SDLK_RETURN); None])
              SDLK_RETURN [] (or_introl eq_refl) eq_refl eq_refl eq_refl eq_refl)
    as (cmd & wh & w1 & f & Hcmd & _ & _ & _ & Hrun & Ha & Hw & _).
  vm_compute in Hcmd. subst cmd.
  exists w1, f. split; [exact Hrun |]. split; assumption.
Defined.

(** ** Confirmation gating *)

Example gated_rejects_bare_system :
  gated None [EDialog "Reboot"; ESystem "sudo reboot"] = false.
Proof. reflexivity. Qed.

Example gated_rejects_cancelled_system :
  gated None [EDialog "Reboot"; EConfirm "Reboot" false; ESystem "sudo reboot"]
  = false.
Proof. reflexivity. Qed.

Example gated_accepts_confirmed_system :
  gated None [EDialog "Power Off"; EDelay 50; EConfirm "Power Off" true;
              ESystem "sudo poweroff"] = true.
Proof. reflexivity. Qed.

Lemma gated_app (prev : option Effect) (t1 t2 : list Effect) :
  gated prev (t1 ++ t2) = gated prev t1 && gated (last_effect prev t1) t2.
Proof.
  revert prev. induction t1 as [| e t1 IH]; intros prev; [reflexivity |].
  destruct e; simpl; rewrite IH; try reflexivity.
  rewrite andb_assoc. reflexivity.
Qed.

Lemma safe_nil : safe [].
Proof. intros prev. reflexivity. Qed.

Lemma safe_app (t1 t2 : list Effect) : safe t1 -> safe t2 -> safe (t1 ++ t2).
Proof. intros H1 H2 prev. rewrite gated_app, H1, H2. reflexivity. Qed.

Lemma safe_single (e : Effect) : is_system e = false -> safe [e].
Proof. intros H prev. destruct e; try reflexivity. discriminate H. Qed.

Lemma safe_cons (e : Effect) (tr : list Effect) :
  is_system e = false -> safe tr -> safe (e :: tr).
Proof. intros He Htr. apply (safe_app [e] tr); [apply safe_single |]; assumption. Qed.

Lemma safe_delays (tr : list Effect) :
  Forall (fun e => e = EDelay 50) tr -> safe tr.
Proof.
  induction 1 as [| e tr He _ IH]; [apply safe_nil |].
  subst e. apply safe_cons; [reflexivity | exact IH].
Qed.

(** The trace of a dialog and of what follows its answer. *)
Lemma safe_dialog (action cmd : string) (trd : list Effect) (r : Z) :
  Forall (fun e => e = EDelay 50) trd ->
  authorises (Some (EConfirm action true)) cmd = true ->
  safe (EDialog action
          :: (trd ++ [EConfirm action (truthy r)])
          ++ (if truthy r then [ESystem cmd] else [])).
Proof.
  intros Hd Hauth. apply safe_cons; [reflexivity |].
  rewrite <- app_assoc. apply safe_app; [apply safe_delays; exact Hd |].
  destruct (truthy r); intros prev; cbn [app gated];
    [rewrite Hauth |]; reflexivity.
Qed.

Lemma handle_keydown_safe (sym : SDL_Keycode) : emits safe (handle_keydown sym).
Proof.
  intros w.
  destruct sym;
    try (unfold_keydown; break_guards; simpl;
         repeat (apply safe_cons; [reflexivity |]); apply safe_nil).
  - (* r *)
    unfold_keydown. simpl.
    pose proof (confirm_wait_delays (sdl_queue w)) as Hd.
    destruct (confirm_wait (sdl_queue w)) as [trd [[r q'] |]]; simpl in Hd.
    + pose proof (safe_dialog "Reboot" "sudo reboot" trd r Hd eq_refl) as Hs.
      destruct (truthy r); simpl in *; rewrite ?app_nil_r in *; exact Hs.
    + apply safe_cons; [reflexivity | apply safe_delays; exact Hd].
  - (* p *)
    unfold_keydown. simpl.
    pose proof (confirm_wait_delays (sdl_queue w)) as Hd.
    destruct (confirm_wait (sdl_queue w)) as [trd [[r q'] |]]; simpl in Hd.
    + pose proof (safe_dialog "Power Off" "sudo poweroff" trd r Hd eq_refl) as Hs.
      destruct (truthy r); simpl in *; rewrite ?app_nil_r in *; exact Hs.
    + apply safe_cons; [reflexivity | apply safe_delays; exact Hd].
Qed.

Lemma check_app_safe : emits safe check_app.
Proof.
  intros w.
  destruct (Z.eq_dec (app_running (launcher w)) 0) as [Happ | Happ].
  - rewrite (check_app_idle w Happ). apply safe_nil.
  - destruct (is_app_running_total w)
      as (r & wp & tp & Hpoll & _ & _ & _ & _ & _ & _ & Hsafe & _).
    rewrite (check_app_polled _ _ _ _ Happ Hpoll).
    destruct (truthy r); apply safe_app; try exact Hsafe;
      repeat (apply safe_cons; [reflexivity |]); apply safe_nil.
Qed.

Lemma tick_tail_safe : emits safe tick_tail.
Proof.
  intros w. destruct (tick_tail_spec w) as (w' & f & -> & _).
  destruct (redraw_due w); simpl;
    repeat (apply safe_cons; [reflexivity |]); apply safe_nil.
Qed.

Lemma run_iter_safe : emits safe run_iter.
Proof.
  unfold run_iter. apply (emits_bind safe safe_app).
  - apply (emits_handle_events safe safe_nil safe_app handle_keydown_safe).
  - intros go. destruct (negb (truthy go)).
    + apply (emits_ret safe safe_nil).
    + apply (emits_bind safe safe_app); [exact check_app_safe |].
      intros [|]; [apply (emits_ret safe safe_nil) | exact tick_tail_safe].
Qed.

Lemma sample_block_safe (m : M unit) : sample_block m -> emits safe m.
Proof.
  intros H w. specialize (H w).
  destruct (m w) as [[] w' tr | tr | tr |]; try contradiction.
  - destruct H as (-> & _). apply safe_nil.
  - subst tr. apply safe_nil.
Qed.

Lemma stats_thread_body_safe (long_bits : Z) :
  emits safe (stats_thread_body long_bits).
Proof.
  unfold stats_thread_body.
  apply (emits_bind safe safe_app);
    [apply emits_silent; [exact safe_nil | intros w; unfold get_l; eauto] |].
  intros l. cbv zeta.
  apply (emits_bind safe safe_app);
    [apply emits_silent; [exact safe_nil | intros w; unfold next_readings; eauto] |].
  intros r.
  apply (emits_bind safe safe_app);
    [apply sample_block_safe, sample_cpu_block |]. intros _.
  apply (emits_bind safe safe_app);
    [apply sample_block_safe, sample_mem_block |]. intros _.
  apply (emits_bind safe safe_app);
    [apply sample_block_safe, sample_temp_block |]. intros _.
  apply (emits_bind safe safe_app);
    [apply sample_block_safe, sample_disk_block |]. intros _.
  apply (emits_bind safe safe_app).
  - intros w. unfold check_changed, modify_stats, modify_l, get_l, emit, bind, ret.
    cbv beta iota zeta.
    destruct (snapshot_differs _ _); simpl;
      repeat (apply safe_cons; [reflexivity |]); apply safe_nil.
  - intros _ w. apply safe_single. reflexivity.
Qed.

(** Whatever the two threads do, every piece of their trace is gated. *)
Lemma exec_safe (long_bits : Z) (w : World) (tr : list Effect) :
  exec long_bits w tr -> safe tr.
Proof.
  induction 1 as [w | w w1 tr1 tr2 Hrun _ IH | w w1 tr1 Hrun | w tr1 Hrun
                  | w w1 tr1 tr2 Hbody _ IH | w tr1 tr2 Hbody _ IH].
  - apply safe_nil.
  - apply safe_app; [| exact IH].
    pose proof (run_iter_safe w) as H. rewrite Hrun in H. exact H.
  - pose proof (run_iter_safe w) as H. rewrite Hrun in H. exact H.
  - pose proof (run_iter_safe w) as H. rewrite Hrun in H. exact H.
  - apply safe_app; [| exact IH].
    pose proof (stats_thread_body_safe long_bits w) as H.
    rewrite Hbody in H. exact H.
  - apply safe_app; [| exact IH].
    pose proof (stats_thread_body_safe long_bits w) as H.
    rewrite Hbody in H. exact H.
Qed.







(** ** Invariant of the reachable worlds *)

Lemma handle_keydown_invariant (sym : SDL_Keycode) (w w' : World) c tr :
  launcher_invariant w ->
  handle_keydown sym w = Done c w' tr ->
  launcher_invariant w'.
Proof.
  unfold launcher_invariant, NUM_APPS. intros (Hsel & Hpos & Hidle).
  pose proof (Z.rem_bound_pos (selected (launcher w) - 1 + 5) 5) as Hl.
  pose proof (Z.rem_bound_pos (selected (launcher w) + 1) 5) as Hr.
  destruct sym; unfold_keydown; break_guards; simpl;
    intros Hdone; try discriminate Hdone; injection Hdone as <- <- <-; simpl;
    unfold NUM_APPS; repeat split; try assumption; try lia;
    try (intros; discriminate).
Qed.

(** [selected_in_range_keydown]: the index given to [apps] by the Enter
    key is within the array. *)
Lemma selected_in_range_keydown (sym : SDL_Keycode) (w w' : World) c tr :
  launcher_invariant w ->
  handle_keydown sym w = Done c w' tr ->
  0 <= selected (launcher w') < NUM_APPS.
Proof. intros Hi H. exact (proj1 (handle_keydown_invariant _ _ _ _ _ Hi H)). Qed.

Lemma handle_events_loop_invariant (n : nat) (w w' : World) go tr :
  launcher_invariant w ->
  handle_events_loop n w = Done go w' tr ->
  launcher_invariant w'.
Proof.
  revert w tr. induction n as [| n IH]; intros w tr Hi; [discriminate |].
  cbn [handle_events_loop]. unfold bind at 1. unfold SDL_PollEvent at 1.
  destruct (sdl_queue w) as [| e q].
  { intros H. injection H as <- <- <-. exact Hi. }
  assert (Hq : launcher_invariant (with_queue q w)) by exact Hi.
  destruct e as [[| sym |] |].
  - intros H. injection H as <- <- <-. exact Hq.
  - unfold bind at 1.
    destruct (handle_keydown sym (with_queue q w)) as [c w1 t1 | t1 | t1 |] eqn:Hk;
      try discriminate.
    apply (handle_keydown_invariant _ _ _ _ _ Hq) in Hk.
    destruct c as [| v].
    + destruct (handle_events_loop n w1) as [go2 w2 t2 | t2 | t2 |] eqn:Hl;
        try discriminate.
      intros H. injection H as <- <- <-. exact (IH _ _ Hk Hl).
    + intros H. injection H as <- <- <-. exact Hk.
  - destruct (handle_events_loop n (with_queue q w)) as [go2 w2 t2 | t2 | t2 |] eqn:Hl;
      try discriminate.
    intros H. injection H as <- <- <-. exact (IH _ _ Hq Hl).
  - intros H. injection H as <- <- <-. exact Hq.
Qed.

Lemma bind_inv {A B} (m : M A) (f : A -> M B) (w w2 : World) (b : B) t :
  bind m f w = Done b w2 t ->
  exists a w1 t1 t2,
    m w = Done a w1 t1 /\ f a w1 = Done b w2 t2 /\ t = (t1 ++ t2)%list.
Proof.
  unfold bind. destruct (m w) as [a w1 t1 | t1 | t1 |]; try discriminate.
  destruct (f a w1) as [b' w2' t2 | t2 | t2 |] eqn:Hf; try discriminate.
  intros H. injection H as <- <- <-. exists a, w1, t1, t2.
  split; [reflexivity | split; [exact Hf | reflexivity]].
Qed.

Lemma tick_tail_invariant (w w' : World) (b : bool) tr :
  launcher_invariant w -> tick_tail w = Done b w' tr -> launcher_invariant w'.
Proof.
  intros (Hs & Hp & Hz).
  destruct (tick_tail_spec w)
    as (w2 & f & -> & _ & _ & _ & Ha & Hsel & _ & Hpid & _).
  intros H. injection H as <- <- <-.
  unfold launcher_invariant. rewrite Ha, Hsel, Hpid.
  split; [exact Hs | split; [exact Hp | exact Hz]].
Qed.

Lemma check_app_invariant (w w' : World) (b : bool) tr :
  launcher_invariant w -> check_app w = Done b w' tr -> launcher_invariant w'.
Proof.
  intros Hi.
  destruct (Z.eq_dec (app_running (launcher w)) 0) as [Happ | Happ].
  - rewrite (check_app_idle _ Happ). intros H. injection H as <- <- <-. exact Hi.
  - destruct (is_app_running_total w)
      as (r & wp & tp & Hpoll & Hl & _ & _ & _ & _ & _ & _ & _ & Hr0 & Hr1).
    rewrite (check_app_polled _ _ _ _ Happ Hpoll).
    destruct Hi as (Hs & Hp & Hz).
    destruct (truthy r) eqn:Er; intros H; injection H as <- <- <-.
    + apply truthy_true in Er. specialize (Hr1 Er).
      unfold launcher_invariant. rewrite Hl, Hr1.
      split; [exact Hs | split; [exact Hp | exact Hz]].
    + apply truthy_false in Er. specialize (Hr0 Er).
      unfold launcher_invariant. simpl. rewrite Hl, Hr0.
      split; [exact Hs | split; lia].
Qed.

Lemma run_iter_invariant (w w' : World) (b : bool) tr :
  launcher_invariant w ->
  run_iter w = Done b w' tr ->
  launcher_invariant w'.
Proof.
  intros Hi. rewrite run_iter_unfold. intros H.
  apply bind_inv in H. destruct H as (go & wa & ta & t2 & Hev & H & _).
  apply (handle_events_loop_invariant _ _ _ _ _ Hi) in Hev.
  destruct (negb (truthy go)).
  { injection H as <- <- <-. exact Hev. }
  apply bind_inv in H. destruct H as (skip & wb & tb & t3 & Hcheck & H & _).
  apply (check_app_invariant _ _ _ _ Hev) in Hcheck.
  destruct skip.
  - injection H as <- <- <-. exact Hcheck.
  - exact (tick_tail_invariant _ _ _ _ Hcheck H).
Qed.

Lemma stats_thread_body_invariant (long_bits : Z) (w w' : World) tr :
  launcher_invariant w ->
  stats_thread_body long_bits w = Done tt w' tr ->
  launcher_invariant w'.
Proof.
  intros (Hs & Hp & Hz) H. apply stats_thread_body_spec in H.
  destruct H as ((Hsel & _ & _ & _ & Ha & _ & Hpid & _) & _).
  unfold launcher_invariant. rewrite Hsel, Ha, Hpid.
  split; [exact Hs | split; [exact Hp | exact Hz]].
Qed.

(** Every world the main loop starts an iteration in satisfies the
    invariant: the hypotheses on the selection and on the tracked pid made
    below hold wherever the program can be. *)
Lemma reachable_invariant (long_bits : Z) (e : Env) q (w : World) :
  reachable long_bits e q w -> launcher_invariant w.
Proof.
  induction 1 as [w tr H | w w1 tr _ IH H | w w1 tr _ IH H].
  - vm_compute in H. injection H as <- <-.
    unfold launcher_invariant, NUM_APPS. simpl. repeat split; lia.
  - exact (run_iter_invariant _ _ _ _ IH H).
  - exact (stats_thread_body_invariant _ _ _ _ IH H).
Qed.

(** ** The whole loops *)

(** What [run_loop] does is an execution in the sense of [exec]. *)
Lemma run_loop_exec (long_bits : Z) (n : nat) (w : World) :
  match run_loop n w with
  | Done _ _ tr | Blocked tr => exec long_bits w tr
  | Fault _ => False
  | OutOfFuel => True
  end.
Proof.
  revert w. induction n as [| n IH]; intros w; [exact I |].
  cbn [run_loop]. unfold bind.
  destruct (run_iter w) as [go w1 t1 | t1 | t1 |] eqn:Hrun.
  - destruct go.
    + specialize (IH w1).
      destruct (run_loop n w1) as [[] w2 t2 | t2 | t2 |]; try contradiction;
        try exact I.
      * exact (exec_tick _ _ _ _ _ Hrun IH).
      * exact (exec_tick _ _ _ _ _ Hrun IH).
    + simpl. rewrite app_nil_r. exact (exec_break _ _ _ _ Hrun).
  - exact (exec_blocked _ _ _ Hrun).
  - pose proof (handle_events_fuel w) as Hev.
    rewrite run_iter_unfold in Hrun. unfold bind at 1 in Hrun.
    destruct (handle_events w) as [go wa ta | ta | ta |]; try contradiction;
      try discriminate.
    destruct (negb (truthy go)); [discriminate |].
    unfold bind in Hrun.
    destruct (Z.eq_dec (app_running (launcher wa)) 0) as [Happ | Happ].
    + rewrite (check_app_idle _ Happ) in Hrun.
      destruct (tick_tail_spec wa) as (w2 & f & Ht & _).
      rewrite Ht in Hrun. discriminate.
    + destruct (is_app_running_total wa) as (r & wp & tp & Hpoll & _).
      rewrite (check_app_polled _ _ _ _ Happ Hpoll) in Hrun.
      destruct (truthy r); [discriminate |].
      match type of Hrun with
      | context [tick_tail ?x] =>
          destruct (tick_tail_spec x) as (w2 & f & Ht & _); rewrite Ht in Hrun
      end.
      discriminate.
  - exact I.
Qed.

(** A sampling cycle ends unless it divides by a zero total. *)
Lemma stats_thread_body_total (long_bits : Z) (w : World) :
  totals_nonzero long_bits (env_readings (env w) (n_sample w)) ->
  exists w1 tr, stats_thread_body long_bits w = Done tt w1 tr.
Proof.
  intros (Hmem & Hdisk).
  unfold stats_thread_body, bind at 1, get_l at 1. cbv beta iota zeta.
  unfold bind at 1, next_readings at 1. cbv beta iota zeta.
  set (r := env_readings (env w) (n_sample w)) in *.
  assert (Hm : forall w0, exists w' , sample_mem long_bits r w0 = Done tt w' []).
  { intros w0. unfold sample_mem. destruct (sys_info r) as [si |] eqn:E.
    - cbv zeta. specialize (Hmem si eq_refl). apply Z.eqb_neq in Hmem.
      unfold to_ulong in *. rewrite Hmem. eexists. reflexivity.
    - eexists. reflexivity. }
  assert (Hd : forall w0, exists w', sample_disk long_bits r w0 = Done tt w' []).
  { intros w0. unfold sample_disk. destruct (statvfs_root r) as [sv |] eqn:E.
    - cbv zeta. specialize (Hdisk sv eq_refl). apply Z.eqb_neq in Hdisk.
      unfold to_ulong in *. rewrite Hdisk. eexists. reflexivity.
    - eexists. reflexivity. }
  assert (Hc : forall w0, exists w', sample_cpu long_bits r w0 = Done tt w' []).
  { intros w0. unfold sample_cpu.
    destruct (read_cpu_stats long_bits (proc_stat r) 0 0) as [idle total].
    unfold bind, get_prev, put_prev, modify_stats, modify_l, ret.
    cbv beta iota zeta. simpl.
    destruct (0 <? prev_total w0); [| eexists; reflexivity].
    destruct (0 <? _); eexists; reflexivity. }
  assert (Ht : forall w0, exists w', sample_temp r w0 = Done tt w' []).
  { intros w0. unfold sample_temp. destruct (thermal_zone0 r); eexists; reflexivity. }
  destruct (Hc (tick_sample w)) as (wa & Ha).
  destruct (Hm wa) as (wb & Hb). destruct (Ht wb) as (wc & Hcc).
  destruct (Hd wc) as (wd & Hdd).
  unfold bind. rewrite Ha, Hb, Hcc, Hdd.
  unfold check_changed, sleep, modify_stats, modify_l, get_l, emit, bind, ret.
  cbv beta iota zeta.
  destruct (snapshot_differs _ _); do 2 eexists; reflexivity.
Qed.

(** [run], from its first frame on, only issues gated commands. *)
Lemma run_gated (ticks : nat) (w : World) :
  match run ticks w with
  | Done _ _ tr | Blocked tr => gated None tr = true
  | Fault _ => False
  | OutOfFuel => True
  end.
Proof.
  unfold run.
  assert (Hd : exists f, draw w = Done tt (tick_time w) [EDraw f])
    by (eexists; reflexivity).
  destruct Hd as (f & Hd). rewrite (bind_done _ _ _ _ _ _ Hd).
  set (w1 := with_launcher (set_needs_redraw 0 (launcher (tick_time w)))
                           (tick_time w)).
  rewrite (bind_silent (modify_l (set_needs_redraw 0)) _ (tick_time w) w1 tt eq_refl).
  pose proof (run_loop_exec 64 ticks w1) as H.
  destruct (run_loop ticks w1) as [[] w2 t2 | t2 | t2 |];
    try exact H; apply exec_safe in H;
    apply (safe_cons (EDraw f) t2 eq_refl H).
Qed.

(** ** Two threads on one snapshot *)

(** Each block of a sampling cycle stores its own field and no other, and
    emits nothing. *)
Lemma sample_cpu_others (long_bits : Z) (r : Readings) (w w' : World) tr :
  sample_cpu long_bits r w = Done tt w' tr ->
  tr = [] /\
  mem (stats (launcher w')) = mem (stats (launcher w)) /\
  temp (stats (launcher w')) = temp (stats (launcher w)) /\
  disk (stats (launcher w')) = disk (stats (launcher w)).
Proof.
  unfold sample_cpu.
  destruct (read_cpu_stats long_bits (proc_stat r) 0 0) as [idle total].
  unfold bind, get_prev, put_prev, modify_stats, modify_l, ret.
  cbv beta iota zeta. simpl.
  destruct (0 <? prev_total w);
    [| intros H; injection H as <- <-; repeat split].
  destruct (0 <? _); intros H; injection H as <- <-; repeat split.
Qed.

Lemma sample_mem_others (long_bits : Z) (r : Readings) (w w' : World) tr :
  sample_mem long_bits r w = Done tt w' tr ->
  tr = [] /\
  cpu (stats (launcher w')) = cpu (stats (launcher w)) /\
  temp (stats (launcher w')) = temp (stats (launcher w)) /\
  disk (stats (launcher w')) = disk (stats (launcher w)).
Proof.
  unfold sample_mem.
  destruct (sys_info r) as [si |];
    [| intros H; injection H as <- <-; repeat split].
  cbv zeta. destruct (_ =? 0); [discriminate |].
  intros H; injection H as <- <-; repeat split.
Qed.

Lemma sample_temp_others (r : Readings) (w w' : World) tr :
  sample_temp r w = Done tt w' tr ->
  tr = [] /\
  cpu (stats (launcher w')) = cpu (stats (launcher w)) /\
  mem (stats (launcher w')) = mem (stats (launcher w)) /\
  disk (stats (launcher w')) = disk (stats (launcher w)).
Proof.
  unfold sample_temp.
  destruct (thermal_zone0 r); intros H; injection H as <- <-; repeat split.
Qed.

Lemma sample_disk_others (long_bits : Z) (r : Readings) (w w' : World) tr :
  sample_disk long_bits r w = Done tt w' tr ->
  tr = [] /\
  cpu (stats (launcher w')) = cpu (stats (launcher w)) /\
  mem (stats (launcher w')) = mem (stats (launcher w)) /\
  temp (stats (launcher w')) = temp (stats (launcher w)).
Proof.
  unfold sample_disk.
  destruct (statvfs_root r) as [sv |];
    [| intros H; injection H as <- <-; repeat split].
  cbv zeta. destruct (_ =? 0); [discriminate |].
  intros H; injection H as <- <-; repeat split.
Qed.

(** Takes the next block of a cycle off the run [H] describes. *)
Ltac next_block H :=
  let E := fresh "E" in
  let t := fresh "t" in
  match type of H with
  | context [sample_cpu ?l ?r ?w] =>
      destruct (sample_cpu l r w) as [[] ? t | ? | ? |] eqn:E;
      try discriminate H;
      apply sample_cpu_others in E; destruct E as (-> & ? & ? & ?)
  | context [sample_mem ?l ?r ?w] =>
      destruct (sample_mem l r w) as [[] ? t | ? | ? |] eqn:E;
      try discriminate H;
      apply sample_mem_others in E; destruct E as (-> & ? & ? & ?)
  | context [sample_temp ?r ?w] =>
      destruct (sample_temp r w) as [[] ? t | ? | ? |] eqn:E;
      try discriminate H;
      apply sample_temp_others in E; destruct E as (-> & ? & ? & ?)
  | context [sample_disk ?l ?r ?w] =>
      destruct (sample_disk l r w) as [[] ? t | ? | ? |] eqn:E;
      try discriminate H;
      apply sample_disk_others in E; destruct E as (-> & ? & ? & ?)
  end;
  cbv beta iota in H.

(** A frame painted after the first [k] stores of a cycle shows the first
    [k] fields as the cycle leaves them and the others as they were. *)
Lemma frame_during_cycle (long_bits : Z) (k : nat) (w w2 : World) tr :
     stats_thread_body_with long_bits k draw w = Done tt w2 tr ->
     exists f,
       In (EDraw f) tr /\ count_draws tr = 1%nat /\
       fr_cpu f = cpu (stats (launcher (if (1 <=? k)%nat then w2 else w))) /\
       fr_mem f = mem (stats (launcher (if (2 <=? k)%nat then w2 else w))) /\
       fr_temp f = temp (stats (launcher (if (3 <=? k)%nat then w2 else w))) /\
       fr_disk f = disk (stats (launcher (if (4 <=? k)%nat then w2 else w))).
Proof.
  intros H. unfold stats_thread_body_with in H.
  do 5 (try destruct k as [| k]);
    cbn [field_stores firstn skipn run_all] in H;
    unfold draw, check_changed, sleep, localtime_now, modify_stats in H;
    unfold bind, get_l, next_readings, emit, ret, modify_l in H;
    cbv beta iota zeta in H.
  all: do 4 next_block H;
    destruct (snapshot_differs _ _) in H; cbv beta iota in H;
    injection H as <- <-;
    (eexists; split; [simpl; left; reflexivity | split; [reflexivity |]]);
    cbn [Nat.leb fr_cpu fr_mem fr_temp fr_disk launcher with_launcher
         tick_time tick_sample stats set_stats set_changed cpu mem temp disk];
    cbn [launcher tick_time tick_sample] in *;
    repeat split; congruence.
Qed.

(** The flag statement of the sampler between the test and the clear of
    the main loop. *)
Lemma check_changed_before_clear (old : Stats) (w : World) :
    check_stats_with (check_changed old) w
    = if truthy (changed (stats (launcher w)))
      then (check_changed old ;; check_stats) w
      else (check_stats ;; check_changed old) w.
Proof.
  unfold check_stats_with, check_stats, check_changed, modify_stats.
  unfold bind, get_l, emit, ret, modify_l. cbv beta iota zeta.
  destruct (truthy (changed (stats (launcher w)))) eqn:Ec;
    destruct (snapshot_differs old (stats (launcher w))) eqn:Ed;
    cbn [launcher with_launcher stats set_stats set_changed changed];
    rewrite ?Ec; try reflexivity.
Qed.

Ltac same_trace :=
  repeat first [rewrite app_nil_r | rewrite <- app_assoc | progress cbn [app]];
  reflexivity.

Lemma stats_thread_body_with_nothing (long_bits : Z) (k : nat) (w : World) :
  stats_thread_body_with long_bits k (ret tt) w = stats_thread_body long_bits w.
Proof.
  unfold stats_thread_body_with, stats_thread_body.
  do 5 (try destruct k as [| k]);
    cbn [field_stores firstn skipn run_all];
    unfold bind, get_l, next_readings, ret; cbv beta iota zeta;
    destruct (sample_cpu _ _ _) as [[] ? ? | ? | ? |]; try same_trace;
    destruct (sample_mem _ _ _) as [[] ? ? | ? | ? |]; try same_trace;
    destruct (sample_temp _ _) as [[] ? ? | ? | ? |]; try same_trace;
    destruct (sample_disk _ _ _) as [[] ? ? | ? | ? |]; try same_trace;
    destruct (check_changed _ _) as [[] ? ? | ? | ? |]; try same_trace;
    destruct (sleep _ _) as [[] ? ? | ? | ? |]; same_trace.
Qed.

Lemma check_stats_with_nothing (w : World) :
  check_stats_with (ret tt) w = check_stats w.
Proof.
  unfold check_stats_with, check_stats, modify_stats.
  unfold bind, get_l, ret, modify_l. cbv beta iota zeta.
  destruct (truthy (changed (stats (launcher w)))); reflexivity.
Qed.


(** C6, as stated, fails: the machine's readings move between two cycles,
    and a frame painted after the second store of the second cycle shows
    cpu and mem of that cycle beside temp and disk of the first one, which
    is the snapshot of neither. *)
Lemma frame_mixes_two_cycles :
  exists w1 w2 f,
    stats_thread_body 64 (idle_world drifting_env 0 [])
      = Done tt w1 [EStatsChanged; ESleep 2] /\
    stats_thread_body_with 64 2 draw w1
      = Done tt w2 [EDraw f; EStatsChanged; ESleep 2] /\
    snapshot w1 = (0, 75, 45, 60) /\
    snapshot w2 = (90, 80, 50, 61) /\
    shown f = (90, 80, 45, 60) /\
    shown f <> snapshot w1 /\ shown f <> snapshot w2.
Proof.
  do 3 eexists.
  split; [vm_compute; reflexivity |].
  split; [vm_compute; reflexivity |].
  split; [reflexivity |]. split; [reflexivity |]. split; [reflexivity |].
  split; vm_compute; discriminate.
Qed.

(** C6, amended: the fields of the snapshot are stored one at a time, in
    the order cpu, mem, temp, disk, and nothing keeps the main thread from
    painting between two stores: a frame painted after the first [k] stores
    of a cycle shows the first [k] fields as the cycle leaves them and the
    other fields as they were before it, so that only a frame painted
    before the first or after the last store shows one cycle throughout.
    The flag is tested and cleared by two statements; when the sampler's
    flag statement falls between them, the outcome is that of the flag
    statement followed by the whole check if the test read non-zero, and
    of the whole check followed by the flag statement if it read zero.
    With nothing interleaved both are the code of one thread alone. *)
Theorem snapshot_is_stored_field_by_field (long_bits : Z) :
  (forall k w w2 tr,
     stats_thread_body_with long_bits k draw w = Done tt w2 tr ->
     exists f,
       In (EDraw f) tr /\ count_draws tr = 1%nat /\
       fr_cpu f = cpu (stats (launcher (if (1 <=? k)%nat then w2 else w))) /\
       fr_mem f = mem (stats (launcher (if (2 <=? k)%nat then w2 else w))) /\
       fr_temp f = temp (stats (launcher (if (3 <=? k)%nat then w2 else w))) /\
       fr_disk f = disk (stats (launcher (if (4 <=? k)%nat then w2 else w)))) /\
  (forall old w,
     check_stats_with (check_changed old) w
     = if truthy (changed (stats (launcher w)))
       then (check_changed old ;; check_stats) w
       else (check_stats ;; check_changed old) w) /\
  (forall k w,
     stats_thread_body_with long_bits k (ret tt) w
     = stats_thread_body long_bits w) /\
  (forall w, check_stats_with (ret tt) w = check_stats w).
Proof.
  split; [| split; [| split]].
  - intros k w w2 tr. apply frame_during_cycle.
  - exact check_changed_before_clear.
  - intros k w. apply stats_thread_body_with_nothing.
  - exact check_stats_with_nothing.
Qed.

Lemma snapshot_is_stored_field_by_field_witness :
  (exists w2 f,
     stats_thread_body_with 64 1 draw sampling_world
       = Done tt w2 [EDraw f; EStatsChanged; ESleep 2] /\
     shown f = (90, 0, 0, 0) /\
     snapshot w2 = (90, 75, 45, 60)) /\
  (exists w',
     check_stats_with (check_changed (stats launcher_create)) flagged_world
       = Done tt w' [EStatsChanged] /\
     changed (stats (launcher w')) = 0 /\
     needs_redraw (launcher w') = 1).
Proof.
  split; [| eexists; split; [vm_compute; reflexivity | split; reflexivity]].
  assert (H : stats_thread_body_with 64 1 draw sampling_world
              = Done tt _ [EDraw _; EStatsChanged; ESleep 2])
    by (vm_compute; reflexivity).
  destruct (proj1 (snapshot_is_stored_field_by_field 64) 1%nat _ _ _ H)
    as (f & Hin & _ & Hc & Hm & Ht & Hd).
  destruct Hin as [Hf | [Hf | [Hf | []]]]; try discriminate Hf.
  injection Hf as Hf.
  do 2 eexists. split; [exact H |].
  split; [| reflexivity].
  rewrite Hf. unfold shown. rewrite Hc, Hm, Ht, Hd. reflexivity.
Defined.

(** * Further properties *)

(** ** Window visibility and the reachable worlds *)

Lemma handle_keydown_visibility (sym : SDL_Keycode) (w w' : World) c tr :
  visibility_invariant w ->
  handle_keydown sym w = Done c w' tr ->
  visibility_invariant w'.
Proof.
  unfold visibility_invariant. intros Hv.
  destruct sym; unfold_keydown; break_guards; simpl;
    intros Hdone; try discriminate Hdone; injection Hdone as <- <- <-; simpl;
    try exact Hv; split; intros; discriminate.
Qed.

Lemma handle_events_loop_visibility (n : nat) (w w' : World) go tr :
  visibility_invariant w ->
  handle_events_loop n w = Done go w' tr ->
  visibility_invariant w'.
Proof.
  revert w tr. induction n as [| n IH]; intros w tr Hi; [discriminate |].
  cbn [handle_events_loop]. unfold bind at 1. unfold SDL_PollEvent at 1.
  destruct (sdl_queue w) as [| e q].
  { intros H. injection H as <- <- <-. exact Hi. }
  assert (Hq : visibility_invariant (with_queue q w)) by exact Hi.
  destruct e as [[| sym |] |].
  - intros H. injection H as <- <- <-. exact Hq.
  - unfold bind at 1.
    destruct (handle_keydown sym (with_queue q w)) as [c w1 t1 | t1 | t1 |] eqn:Hk;
      try discriminate.
    apply (handle_keydown_visibility _ _ _ _ _ Hq) in Hk.
    destruct c as [| v].
    + destruct (handle_events_loop n w1) as [go2 w2 t2 | t2 | t2 |] eqn:Hl;
        try discriminate.
      intros H. injection H as <- <- <-. exact (IH _ _ Hk Hl).
    + intros H. injection H as <- <- <-. exact Hk.
  - destruct (handle_events_loop n (with_queue q w)) as [go2 w2 t2 | t2 | t2 |] eqn:Hl;
      try discriminate.
    intros H. injection H as <- <- <-. exact (IH _ _ Hq Hl).
  - intros H. injection H as <- <- <-. exact Hq.
Qed.

Lemma run_iter_visibility (w w' : World) :
  visibility_invariant w ->
  forall tr, run_iter w = Done true w' tr ->
  visibility_invariant w'.
Proof.
  intros Hi tr. rewrite run_iter_unfold. intros H.
  apply bind_inv in H. destruct H as (go & wa & ta & t2 & Hev & H & _).
  apply (handle_events_loop_visibility _ _ _ _ _ Hi) in Hev.
  destruct (negb (truthy go)); [discriminate |].
  apply bind_inv in H. destruct H as (skip & wb & tb & t3 & Hcheck & H & _).
  assert (Hb : visibility_invariant wb /\ (skip = false -> app_running (launcher wb) = 0)).
  { unfold visibility_invariant in *.
    destruct (Z.eq_dec (app_running (launcher wa)) 0) as [Happ | Happ].
    - rewrite (check_app_idle _ Happ) in Hcheck.
      injection Hcheck as <- <- <-. split; [exact Hev | intros _; exact Happ].
    - destruct (is_app_running_total wa)
        as (r & wp & tp & Hpoll & Hl & Hwin & _).
      rewrite (check_app_polled _ _ _ _ Happ Hpoll) in Hcheck.
      destruct (truthy r); injection Hcheck as <- <- <-.
      + rewrite Hl, Hwin. split; [exact Hev | discriminate].
      + simpl. split; [split; reflexivity | reflexivity]. }
  destruct Hb as (Hb & _).
  destruct skip.
  - injection H as <- <-. exact Hb.
  - destruct (tick_tail_spec wb)
      as (w2 & f & Ht & _ & _ & _ & Ha & _ & _ & _ & Hwin & _).
    rewrite Ht in H. injection H as <- <-.
    unfold visibility_invariant in *. rewrite Ha, Hwin. exact Hb.
Qed.

(** X1: at the head of every iteration the main loop can reach, with the
    statistics thread running alongside, the selection is an index of
    [apps], a pid is tracked only while an app is marked running, and the
    launcher window is on screen exactly when no app is marked running. *)
Theorem reachable_worlds_are_consistent
    (long_bits : Z) (e : Env) (q : list (option SDL_Event)) (w : World) :
  reachable long_bits e q w ->
  0 <= selected (launcher w) < NUM_APPS /\
  (app_running (launcher w) = 0 -> launched_app_pid w = 0) /\
  (window_shown w = true <-> app_running (launcher w) = 0).
Proof.
  intros Hr.
  pose proof (reachable_invariant _ _ _ _ Hr) as Hinv.
  assert (Hv : visibility_invariant w).
  { clear Hinv. induction Hr as [w tr H | w w1 tr _ IH H | w w1 tr _ IH H].
    - vm_compute in H. injection H as <- <-.
      unfold visibility_invariant. simpl. split; reflexivity.
    - exact (run_iter_visibility _ _ IH _ H).
    - apply stats_thread_body_spec in H.
      destruct H as ((_ & _ & _ & _ & Ha & _ & _ & Hwin & _) & _).
      unfold visibility_invariant in *. rewrite Ha, Hwin. exact IH. }
  destruct Hinv as (Hsel & _ & Hpid).
  split; [exact Hsel | split; [exact Hpid |]].
  unfold visibility_invariant in Hv. tauto.
Qed.

Lemma reachable_worlds_are_consistent_witness :
  exists w0 w tr0 tr,
    (draw ;; modify_l (set_needs_redraw 0))
      (initial_world sample_env [Some (SDL_KEYDOWN SDLK_RETURN)])
      = Done tt w0 tr0 /\
    run_iter w0 = Done true w tr /\
    0 <= selected (launcher w) < NUM_APPS /\
    (app_running (launcher w) = 0 -> launched_app_pid w = 0) /\
    (window_shown w = true <-> app_running (launcher w) = 0).
Proof.
  assert (Hstart : (draw ;; modify_l (set_needs_redraw 0))
                     (initial_world sample_env [Some (SDL_KEYDOWN SDLK_RETURN)])
                   = Done tt _ _) by (vm_compute; reflexivity).
  match type of Hstart with
  | _ = Done tt ?w0 _ =>
      assert (Hrun : run_iter w0 = Done true _ _) by (vm_compute; reflexivity)
  end.
  do 4 eexists. split; [exact Hstart |]. split; [exact Hrun |].
  apply (reachable_worlds_are_consistent 64 sample_env
           [Some (SDL_KEYDOWN SDLK_RETURN)]).
  exact (reach_tick _ _ _ _ _ _ (reach_start _ _ _ _ _ Hstart) Hrun).
Defined.

(** ** Frames *)

(** The frame steps 3 to 5 paint shows the launcher state they start from,
    read at the clock call after the minute check. *)
Lemma tick_tail_frame (w w' : World) (b : bool) tr (f : Frame) :
  tick_tail w = Done b w' tr ->
  In (EDraw f) tr ->
  fr_selected f = selected (launcher w) /\
  fr_settings_selected f = settings_selected (launcher w) /\
  fr_cpu f = cpu (stats (launcher w)) /\
  fr_mem f = mem (stats (launcher w)) /\
  fr_temp f = temp (stats (launcher w)) /\
  fr_disk f = disk (stats (launcher w)) /\
  fr_time f = env_time (env w) (S (n_time w)).
Proof.
  unfold tick_tail, check_minute, check_stats,
    redraw_if_needed, draw, localtime_now, SDL_Delay, modify_stats, modify_l,
    get_l, emit, bind, ret.
  cbv beta iota zeta. simpl.
  set (m := tm_hour (env_time (env w) (n_time w)) * 60
            + tm_min (env_time (env w) (n_time w))).
  destruct (Z.eqb_spec m (last_minute (launcher w))) as [Em | Em];
    destruct (truthy (changed (stats (launcher w)))) eqn:Ec;
    destruct (truthy (needs_redraw (launcher w))) eqn:En; simpl;
    rewrite ?Ec; simpl; rewrite ?En; simpl;
    intros H; injection H as <- <- <-; simpl;
    intros Hin;
    repeat match goal with
      | Hor : _ \/ _ |- _ => destruct Hor as [Hor | Hor]
      end;
    try contradiction; try discriminate;
    match goal with
    | Hf : EDraw _ = EDraw _ |- _ => injection Hf as <-
    end; repeat split.
Qed.

Lemma in_draw_count (f : Frame) (tr : list Effect) :
  In (EDraw f) tr -> (0 < count_draws tr)%nat.
Proof.
  induction tr as [| e tr IH]; intros H; [contradiction |].
  rewrite count_draws_cons. destruct H as [-> | H]; simpl; [lia |].
  specialize (IH H). lia.
Qed.

Lemma check_app_no_draw (w w' : World) (b : bool) tr :
  check_app w = Done b w' tr -> count_draws tr = O.
Proof.
  destruct (Z.eq_dec (app_running (launcher w)) 0) as [Happ | Happ].
  - rewrite (check_app_idle _ Happ). intros H. injection H as <- <- <-.
    reflexivity.
  - destruct (is_app_running_total w)
      as (r & wp & tp & Hpoll & _ & _ & _ & _ & _ & Htp & _).
    rewrite (check_app_polled _ _ _ _ Happ Hpoll).
    destruct (truthy r); intros H; injection H as <- <- <-;
      rewrite count_draws_app, Htp; reflexivity.
Qed.

(** X2: every frame an iteration paints from a reachable world draws
    exactly one element as selected: the settings icon or one of the five
    tiles. *)
Theorem frames_highlight_one_element
    (long_bits : Z) (e : Env) (q : list (option SDL_Event))
    (w w' : World) (b : bool) (tr : list Effect) (f : Frame) :
  reachable long_bits e q w ->
  run_iter w = Done b w' tr ->
  In (EDraw f) tr ->
  highlights f = 1%nat.
Proof.
  intros Hr Hrun Hin. apply reachable_invariant in Hr.
  rewrite run_iter_unfold in Hrun.
  apply bind_inv in Hrun. destruct Hrun as (go & wa & ta & t2 & Hev & H & ->).
  pose proof (handle_events_no_draw w) as Hnd. rewrite Hev in Hnd.
  apply (handle_events_loop_invariant _ _ _ _ _ Hr) in Hev.
  apply in_app_or in Hin. destruct Hin as [Hin | Hin];
    [apply in_draw_count in Hin; lia |].
  destruct (negb (truthy go)).
  { injection H as <- <- <-. contradiction. }
  apply bind_inv in H. destruct H as (skip & wb & tb & t3 & Hcheck & H & ->).
  pose proof (check_app_no_draw _ _ _ _ Hcheck) as Hnb.
  apply (check_app_invariant _ _ _ _ Hev) in Hcheck.
  apply in_app_or in Hin. destruct Hin as [Hin | Hin];
    [apply in_draw_count in Hin; lia |].
  destruct skip.
  { injection H as <- <- <-. contradiction. }
  destruct (tick_tail_frame _ _ _ _ _ H Hin) as (Hsel & Hset & _).
  destruct Hcheck as (Hrange & _).
  unfold highlights, settings_is_sel, tile_is_sel. rewrite Hsel, Hset.
  unfold NUM_APPS in Hrange.
  destruct (truthy (settings_selected (launcher wb))); simpl.
  - rewrite !andb_false_r. reflexivity.
  - rewrite !andb_true_r.
    assert (Hcases : selected (launcher wb) = 0 \/ selected (launcher wb) = 1
                     \/ selected (launcher wb) = 2 \/ selected (launcher wb) = 3
                     \/ selected (launcher wb) = 4) by lia.
    destruct Hcases as [-> | [-> | [-> | [-> | ->]]]]; reflexivity.
Qed.

Lemma frames_highlight_one_element_witness :
  exists w0 w tr0 f,
    (draw ;; modify_l (set_needs_redraw 0))
      (initial_world sample_env [Some (SDL_KEYDOWN SDLK_UP)])
      = Done tt w0 tr0 /\
    run_iter w0 = Done true w [EDraw f; EDelay 50] /\
    settings_is_sel f = true /\
    highlights f = 1%nat.
Proof.
  assert (Hstart : (draw ;; modify_l (set_needs_redraw 0))
                     (initial_world sample_env [Some (SDL_KEYDOWN SDLK_UP)])
                   = Done tt _ _) by (vm_compute; reflexivity).
  match type of Hstart with
  | _ = Done tt ?w0 _ =>
      assert (Hrun : run_iter w0 = Done true _ [EDraw _; EDelay 50])
        by (vm_compute; reflexivity)
  end.
  do 4 eexists. split; [exact Hstart |]. split; [exact Hrun |].
  split; [reflexivity |].
  apply (frames_highlight_one_element 64 sample_env
           [Some (SDL_KEYDOWN SDLK_UP)] _ _ _ _ _
           (reach_start _ _ _ _ _ Hstart) Hrun).
  left. reflexivity.
Defined.

(** ** Keys and the iteration they are handled in *)

Lemma key_fun_keeps (k : dir_key) (l : Launcher) :
  needs_redraw (key_fun k l) = needs_redraw l /\
  app_running (key_fun k l) = app_running l /\
  stats (key_fun k l) = stats l /\
  last_minute (key_fun k l) = last_minute l.
Proof.
  destruct k; simpl; unfold key_left, key_right, key_up, key_down;
    destruct (truthy (settings_selected l)); repeat split.
Qed.

(** X3: a directional key that is the one pending event is answered
    within its own iteration when no app is in front: exactly one repaint,
    of a frame that shows the selection and focus the key led to, even when
    the key changed neither. *)
Theorem navigation_key_repaints_at_once
    (w : World) (k : dir_key) (q : list (option SDL_Event)) :
  sdl_queue w = Some (SDL_KEYDOWN (keycode k)) :: None :: q ->
  app_running (launcher w) = 0 ->
  exists w1 f,
    run_iter w = Done true w1 [EDraw f; EDelay 50] /\
    selected (launcher w1) = selected (key_fun k (launcher w)) /\
    settings_selected (launcher w1) = settings_selected (key_fun k (launcher w)) /\
    fr_selected f = selected (launcher w1) /\
    fr_settings_selected f = settings_selected (launcher w1) /\
    needs_redraw (launcher w1) = 0 /\
    sdl_queue w1 = q.
Proof.
  intros Hq Happ.
  set (wk := with_launcher (key_fun k (set_needs_redraw 1 (launcher w)))
                           (with_queue q w)).
  assert (Hev : handle_events w = Done 1 wk []).
  { unfold handle_events. rewrite Hq.
    cbn [handle_events_loop List.length].
    unfold bind at 1. unfold SDL_PollEvent at 1. rewrite Hq.
    rewrite (bind_done _ _ _ _ _ _ (handle_keydown_dir k (with_queue (None :: q) w))).
    unfold bind, SDL_PollEvent. reflexivity. }
  destruct (key_fun_keeps k (set_needs_redraw 1 (launcher w)))
    as (Hn & Ha & _ & _).
  assert (Happk : app_running (launcher wk) = 0).
  { unfold wk. simpl. rewrite Ha. exact Happ. }
  destruct (tick_tail_spec wk)
    as (w1 & f & Htail & Hn1 & _ & _ & _ & Hsel & Hset & _ & _ & Hq1 & _).
  assert (Hdue : redraw_due wk = true).
  { unfold redraw_due, wk. simpl. rewrite Hn. apply orb_true_r. }
  rewrite Hdue in Htail. simpl in Htail.
  destruct (tick_tail_frame _ _ _ _ f Htail (or_introl eq_refl))
    as (Hfs & Hfset & _).
  exists w1, f. split.
  { rewrite run_iter_unfold. rewrite (bind_silent _ _ _ _ _ Hev).
    change (negb (truthy 1)) with false. cbv iota.
    rewrite (bind_silent _ _ _ _ _ (check_app_idle wk Happk)). exact Htail. }
  assert (Hk1 : selected (launcher wk) = selected (key_fun k (launcher w)) /\
                settings_selected (launcher wk)
                = settings_selected (key_fun k (launcher w))).
  { unfold wk. simpl.
    destruct k; simpl; unfold key_left, key_right, key_up, key_down; simpl;
      destruct (truthy (settings_selected (launcher w))); split; reflexivity. }
  destruct Hk1 as (Hk1 & Hk2).
  repeat split; try congruence.
  rewrite Hq1. reflexivity.
Qed.

Lemma navigation_key_repaints_at_once_witness :
  exists w1 f,
    run_iter (idle_world sample_env 2 [Some (SDL_KEYDOWN SDLK_DOWN); None])
      = Done true w1 [EDraw f; EDelay 50] /\
    fr_selected f = 2 /\
    fr_settings_selected f = 0.
Proof.
  destruct (navigation_key_repaints_at_once
              (idle_world sample_env 2 [Some (SDL_KEYDOWN SDLK_DOWN); None])
              KDown [] eq_refl eq_refl)
    as (w1 & f & Hrun & Hs & Hset & Hfs & Hfset & _).
  exists w1, f. split; [exact Hrun |].
  rewrite Hfs, Hfset, Hs, Hset. split; reflexivity.
Defined.

(** X4: when the first pending event is a quit event, Escape or q, the
    iteration breaks out of the main loop at once, whether an app is in
    front or not: the child is not polled, nothing is painted, no delay is
    taken, the events behind the quit are left unhandled, and [run_loop]
    returns. *)
Theorem quit_leaves_the_loop_at_once
    (w : World) (e : SDL_Event) (q : list (option SDL_Event)) :
  sdl_queue w = Some e :: q ->
  quits e = true ->
  exists w1,
    run_iter w = Done false w1 [] /\
    (forall n, run_loop (S n) w = Done tt w1 []) /\
    sdl_queue w1 = q /\
    app_running (launcher w1) = app_running (launcher w) /\
    launched_app_pid w1 = launched_app_pid w /\
    window_shown w1 = window_shown w /\
    n_waitpid w1 = n_waitpid w.
Proof.
  intros Hq He.
  assert (Hev : exists w1,
             handle_events w = Done 0 w1 [] /\
             sdl_queue w1 = q /\
             app_running (launcher w1) = app_running (launcher w) /\
             launched_app_pid w1 = launched_app_pid w /\
             window_shown w1 = window_shown w /\
             n_waitpid w1 = n_waitpid w).
  { unfold handle_events. rewrite Hq.
    cbn [handle_events_loop List.length].
    unfold bind at 1. unfold SDL_PollEvent at 1. rewrite Hq.
    destruct e as [| [] |]; try discriminate He;
      eexists; (split; [reflexivity |]); repeat split. }
  destruct Hev as (w1 & Hev & Hrest).
  assert (Hrun : run_iter w = Done false w1 []).
  { rewrite run_iter_unfold. rewrite (bind_silent _ _ _ _ _ Hev). reflexivity. }
  exists w1. split; [exact Hrun |]. split; [| exact Hrest].
  intros n. cbn [run_loop]. rewrite (bind_silent _ _ _ _ _ Hrun). reflexivity.
Qed.

Lemma quit_leaves_the_loop_at_once_witness :
  exists w1,
    run_iter (idle_world sample_env 0
                [Some (SDL_KEYDOWN SDLK_q); Some (SDL_KEYDOWN SDLK_RETURN)])
      = Done false w1 [] /\
    sdl_queue w1 = [Some (SDL_KEYDOWN SDLK_RETURN)].
Proof.
  destruct (quit_leaves_the_loop_at_once
              (idle_world sample_env 0
                 [Some (SDL_KEYDOWN SDLK_q); Some (SDL_KEYDOWN SDLK_RETURN)])
              (SDL_KEYDOWN SDLK_q) [Some (SDL_KEYDOWN SDLK_RETURN)]
              eq_refl eq_refl)
    as (w1 & Hrun & _ & Hq & _).
  exists w1. split; assumption.
Defined.

(** ** The dialog and the event script *)

Lemma confirm_wait_ignores (pre : list SDL_Event) (q : list (option SDL_Event)) :
  forallb dialog_ignores pre = true ->
  confirm_wait (map Some pre ++ q) = confirm_wait q.
Proof.
  induction pre as [| e pre IH]; intros H; [reflexivity |].
  simpl in H. apply andb_true_iff in H. destruct H as (He & Hpre).
  simpl. destruct e as [| [] |]; try discriminate He; exact (IH Hpre).
Qed.

(** X5: while the confirmation dialog of the reboot or power-off key is
    open, every event that is not Enter, keypad Enter or Escape is thrown
    away, quit events and the q key included: with such events in front of
    the script the key is handled exactly as without them, and none of
    them is handled afterwards. *)
Theorem dialog_discards_other_events
    (w : World) (key : SDL_Keycode) (pre : list SDL_Event) :
  key = SDLK_r \/ key = SDLK_p ->
  forallb dialog_ignores pre = true ->
  handle_keydown key (with_queue (map Some pre ++ sdl_queue w) w)
  = handle_keydown key w.
Proof.
  intros Hkey Hpre.
  destruct Hkey as [-> | ->]; unfold_keydown; simpl;
    rewrite (confirm_wait_ignores pre (sdl_queue w) Hpre);
    destruct (confirm_wait (sdl_queue w)) as [tr [[r q'] |]];
    try reflexivity; destruct (truthy r); reflexivity.
Qed.

Lemma dialog_discards_other_events_witness :
  forallb dialog_ignores [SDL_QUIT; SDL_KEYDOWN SDLK_q; SDL_OTHER] = true /\
  handle_keydown SDLK_r
    (with_queue
       (map Some [SDL_QUIT; SDL_KEYDOWN SDLK_q; SDL_OTHER]
        ++ sdl_queue (idle_world sample_env 0 [Some (SDL_KEYDOWN SDLK_ESCAPE)]))
       (idle_world sample_env 0 [Some (SDL_KEYDOWN SDLK_ESCAPE)]))
  = handle_keydown SDLK_r
      (idle_world sample_env 0 [Some (SDL_KEYDOWN SDLK_ESCAPE)]).
Proof.
  split; [reflexivity |].
  apply (dialog_discards_other_events
           (idle_world sample_env 0 [Some (SDL_KEYDOWN SDLK_ESCAPE)])
           SDLK_r [SDL_QUIT; SDL_KEYDOWN SDLK_q; SDL_OTHER]
           (or_introl eq_refl) eq_refl).
Defined.

(** ** Launching twice *)

(** X6: the launcher tracks one pid.  When two Enter keys are handled in
    one drain and both forks succeed, the pid tracked afterwards is the
    second child's, and the poll that follows waits for that pid alone: the
    first child is never waited for. *)
Theorem second_launch_replaces_tracked_child
    (w : World) (q : list (option SDL_Event)) (p1 p2 : positive) :
  sdl_queue w
    = Some (SDL_KEYDOWN SDLK_RETURN) :: Some (SDL_KEYDOWN SDLK_RETURN)
        :: None :: q ->
  env_fork (env w) (n_fork w) = Spawned p1 ->
  env_fork (env w) (S (n_fork w)) = Spawned p2 ->
  exists cmd w2,
    handle_events w
      = Done 1 w2 [EFork cmd (Spawned p1); EHideWindow;
                   EFork cmd (Spawned p2); EHideWindow] /\
    launched_app_pid w2 = Z.pos p2 /\
    app_running (launcher w2) = 1 /\
    exists r wp,
      is_app_running w2
        = Done r wp [EWaitpid (Z.pos p2) (env_waitpid (env w) (n_waitpid w))].
Proof.
  intros Hq Hf1 Hf2.
  exists (if truthy (settings_selected (launcher w))
          then "gnome-control-center"
          else app_command (selected (launcher w))).
  unfold handle_events. rewrite Hq.
  cbn [handle_events_loop List.length].
  unfold bind at 1. unfold SDL_PollEvent at 1. rewrite Hq.
  unfold_keydown. simpl.
  destruct (truthy (settings_selected (launcher w))) eqn:Es; simpl;
    rewrite Hf1; simpl; unfold SDL_PollEvent; simpl; rewrite Es; simpl;
    rewrite Hf2; simpl;
    eexists; (split; [reflexivity |]); simpl;
    (split; [reflexivity |]); (split; [reflexivity |]);
    rewrite is_app_running_tracked by (simpl; lia); simpl;
    destruct (env_waitpid (env w) (n_waitpid w)); do 2 eexists; reflexivity.
Qed.

Lemma second_launch_replaces_tracked_child_witness :
  exists cmd w2,
    handle_events
      (with_launcher (set_selected 1 (set_needs_redraw 0 launcher_create))
         (initial_world
            {| env_fork := fun n => match n with O => Spawned 100 | _ => Spawned 200 end;
               env_waitpid := env_waitpid sample_env;
               env_time := env_time sample_env;
               env_readings := env_readings sample_env |}
            [Some (SDL_KEYDOWN SDLK_RETURN); Some (SDL_KEYDOWN SDLK_RETURN); None]))
      = Done 1 w2 [EFork cmd (Spawned 100); EHideWindow;
                   EFork cmd (Spawned 200); EHideWindow] /\
    launched_app_pid w2 = 200.
Proof.
  destruct (second_launch_replaces_tracked_child
              (with_launcher (set_selected 1 (set_needs_redraw 0 launcher_create))
                 (initial_world
                    {| env_fork := fun n => match n with O => Spawned 100 | _ => Spawned 200 end;
                       env_waitpid := env_waitpid sample_env;
                       env_time := env_time sample_env;
                       env_readings := env_readings sample_env |}
                    [Some (SDL_KEYDOWN SDLK_RETURN); Some (SDL_KEYDOWN SDLK_RETURN); None]))
              [] 100 200 eq_refl eq_refl eq_refl)
    as (cmd & w2 & Hev & Hpid & _).
  exists cmd, w2. split; assumption.
Defined.

(** ** Sampling: what is written and when *)

Lemma wrap_signed_small (bits v : Z) :
  0 < bits -> - 2 ^ (bits - 1) <= v < 2 ^ (bits - 1) ->
  wrap_signed bits v = v.
Proof.
  intros Hb Hv. unfold wrap_signed.
  replace (2 ^ bits) with (2 * 2 ^ (bits - 1)).
  - rewrite Z.mod_small by lia. lia.
  - rewrite <- Z.pow_succ_r by lia. f_equal. lia.
Qed.

Lemma wrap_unsigned_small (bits v : Z) :
  0 <= v < 2 ^ bits -> wrap_unsigned bits v = v.
Proof. intros Hv. unfold wrap_unsigned. apply Z.mod_small. exact Hv. Qed.

Lemma to_int_small (v : Z) : -2147483648 <= v < 2147483648 -> to_int v = v.
Proof. intros Hv. unfold to_int. apply wrap_signed_small; simpl; lia. Qed.

Lemma cpu_state_kept_trans (w1 w2 w3 : World) :
  cpu_state_kept w1 w2 -> cpu_state_kept w2 w3 -> cpu_state_kept w1 w3.
Proof.
  unfold cpu_state_kept. intros (? & ? & ? & ? & ?) (? & ? & ? & ? & ?).
  repeat split; congruence.
Qed.

Lemma later_blocks_keep_cpu (long_bits : Z) (r : Readings) (old : Stats) (w : World) :
  match (sample_mem long_bits r ;; sample_temp r ;; sample_disk long_bits r ;;
         check_changed old ;; sleep 2) w with
  | Done _ w' _ => cpu_state_kept w w'
  | _ => True
  end.
Proof.
  unfold sample_mem, sample_temp, sample_disk, check_changed, sleep, fault,
    modify_stats, modify_l, get_l, emit, bind, ret.
  destruct (sys_info r) as [si |]; cbv beta iota zeta;
    try destruct (_ =? 0); try exact I;
    destruct (thermal_zone0 r); cbv beta iota zeta;
    destruct (statvfs_root r) as [sv |]; cbv beta iota zeta;
    try destruct (_ =? 0); try exact I;
    destruct (snapshot_differs _ _); unfold cpu_state_kept; repeat split.
Qed.

(** The cpu field and the previous counters after a cycle are those its
    "CPU" block leaves. *)
Lemma stats_thread_body_cpu (long_bits : Z) (w w1 : World) tr :
  stats_thread_body long_bits w = Done tt w1 tr ->
  exists wa,
    sample_cpu long_bits (env_readings (env w) (n_sample w)) (tick_sample w)
      = Done tt wa [] /\
    cpu_state_kept wa w1.
Proof.
  unfold stats_thread_body. unfold bind at 1. unfold get_l at 1.
  cbv beta iota zeta. unfold bind at 1. unfold next_readings at 1.
  cbv beta iota zeta.
  set (r := env_readings (env w) (n_sample w)).
  unfold bind at 1.
  pose proof (sample_cpu_block long_bits r (tick_sample w)) as Hc.
  destruct (sample_cpu long_bits r (tick_sample w)) as [[] wa ta | ta | ta |];
    try contradiction; try discriminate.
  destruct Hc as (-> & _).
  pose proof (later_blocks_keep_cpu long_bits r (stats (launcher w)) wa) as Hl.
  destruct ((sample_mem long_bits r ;; sample_temp r ;; sample_disk long_bits r ;;
             check_changed (stats (launcher w)) ;; sleep 2) wa)
    as [[] w' t' | t' | t' |]; try discriminate.
  intros H. injection H as <- <-. exists wa. split; [reflexivity | exact Hl].
Qed.

Lemma sample_cpu_unreadable (long_bits : Z) (r : Readings) (w : World) :
  0 < long_bits ->
  prev_total w < 2 ^ (long_bits - 1) ->
  proc_stat r = None ->
  sample_cpu long_bits r w = Done tt (with_prev 0 0 w) [].
Proof.
  intros Hb Hp Hr. unfold sample_cpu, read_cpu_stats. rewrite Hr.
  unfold bind, get_prev, put_prev, ret.
  cbv beta iota zeta. cbn [fst snd].
  destruct (Z.ltb_spec 0 (prev_total w)) as [Hpos | Hneg]; [| reflexivity].
  unfold to_long.
  rewrite (wrap_signed_small long_bits (0 - prev_total w)) by lia.
  destruct (Z.ltb_spec 0 (0 - prev_total w)); [lia | reflexivity].
Qed.

Lemma sample_cpu_without_previous (long_bits : Z) (r : Readings) (w : World) :
  prev_total w <= 0 ->
  exists w', sample_cpu long_bits r w = Done tt w' [] /\
             launcher w' = launcher w.
Proof.
  intros Hp. unfold sample_cpu.
  destruct (read_cpu_stats long_bits (proc_stat r) 0 0) as [idle total].
  unfold bind, get_prev, put_prev, modify_stats, modify_l, ret.
  cbv beta iota zeta. simpl.
  destruct (Z.ltb_spec 0 (prev_total w)); [lia |].
  eexists. split; reflexivity.
Qed.

(** X7: a cycle in which no source can be read changes no field of the
    snapshot, does not raise the flag, and forgets the previous CPU
    counters. *)
Theorem unreadable_sources_keep_snapshot (long_bits : Z) (w : World) :
  0 < long_bits ->
  prev_total w < 2 ^ (long_bits - 1) ->
  env_readings (env w) (n_sample w) = no_readings ->
  exists w1,
    stats_thread_body long_bits w = Done tt w1 [ESleep 2] /\
    stats (launcher w1) = stats (launcher w) /\
    prev_idle w1 = 0 /\ prev_total w1 = 0.
Proof.
  intros Hb Hp Hr.
  unfold stats_thread_body. unfold bind at 1. unfold get_l at 1.
  cbv beta iota zeta. unfold bind at 1. unfold next_readings at 1.
  cbv beta iota zeta. rewrite Hr.
  rewrite (bind_silent _ _ _ _ _
             (sample_cpu_unreadable long_bits no_readings (tick_sample w) Hb Hp eq_refl)).
  unfold sample_mem, sample_temp, sample_disk, check_changed, sleep,
    modify_stats, modify_l, get_l, emit, bind, ret.
  cbv beta iota zeta. simpl.
  assert (Hsame : snapshot_differs (stats (launcher w)) (stats (launcher w)) = false).
  { unfold snapshot_differs. rewrite !Z.eqb_refl. reflexivity. }
  rewrite Hsame. eexists. repeat split.
Qed.

Lemma unreadable_sources_keep_snapshot_witness :
  exists w1,
    stats_thread_body 64 (idle_world sample_env 0 []) = Done tt w1 [ESleep 2] /\
    stats (launcher w1) = stats (launcher (idle_world sample_env 0 [])).
Proof.
  destruct (unreadable_sources_keep_snapshot 64 (idle_world sample_env 0 [])
              ltac:(lia) ltac:(simpl; lia) eq_refl)
    as (w1 & Hrun & Hstats & _).
  exists w1. split; assumption.
Defined.

(** X8: the cpu field is written only on the second of two consecutive
    cycles that read /proc/stat: a cycle that cannot read it, and the cycle
    that follows it, whatever that one reads, both leave the field as it
    was. *)
Theorem cpu_needs_two_consecutive_reads
    (long_bits : Z) (w w1 w2 : World) (t1 t2 : list Effect) :
  0 < long_bits ->
  prev_total w < 2 ^ (long_bits - 1) ->
  proc_stat (env_readings (env w) (n_sample w)) = None ->
  stats_thread_body long_bits w = Done tt w1 t1 ->
  stats_thread_body long_bits w1 = Done tt w2 t2 ->
  cpu (stats (launcher w1)) = cpu (stats (launcher w)) /\
  cpu (stats (launcher w2)) = cpu (stats (launcher w)).
Proof.
  intros Hb Hp Hr H1 H2.
  apply stats_thread_body_cpu in H1. destruct H1 as (wa & Ha & Hk1).
  rewrite (sample_cpu_unreadable long_bits _ (tick_sample w) Hb Hp Hr) in Ha.
  injection Ha as <-.
  destruct Hk1 as (Hc1 & _ & Ht1 & _).
  simpl in Hc1, Ht1.
  apply stats_thread_body_cpu in H2. destruct H2 as (wb & Hb2 & Hk2).
  destruct (sample_cpu_without_previous long_bits
              (env_readings (env w1) (n_sample w1)) (tick_sample w1))
    as (w' & Hs & Hl); [simpl; rewrite Ht1; apply Z.le_refl |].
  rewrite Hs in Hb2. injection Hb2 as <-.
  destruct Hk2 as (Hc2 & _).
  rewrite Hl in Hc2. simpl in Hc2.
  split; congruence.
Qed.

Lemma cpu_needs_two_consecutive_reads_witness :
  exists w1 w2 t1 t2,
    stats_thread_body 64 (idle_world warm_env 0 []) = Done tt w1 t1 /\
    stats_thread_body 64 w1 = Done tt w2 t2 /\
    cpu (stats (launcher w2)) = cpu (stats (launcher (idle_world warm_env 0 []))).
Proof.
  assert (H1 : stats_thread_body 64 (idle_world warm_env 0 []) = Done tt _ _)
    by (vm_compute; reflexivity).
  match type of H1 with
  | _ = Done tt ?w1 _ =>
      assert (H2 : stats_thread_body 64 w1 = Done tt _ _)
        by (vm_compute; reflexivity)
  end.
  do 4 eexists. split; [exact H1 |]. split; [exact H2 |].
  exact (proj2 (cpu_needs_two_consecutive_reads 64
                  (idle_world warm_env 0 []) _ _ _ _
                  ltac:(lia) ltac:(simpl; lia) eq_refl H1 H2)).
Defined.

(** ** Sampling: the values *)

Lemma percent_bounds (a b : Z) :
  0 <= a <= b -> 0 < b -> 0 <= (100 * a) / b <= 100.
Proof.
  intros Ha Hb. split.
  - apply Z.div_pos; lia.
  - apply Z.div_le_upper_bound; lia.
Qed.

(** X9: a cycle that reads /proc/stat after a cycle that read it.  When
    the counters of both reads are not negative, none of them went back
    between the reads, the total advanced, and a hundred times the total
    fits a [long], the cpu field becomes 100 minus the idle share of the
    elapsed ticks, a value between 0 and 100, and the sums just read are
    kept for the next cycle. *)
Theorem cpu_percent_in_range
    (long_bits : Z) (r : Readings) (p c : CpuTicks) (w : World) :
  32 <= long_bits ->
  proc_stat r = Some c ->
  prev_idle w = idle_ticks p ->
  prev_total w = total_ticks p ->
  ticks_nonneg p ->
  ticks_le p c ->
  0 < total_ticks p < total_ticks c ->
  100 * total_ticks c < 2 ^ (long_bits - 1) ->
  exists w',
    sample_cpu long_bits r w = Done tt w' [] /\
    cpu (stats (launcher w'))
      = 100 - (100 * (idle_ticks c - idle_ticks p))
              / (total_ticks c - total_ticks p) /\
    0 <= cpu (stats (launcher w')) <= 100 /\
    prev_idle w' = idle_ticks c /\ prev_total w' = total_ticks c.
Proof.
  intros Hb Hr Hpi Hpt Hnn Hle Htot Hsmall.
  assert (Hpow : 2 ^ 31 <= 2 ^ (long_bits - 1))
    by (apply Z.pow_le_mono_r; lia).
  change (2 ^ 31) with 2147483648 in Hpow.
  assert (Hidle : 0 <= idle_ticks c - idle_ticks p
                  <= total_ticks c - total_ticks p).
  { unfold ticks_le in Hle. unfold idle_ticks, total_ticks. lia. }
  assert (Hrange : 0 <= idle_ticks p /\ 0 <= idle_ticks c <= total_ticks c).
  { unfold ticks_nonneg in Hnn. unfold ticks_le in Hle.
    unfold idle_ticks, total_ticks. lia. }
  assert (Hadv : 0 < total_ticks c - total_ticks p) by lia.
  pose proof (percent_bounds _ _ Hidle Hadv) as Hpct.
  unfold sample_cpu, read_cpu_stats. rewrite Hr.
  fold (idle_ticks c). fold (total_ticks c).
  unfold bind, get_prev, put_prev, modify_stats, modify_l, ret.
  cbv beta iota zeta. cbn [fst snd]. rewrite Hpi, Hpt.
  destruct (Z.ltb_spec 0 (total_ticks p)) as [_ | ?]; [| lia].
  unfold to_long.
  rewrite (wrap_signed_small long_bits (idle_ticks c)) by lia.
  rewrite (wrap_signed_small long_bits (total_ticks c)) by lia.
  rewrite (wrap_signed_small long_bits (idle_ticks c - idle_ticks p)) by lia.
  rewrite (wrap_signed_small long_bits (total_ticks c - total_ticks p)) by lia.
  rewrite (wrap_signed_small long_bits (100 * (idle_ticks c - idle_ticks p))) by lia.
  destruct (Z.ltb_spec 0 (total_ticks c - total_ticks p)) as [_ | ?]; [| lia].
  rewrite Z.quot_div_nonneg by lia.
  rewrite (to_int_small ((100 * (idle_ticks c - idle_ticks p))
                         / (total_ticks c - total_ticks p))) by lia.
  rewrite to_int_small by lia.
  eexists. split; [reflexivity |]. split; [reflexivity |].
  split; [| split; reflexivity].
  change (0 <= 100 - (100 * (idle_ticks c - idle_ticks p))
                     / (total_ticks c - total_ticks p) <= 100).
  lia.
Qed.

Lemma cpu_percent_in_range_witness :
  exists w',
    sample_cpu 64 (env_readings busy_env 0) sampling_world = Done tt w' [] /\
    cpu (stats (launcher w')) = 90.
Proof.
  destruct (cpu_percent_in_range 64 (env_readings busy_env 0)
              earlier_ticks
              {| t_user := 700; t_nice := 0; t_sys := 250; t_idle := 1000;
                 t_iowait := 50; t_irq := 0; t_softirq := 0 |}
              sampling_world
              ltac:(lia) eq_refl eq_refl eq_refl
              ltac:(unfold ticks_nonneg; simpl; lia)
              ltac:(unfold ticks_le; simpl; lia)
              ltac:(vm_compute; split; reflexivity)
              ltac:(vm_compute; reflexivity))
    as (w' & Hrun & Hcpu & _).
  exists w'. split; [exact Hrun |]. rewrite Hcpu. reflexivity.
Defined.

Lemma used_percent_spec (long_bits total free : Z) :
  0 <= free <= total -> 0 < total -> 100 * total < 2 ^ long_bits ->
  used_percent long_bits total free = (100 * (total - free)) / total /\
  0 <= used_percent long_bits total free <= 100.
Proof.
  intros Hf Ht Hs.
  assert (Hpct : 0 <= (100 * (total - free)) / total <= 100)
    by (apply percent_bounds; lia).
  unfold used_percent, to_ulong.
  rewrite (wrap_unsigned_small long_bits (total - free)) by lia.
  rewrite (wrap_unsigned_small long_bits (100 * (total - free))) by lia.
  rewrite to_int_small by lia. split; [reflexivity | exact Hpct].
Qed.

(** X10: when the byte counts fit an [unsigned long] a hundred times over
    and no more is free than there is, the mem field becomes the share of
    RAM that is neither free nor in buffers, and the disk field the share of
    the root file system that is not available, both truncated and both
    between 0 and 100. *)
Theorem memory_and_disk_percent_in_range (long_bits : Z) (r : Readings) (w : World) :
  (forall si,
     sys_info r = Some si ->
     0 <= freeram si -> 0 <= bufferram si -> 0 < mem_unit si ->
     0 < totalram si ->
     freeram si + bufferram si <= totalram si ->
     100 * (totalram si * mem_unit si) < 2 ^ long_bits ->
     exists w',
       sample_mem long_bits r w = Done tt w' [] /\
       mem (stats (launcher w'))
         = (100 * ((totalram si - (freeram si + bufferram si)) * mem_unit si))
           / (totalram si * mem_unit si) /\
       0 <= mem (stats (launcher w')) <= 100) /\
  (forall sv,
     statvfs_root r = Some sv ->
     0 <= f_bavail sv <= f_blocks sv -> 0 < f_frsize sv -> 0 < f_blocks sv ->
     100 * (f_blocks sv * f_frsize sv) < 2 ^ long_bits ->
     exists w',
       sample_disk long_bits r w = Done tt w' [] /\
       disk (stats (launcher w'))
         = (100 * ((f_blocks sv - f_bavail sv) * f_frsize sv))
           / (f_blocks sv * f_frsize sv) /\
       0 <= disk (stats (launcher w')) <= 100).
Proof.
  split.
  - intros si Hr Hfree Hbuf Hunit Htot Hle Hfit.
    set (T := totalram si * mem_unit si) in *.
    set (A := (freeram si + bufferram si) * mem_unit si).
    assert (HT : 0 < T) by (unfold T; nia).
    assert (HA : 0 <= A <= T) by (unfold A, T; nia).
    assert (HF : 0 <= freeram si * mem_unit si <= T) by (unfold T; nia).
    assert (HB : 0 <= bufferram si * mem_unit si <= T) by (unfold T; nia).
    destruct (used_percent_spec long_bits T A HA HT Hfit) as (Hval & Hbounds).
    unfold sample_mem. rewrite Hr. cbv zeta. unfold to_ulong.
    fold T.
    rewrite (wrap_unsigned_small long_bits T) by lia.
    rewrite (wrap_unsigned_small long_bits (freeram si * mem_unit si)) by lia.
    rewrite (wrap_unsigned_small long_bits (bufferram si * mem_unit si)) by lia.
    replace (freeram si * mem_unit si + bufferram si * mem_unit si) with A
      by (unfold A; ring).
    rewrite (wrap_unsigned_small long_bits A) by lia.
    destruct (Z.eqb_spec T 0); [lia |].
    eexists. split; [reflexivity |].
    cbn [mem stats launcher with_launcher set_stats set_mem modify_stats].
    split; [| exact Hbounds].
    rewrite Hval. f_equal. unfold T, A. ring.
  - intros sv Hr Hav Hsize Hblocks Hfit.
    set (T := f_blocks sv * f_frsize sv) in *.
    set (A := f_bavail sv * f_frsize sv).
    assert (HT : 0 < T) by (unfold T; nia).
    assert (HA : 0 <= A <= T) by (unfold A, T; nia).
    destruct (used_percent_spec long_bits T A HA HT Hfit) as (Hval & Hbounds).
    unfold sample_disk. rewrite Hr. cbv zeta. unfold to_ulong.
    fold T. fold A.
    rewrite (wrap_unsigned_small long_bits T) by lia.
    rewrite (wrap_unsigned_small long_bits A) by lia.
    destruct (Z.eqb_spec T 0); [lia |].
    eexists. split; [reflexivity |].
    cbn [disk stats launcher with_launcher set_stats set_disk modify_stats].
    split; [| exact Hbounds].
    rewrite Hval. f_equal. unfold T, A. ring.
Qed.

Lemma memory_and_disk_percent_in_range_witness :
  (exists w',
     sample_mem 64 (env_readings busy_env 0) sampling_world = Done tt w' [] /\
     mem (stats (launcher w')) = 75) /\
  (exists w',
     sample_disk 64 (env_readings busy_env 0) sampling_world = Done tt w' [] /\
     disk (stats (launcher w')) = 60).
Proof.
  destruct (memory_and_disk_percent_in_range 64 (env_readings busy_env 0)
              sampling_world) as (Hmem & Hdisk).
  split.
  - destruct (Hmem _ eq_refl) as (w' & Hrun & Hval & _);
      try (vm_compute; first [reflexivity | discriminate]).
    exists w'. split; [exact Hrun |]. rewrite Hval. reflexivity.
  - destruct (Hdisk _ eq_refl) as (w' & Hrun & Hval & _);
      try (vm_compute; first [reflexivity | discriminate
                             | split; discriminate]).
    exists w'. split; [exact Hrun |]. rewrite Hval. reflexivity.
Defined.

(** ** Colours *)

(** X11: the colour of a statistic never gets less alarming as the value
    grows (green, yellow, orange, red, in this order); at equal value the
    temperature thresholds are never the more lenient ones; and orange is
    given to temperatures only. *)
Theorem stat_color_grows_with_value (v1 v2 is_temp : Z) :
  v1 <= v2 ->
  severity (get_stat_color v1 is_temp) <= severity (get_stat_color v2 is_temp) /\
  severity (get_stat_color v1 0) <= severity (get_stat_color v1 1) /\
  (get_stat_color v1 is_temp = COL_ORANGE -> is_temp <> 0).
Proof.
  intros Hle. unfold get_stat_color.
  change (truthy 0) with false. change (truthy 1) with true. cbv iota.
  repeat split.
  - destruct (truthy is_temp);
      repeat match goal with
        | |- context [?a <=? ?b] => destruct (Z.leb_spec a b)
        end; try lia; vm_compute; discriminate.
  - repeat match goal with
      | |- context [?a <=? ?b] => destruct (Z.leb_spec a b)
      end; try lia; vm_compute; discriminate.
  - destruct (truthy is_temp) eqn:Et; [intros _; apply truthy_true; exact Et |].
    repeat match goal with
      | |- context [?a <=? ?b] => destruct (Z.leb_spec a b)
      end; discriminate.
Qed.

Lemma stat_color_grows_with_value_witness :
  severity (get_stat_color 50 1) <= severity (get_stat_color 60 1) /\
  get_stat_color 50 1 = COL_YELLOW /\ get_stat_color 60 1 = COL_ORANGE.
Proof.
  split; [| split; reflexivity].
  exact (proj1 (stat_color_grows_with_value 50 60 1 ltac:(lia))).
Defined.

(** ** Layout *)

(** X12: [launcher_create] lays the five tiles out in one row, 140 wide and
    20 apart, with left and right margins that differ by at most one pixel;
    on a window at least 780 wide the whole row is inside the window. *)
Theorem tiles_are_centred (actual_w actual_h grid_y : Z) :
  exists grid_x,
    tile_rects (launcher_create_layout actual_w actual_h grid_y)
      = map (tile_at grid_x grid_y) [0; 1; 2; 3; 4] /\
    -1 <= (actual_w - (grid_x + 780)) - grid_x <= 1 /\
    (780 <= actual_w -> 0 <= grid_x /\ grid_x + 780 <= actual_w).
Proof.
  exists (Z.quot (actual_w - 780) 2). split; [reflexivity |].
  pose proof (Z.quot_rem' (actual_w - 780) 2) as Hqr.
  split.
  - pose proof (Z.rem_bound_abs (actual_w - 780) 2 ltac:(lia)). lia.
  - intros Hw.
    pose proof (Z.rem_bound_pos (actual_w - 780) 2 ltac:(lia) ltac:(lia)). lia.
Qed.

Lemma tiles_are_centred_witness :
  exists grid_x,
    tile_rects (launcher_create_layout 1920 1080 518)
      = map (tile_at grid_x 518) [0; 1; 2; 3; 4] /\
    0 <= grid_x /\ grid_x + 780 <= 1920.
Proof.
  destruct (tiles_are_centred 1920 1080 518) as (gx & Htiles & _ & Hin).
  exists gx. split; [exact Htiles | apply Hin; lia].
Defined.

(** X13: [launcher_create] computes the position of the statistics bar
    before [cache_surfaces] gives it its size, so the bar [draw] paints
    starts at the middle of the window and ends 35 pixels below its bottom
    edge, whatever the window size.  Computed after the size is known, the
    same formula centres it and keeps it 65 pixels above the bottom. *)
Theorem stats_bar_is_placed_before_it_is_sized (actual_w actual_h grid_y : Z) :
  let zeroed := {| width := actual_w; height := actual_h; tile_rects := [];
                   stats_bar_x := 0; stats_bar_y := 0;
                   stats_bar_w := 0; stats_bar_h := 0 |} in
  stats_dst (launcher_create_layout actual_w actual_h grid_y)
    = {| rx := Z.quot actual_w 2; ry := actual_h - 65; rw := 600; rh := 100 |} /\
  ry (stats_dst (launcher_create_layout actual_w actual_h grid_y))
    + rh (stats_dst (launcher_create_layout actual_w actual_h grid_y))
    = actual_h + 35 /\
  stats_dst (calc_layout grid_y (cache_surfaces zeroed))
    = {| rx := Z.quot (actual_w - 600) 2; ry := actual_h - 165;
         rw := 600; rh := 100 |}.
Proof.
  cbv zeta. unfold stats_dst, launcher_create_layout, cache_surfaces, calc_layout.
  cbn [stats_bar_x stats_bar_y stats_bar_w stats_bar_h width height rx ry rw rh].
  rewrite !Z.sub_0_r. split; [reflexivity |]. split; [lia |].
  f_equal. lia.
Qed.

(** ** Rounded rectangles *)

Lemma circle_invariant_start (r : Z) :
  0 <= r -> circle_invariant r r 0 (1 - r).
Proof. intros Hr. unfold circle_invariant. repeat split; nia. Qed.

Lemma circle_invariant_on_circle (r x y d : Z) :
  circle_invariant r x y d -> y <= x -> on_circle r (x, y, d).
Proof.
  unfold circle_invariant, on_circle. intros (Hd & Hy & Hx & Hlow & Hup) Hyx.
  specialize (Hup Hyx). repeat split; nia.
Qed.

Lemma circle_invariant_step (r x y d : Z) :
  circle_invariant r x y d -> y <= x ->
  (d < 0 -> circle_invariant r x (y + 1) (d + (2 * (y + 1) + 1))) /\
  (0 <= d ->
   circle_invariant r (x - 1) (y + 1) (d + (2 * (y + 1 - (x - 1)) + 1))).
Proof.
  unfold circle_invariant. intros (Hd & Hy & Hx & Hlow & Hup) Hyx.
  specialize (Hup Hyx). split; intros Hsign; repeat split; try nia.
Qed.

(** [circle_steps_ends]: the corner loop ends within its fuel, and every
    state it runs its body in is on the circle. *)
Lemma circle_steps_ends (r : Z) (fuel : nat) (x y d : Z) :
  circle_invariant r x y d ->
  x - y < Z.of_nat fuel ->
  exists l,
    circle_steps fuel x y d = Some l /\
    Forall (on_circle r) l /\
    (Z.of_nat (List.length l) <= Z.max 0 (x - y + 1)).
Proof.
  revert x y d. induction fuel as [| n IH]; intros x y d Hinv Hfuel.
  - exists []. simpl. destruct (Z.geb_spec x y); [lia |].
    repeat split; [constructor | simpl; lia].
  - cbn [circle_steps]. destruct (Z.geb_spec x y) as [Hge | Hlt].
    2:{ exists []. repeat split; [constructor | simpl; lia]. }
    assert (Hyx : y <= x) by lia.
    destruct (circle_invariant_step r x y d Hinv Hyx) as (Hneg & Hpos).
    pose proof (circle_invariant_on_circle r x y d Hinv Hyx) as Hon.
    cbv zeta. destruct (Z.ltb_spec d 0) as [Hd | Hd].
    + destruct (IH x (y + 1) _ (Hneg Hd) ltac:(lia)) as (l & -> & Hall & Hlen).
      exists ((x, y, d) :: l). repeat split; [constructor; assumption |].
      simpl List.length. lia.
    + destruct (IH (x - 1) (y + 1) _ (Hpos Hd) ltac:(lia)) as (l & -> & Hall & Hlen).
      exists ((x, y, d) :: l). repeat split; [constructor; assumption |].
      simpl List.length. lia.
Qed.

Lemma circle_steps_head (fuel : nat) (x y d : Z) (l : list (Z * Z * Z)) :
  circle_steps (S fuel) x y d = Some l ->
  y <= x ->
  exists l', l = (x, y, d) :: l'.
Proof.
  intros H Hyx. cbn [circle_steps] in H.
  destruct (Z.geb_spec x y); [| lia]. cbv zeta in H.
  destruct (if d <? 0 then _ else _) as [l' |]; [| discriminate].
  injection H as <-. exists l'. reflexivity.
Qed.

Lemma corner_loop_stays_on_the_circle_aux (radius : Z) :
  0 <= radius ->
  exists l,
    circle_steps (S (Z.to_nat radius)) radius 0 (1 - radius)
      = Some ((radius, 0, 1 - radius) :: l) /\
    Forall (on_circle radius) ((radius, 0, 1 - radius) :: l).
Proof.
  intros Hr.
  destruct (circle_steps_ends radius (S (Z.to_nat radius)) radius 0 (1 - radius)
              (circle_invariant_start radius Hr) ltac:(lia))
    as (l & Hrun & Hall & _).
  destruct (circle_steps_head _ _ _ _ _ Hrun ltac:(lia)) as (l' & ->).
  exists l'. split; [exact Hrun | exact Hall].
Qed.

(** X14: for a radius that is not negative the corner loop of
    [draw_rounded_rect] ends after at most radius + 1 iterations, starts at
    (radius, 0), and runs its body only at points (x, y) of the first
    octant for which x * x + y * y differs from radius * radius by at most
    x, that is less than one pixel off the circle; the decision variable
    stays between -2 radius and 2 radius + 1. *)
Theorem corner_loop_stays_on_the_circle (radius : Z) :
  0 <= radius ->
  exists l,
    circle_steps (S (Z.to_nat radius)) radius 0 (1 - radius)
      = Some ((radius, 0, 1 - radius) :: l) /\
    Forall (on_circle radius) ((radius, 0, 1 - radius) :: l) /\
    Z.of_nat (List.length ((radius, 0, 1 - radius) :: l)) <= radius + 1.
Proof.
  intros Hr.
  destruct (circle_steps_ends radius (S (Z.to_nat radius)) radius 0 (1 - radius)
              (circle_invariant_start radius Hr) ltac:(lia))
    as (l & Hrun & Hall & Hlen).
  destruct (circle_steps_head _ _ _ _ _ Hrun ltac:(lia)) as (l' & ->).
  exists l'. split; [exact Hrun |]. split; [exact Hall | lia].
Qed.

Lemma corner_loop_stays_on_the_circle_witness :
  circle_steps 17 16 0 (-15)
    = Some [(16, 0, -15); (16, 1, -12); (16, 2, -7); (16, 3, 0); (15, 4, -21);
            (15, 5, -10); (15, 6, 3); (14, 7, -10); (14, 8, 7); (13, 9, 0);
            (12, 10, -3); (12, 11, 20)] /\
  Forall (on_circle 16)
    [(16, 0, -15); (16, 1, -12); (16, 2, -7); (16, 3, 0); (15, 4, -21);
     (15, 5, -10); (15, 6, 3); (14, 7, -10); (14, 8, 7); (13, 9, 0);
     (12, 10, -3); (12, 11, 20)].
Proof.
  destruct (corner_loop_stays_on_the_circle 16 ltac:(lia)) as (l & Hrun & Hall & _).
  assert (Hl : circle_steps (S (Z.to_nat 16)) 16 0 (1 - 16) = Some _)
    by (vm_compute; reflexivity).
  rewrite Hl in Hrun. injection Hrun as <-.
  split; [exact Hl | exact Hall].
Defined.

Lemma corner_lines_within (rect : SDL_Rect) (r x0 y0 : Z) (s : Z * Z * Z) :
  x0 = rx rect + r \/ x0 = rx rect + rw rect - r - 1 ->
  y0 = ry rect + r \/ y0 = ry rect + rh rect - r - 1 ->
  2 * r < rw rect -> 2 * r < rh rect ->
  on_circle r s ->
  Forall (op_within rect) (corner_lines x0 y0 s).
Proof.
  intros Hx Hy Hw Hh Hs. destruct s as [[x y] d].
  unfold on_circle in Hs. destruct Hs as (Hyx & Hxr & _).
  unfold corner_lines.
  repeat constructor; cbn [op_within]; destruct Hx, Hy; lia.
Qed.

Lemma draw_corner_unfold (radius : Z) (c : Z * Z) :
  0 <= radius ->
  exists l,
    draw_corner radius c
      = Some (flat_map (corner_lines (fst c) (snd c))
                       ((radius, 0, 1 - radius) :: l)) /\
    Forall (on_circle radius) ((radius, 0, 1 - radius) :: l).
Proof.
  intros Hr.
  destruct (corner_loop_stays_on_the_circle_aux radius Hr) as (l & Hrun & Hall).
  exists l. unfold draw_corner. rewrite Hrun. split; [reflexivity | exact Hall].
Qed.

(** X15: for a radius that is not negative [draw_rounded_rect] issues its
    two rectangles and the lines of its four corners, and all of them lie
    inside the rectangle it was given exactly when that rectangle is more
    than two radii wide and more than two radii high; with a width or a
    height of at most two radii some line leaves it. *)
Theorem rounded_rect_stays_inside (rect : SDL_Rect) (radius : Z) :
  0 <= radius ->
  exists ops,
    draw_rounded_rect rect radius = Some ops /\
    (Forall (op_within rect) ops
     <-> 2 * radius < rw rect /\ 2 * radius < rh rect).
Proof.
  intros Hr. unfold draw_rounded_rect. cbv zeta. cbn [map].
  destruct (draw_corner_unfold radius (rx rect + radius, ry rect + radius) Hr)
    as (la & -> & Ha).
  destruct (draw_corner_unfold radius
              (rx rect + rw rect - radius - 1, ry rect + radius) Hr)
    as (lb & -> & Hb).
  destruct (draw_corner_unfold radius
              (rx rect + radius, ry rect + rh rect - radius - 1) Hr)
    as (lc & -> & Hc).
  destruct (draw_corner_unfold radius
              (rx rect + rw rect - radius - 1, ry rect + rh rect - radius - 1) Hr)
    as (ld & -> & Hd).
  eexists. split; [reflexivity |]. cbn [fst snd]. split.
  - intros Hall. inversion Hall as [| ? ? _ Hall1]; subst.
    inversion Hall1 as [| ? ? _ Hall2]; subst.
    cbn [flat_map corner_lines app] in Hall2.
    inversion Hall2 as [| ? ? Hline1 Hall3]; subst.
    inversion Hall3 as [| ? ? _ Hall4]; subst.
    inversion Hall4 as [| ? ? Hline3 _]; subst.
    cbn [op_within] in Hline1, Hline3. lia.
  - intros (Hw & Hh).
    constructor; [unfold op_within, rect_within; cbn [rx ry rw rh]; lia |].
    constructor; [unfold op_within, rect_within; cbn [rx ry rw rh]; lia |].
    repeat rewrite Forall_app. repeat split;
      apply Forall_flat_map;
      (eapply Forall_impl; [| eassumption]);
      intros s Hs; apply (corner_lines_within rect radius); auto.
Qed.

Lemma rounded_rect_stays_inside_witness :
  exists ops,
    draw_rounded_rect {| rx := 0; ry := 0; rw := 140; rh := 130 |} 16 = Some ops /\
    Forall (op_within {| rx := 0; ry := 0; rw := 140; rh := 130 |}) ops.
Proof.
  destruct (rounded_rect_stays_inside
              {| rx := 0; ry := 0; rw := 140; rh := 130 |} 16 ltac:(lia))
    as (ops & Hrun & Hin).
  exists ops. split; [exact Hrun |]. apply Hin. simpl. lia.
Defined.

(** ** Fonts *)

Lemma open_first_none (open : string -> Z -> option TTF_Font)
    (paths : list string) (size : Z) :
  open_first open paths size = None
  <-> forall p, In p paths -> open p size = None.
Proof.
  induction paths as [| p paths IH]; simpl.
  - split; [intros _ p [] | reflexivity].
  - destruct (open p size) as [f |] eqn:E.
    + split; [discriminate |]. intros H.
      rewrite (H p (or_introl eq_refl)) in E. discriminate E.
    + rewrite IH. split.
      * intros H p' [<- | Hin]; [exact E | exact (H p' Hin)].
      * intros H p' Hin. exact (H p' (or_intror Hin)).
Qed.

(** X16: loading the fonts fails, which makes [launcher_create] give up,
    exactly when none of the default text fonts opens at the clock size 180
    or none opens at the tile size 22; a missing date, value or label font
    and a missing Nerd Font never make it fail. *)
Theorem fonts_fail_only_without_clock_or_tile_font
    (open : string -> Z -> option TTF_Font) :
  load_fonts open = None
  <-> (forall p, In p default_fonts -> open p 180 = None)
      \/ (forall p, In p default_fonts -> open p 22 = None).
Proof.
  rewrite <- !open_first_none.
  unfold load_fonts, load_font, load_nerd_font. cbv zeta.
  destruct (open_first open default_fonts 180);
    destruct (open_first open default_fonts 22);
    destruct (open_first open nerd_fonts 42);
    split; intros H; try discriminate; auto;
    destruct H as [H | H]; discriminate H.
Qed.

(** X17: without a Nerd Font the two icon fields alias the tile and label
    fonts, and [launcher_destroy] then gives the tile font to
    [TTF_CloseFont] twice, and the label font too when there is one. *)
Theorem missing_nerd_font_closes_fonts_twice
    (open : string -> Z -> option TTF_Font) (f : Fonts) :
  load_nerd_font open 42 = None ->
  load_fonts open = Some f ->
  font_icon f = font_tile f /\
  font_icon_small f = font_stat_label f /\
  (exists t, font_tile f = Some t /\
             (2 <= count_occ Z.eq_dec (close_fonts f) t)%nat) /\
  (forall s, font_stat_label f = Some s ->
             (2 <= count_occ Z.eq_dec (close_fonts f) s)%nat).
Proof.
  intros Hnerd. unfold load_fonts. cbv zeta. rewrite Hnerd.
  destruct (load_font open None 180) as [c |]; [| discriminate].
  destruct (load_font open None 22) as [t |] eqn:Et; [| discriminate].
  intros H. injection H as <-. cbn [font_icon font_tile font_icon_small font_stat_label].
  split; [reflexivity |]. split; [reflexivity |].
  unfold close_fonts.
  cbn [flat_map font_clock font_date font_tile font_stat_value font_stat_label
       font_icon font_icon_small].
  split.
  - exists t. split; [reflexivity |].
    rewrite !count_occ_app. cbn [count_occ].
    destruct (Z.eq_dec t t); [lia | congruence].
  - intros s ->.
    rewrite !count_occ_app. cbn [count_occ].
    destruct (Z.eq_dec s s); [lia | congruence].
Qed.

Lemma missing_nerd_font_closes_fonts_twice_witness :
  exists f,
    load_fonts only_dejavu = Some f /\
    close_fonts f = [1180; 1042; 1022; 1036; 1016; 1022; 1016] /\
    (2 <= count_occ Z.eq_dec (close_fonts f) 1022%Z)%nat.
Proof.
  assert (Hload : load_fonts only_dejavu = Some _) by (vm_compute; reflexivity).
  eexists. split; [exact Hload |]. split; [reflexivity |].
  destruct (missing_nerd_font_closes_fonts_twice only_dejavu _ eq_refl Hload)
    as (_ & _ & (t & Ht & Hcount) & _).
  cbn [font_tile] in Ht. injection Ht as <-. exact Hcount.
Defined.

(** ** Launching and waiting *)

(** X18: the Enter keys never index [apps] out of bounds: in a world that
    satisfies the invariant of the reachable ones the command handed to the
    shell is the settings panel when the settings icon has the focus, and
    otherwise the command of the selected entry of [apps]. *)
Theorem enter_launches_a_configured_command (w : World) (key : SDL_Keycode) :
  launcher_invariant w ->
  key = SDLK_RETURN \/ key = SDLK_KP_ENTER ->
  exists cmd o w',
    handle_keydown key w = Done Break w' [EFork cmd o; EHideWindow] /\
    ((settings_selected (launcher w) <> 0 /\ cmd = "gnome-control-center")
     \/ (settings_selected (launcher w) = 0 /\
         exists a, nth_error apps (Z.to_nat (selected (launcher w))) = Some a /\
                   cmd = command a)).
Proof.
  intros (Hsel & _) Hkey. unfold NUM_APPS in Hsel.
  destruct (truthy (settings_selected (launcher w))) eqn:Es.
  - exists "gnome-control-center", (env_fork (env w) (n_fork w)).
    destruct Hkey as [-> | ->]; unfold_keydown; simpl; rewrite Es; simpl;
      destruct (env_fork (env w) (n_fork w)); simpl;
      eexists; (split; [reflexivity |]); left;
      (split; [apply truthy_true; exact Es | reflexivity]).
  - exists (app_command (selected (launcher w))), (env_fork (env w) (n_fork w)).
    assert (Hcmd : exists a,
               nth_error apps (Z.to_nat (selected (launcher w))) = Some a /\
               app_command (selected (launcher w)) = command a).
    { unfold app_command.
      assert (Hcases : selected (launcher w) = 0 \/ selected (launcher w) = 1
                       \/ selected (launcher w) = 2 \/ selected (launcher w) = 3
                       \/ selected (launcher w) = 4) by lia.
      destruct Hcases as [-> | [-> | [-> | [-> | ->]]]];
        eexists; split; reflexivity. }
    destruct Hkey as [-> | ->]; unfold_keydown; simpl; rewrite Es; simpl;
      destruct (env_fork (env w) (n_fork w)); simpl;
      eexists; (split; [reflexivity |]); right;
      (split; [apply truthy_false; exact Es | exact Hcmd]).
Qed.

Lemma enter_launches_a_configured_command_witness :
  exists w',
    handle_keydown SDLK_RETURN (idle_world sample_env 3 [])
      = Done Break w' [EFork "tidal-hifi" (Spawned 4242); EHideWindow].
Proof.
  destruct (enter_launches_a_configured_command (idle_world sample_env 3 [])
              SDLK_RETURN
              ltac:(unfold launcher_invariant, NUM_APPS; simpl;
                    repeat split; lia)
              (or_introl eq_refl))
    as (cmd & o & w' & Hrun & _).
  assert (E : handle_keydown SDLK_RETURN (idle_world sample_env 3 [])
              = Done Break _ [EFork "tidal-hifi" (Spawned 4242); EHideWindow])
    by (vm_compute; reflexivity).
  rewrite E in Hrun. injection Hrun as <- <- <-.
  eexists. exact E.
Defined.

Lemma handle_events_nothing_pending (w : World) :
  Forall (fun e => e = None) (sdl_queue w) ->
  handle_events w = Done 1 (with_queue (tl (sdl_queue w)) w) [].
Proof.
  intros Hq. destruct (sdl_queue w) as [| e q] eqn:Eq.
  - rewrite (handle_events_end_of_script w Eq). simpl. rewrite <- Eq.
    destruct w; reflexivity.
  - inversion Hq as [| ? ? He _]; subst e.
    exact (handle_events_idle w q Eq).
Qed.

(** X19: while the launched child keeps running and no event arrives, any
    number of iterations of the main loop do nothing but poll the child and
    sleep 200 ms each: no frame is painted, the clock is not read, and the
    launcher state and the hidden window stay as they are. *)
Theorem launcher_idles_while_child_runs (k : nat) (w : World) :
  app_running (launcher w) <> 0 ->
  0 < launched_app_pid w ->
  Forall (fun e => e = None) (sdl_queue w) ->
  (forall i, (i < k)%nat ->
     env_waitpid (env w) (n_waitpid w + i) = ChildRunning) ->
  exists w',
    run_ticks k w
      = Done true w'
          (List.concat (repeat [EWaitpid (launched_app_pid w) ChildRunning;
                           EDelay 200] k)) /\
    launcher w' = launcher w /\
    launched_app_pid w' = launched_app_pid w /\
    window_shown w' = window_shown w /\
    n_time w' = n_time w /\
    n_waitpid w' = (n_waitpid w + k)%nat.
Proof.
  revert w. induction k as [| k IH]; intros w Happ Hpid Hq Hwait.
  - exists w. simpl. rewrite Nat.add_0_r. repeat split.
  - set (w0 := with_queue (tl (sdl_queue w)) w).
    assert (Hpoll : is_app_running w0
                    = Done 1 (tick_waitpid w0)
                        [EWaitpid (launched_app_pid w) ChildRunning]).
    { rewrite is_app_running_tracked by exact Hpid.
      unfold w0. cbn [env n_waitpid with_queue].
      specialize (Hwait O ltac:(lia)). rewrite Nat.add_0_r in Hwait.
      rewrite Hwait. reflexivity. }
    assert (Hiter : run_iter w
                    = Done true (tick_waitpid w0)
                        [EWaitpid (launched_app_pid w) ChildRunning; EDelay 200]).
    { rewrite run_iter_unfold.
      rewrite (bind_silent _ _ _ _ _ (handle_events_nothing_pending w Hq)).
      change (negb (truthy 1)) with false. cbv iota.
      pose proof (check_app_polled w0 _ _ _ Happ Hpoll) as Hcheck.
      change (truthy 1) with true in Hcheck. cbv iota in Hcheck.
      rewrite (bind_done _ _ _ _ _ _ Hcheck). reflexivity. }
    destruct (IH (tick_waitpid w0)) as (w' & Hrun & Hl & Hp & Hwin & Ht & Hn).
    + exact Happ.
    + exact Hpid.
    + unfold w0. cbn [sdl_queue tick_waitpid with_queue].
      destruct Hq; [constructor | assumption].
    + intros i Hi. cbn [env n_waitpid tick_waitpid with_queue w0].
      specialize (Hwait (S i) ltac:(lia)).
      rewrite <- Hwait. f_equal. lia.
    + exists w'. cbn [run_ticks]. rewrite (bind_done _ _ _ _ _ _ Hiter).
      cbv iota. rewrite Hrun. split; [reflexivity |].
      rewrite Hl, Hp, Hwin, Ht, Hn.
      cbn [launcher launched_app_pid window_shown n_time n_waitpid
           tick_waitpid with_queue w0].
      repeat split. lia.
Qed.

Lemma launcher_idles_while_child_runs_witness :
  exists w',
    run_ticks 3 kodi_running
      = Done true w'
          [EWaitpid 4242 ChildRunning; EDelay 200;
           EWaitpid 4242 ChildRunning; EDelay 200;
           EWaitpid 4242 ChildRunning; EDelay 200] /\
    window_shown w' = false.
Proof.
  destruct (launcher_idles_while_child_runs 3 kodi_running
              ltac:(simpl; discriminate) ltac:(simpl; lia)
              ltac:(constructor) ltac:(intros; reflexivity))
    as (w' & Hrun & _ & _ & Hwin & _).
  exists w'. split; [exact Hrun | exact Hwin].
Defined.

(** ** From a sample to the screen *)

(** X20: a sampling cycle and the next iteration of the main loop, with no
    event pending and no app in front.  If the cycle left cpu, mem, temp or
    disk different from its value before the cycle, whichever of the four
    it is, the iteration paints exactly one frame, which shows the
    four values the cycle stored; in any case the iteration consumes the
    change flag and the redraw request and leaves the snapshot's values
    as the cycle stored them. *)
Theorem changed_reading_is_painted_next_iteration
    (long_bits : Z) (w w1 : World) (tr : list Effect) :
  stats_thread_body long_bits w = Done tt w1 tr ->
  Forall (fun e => e = None) (sdl_queue w) ->
  app_running (launcher w) = 0 ->
  exists w2 tr2,
    run_iter w1 = Done true w2 tr2 /\
    (cpu (stats (launcher w1)) <> cpu (stats (launcher w)) \/
     mem (stats (launcher w1)) <> mem (stats (launcher w)) \/
     temp (stats (launcher w1)) <> temp (stats (launcher w)) \/
     disk (stats (launcher w1)) <> disk (stats (launcher w)) ->
     exists f,
       tr2 = [EDraw f; EDelay 50] /\
       fr_cpu f = cpu (stats (launcher w1)) /\
       fr_mem f = mem (stats (launcher w1)) /\
       fr_temp f = temp (stats (launcher w1)) /\
       fr_disk f = disk (stats (launcher w1))) /\
    changed (stats (launcher w2)) = 0 /\
    needs_redraw (launcher w2) = 0.
Proof.
  intros Hbody Hq Happ.
  destruct (stats_thread_body_spec long_bits w w1 tr Hbody)
    as (Hkept & Hflag & _).
  destruct Hkept as (_ & _ & _ & _ & Happ1 & _ & _ & _ & Hq1 & _).
  rewrite <- Hq1 in Hq. rewrite <- Happ1 in Happ.
  set (w0 := with_queue (tl (sdl_queue w1)) w1).
  assert (Hiter : run_iter w1 = tick_tail w0).
  { rewrite run_iter_unfold.
    rewrite (bind_silent _ _ _ _ _ (handle_events_nothing_pending w1 Hq)).
    change (negb (truthy 1)) with false. cbv iota.
    rewrite (bind_silent _ _ _ _ _ (check_app_idle w0 Happ)).
    reflexivity. }
  destruct (tick_tail_spec w0) as (w2 & f & Htail & Hnr & _ & Hch & _).
  exists w2. eexists. split; [rewrite Hiter; exact Htail |].
  split; [| split; assumption].
  intros Hd. apply snapshot_differs_true in Hd. rewrite Hd in Hflag.
  assert (Hdue : redraw_due w0 = true).
  { unfold redraw_due, w0. cbn [launcher with_queue]. rewrite Hflag.
    change (truthy 1) with true. rewrite orb_true_r. reflexivity. }
  rewrite Hdue in Htail |- *. exists f. split; [reflexivity |].
  destruct (tick_tail_frame w0 w2 true _ f Htail (or_introl eq_refl))
    as (_ & _ & Hc & Hm & Ht & Hdk & _).
  repeat split; assumption.
Qed.

Lemma changed_reading_is_painted_next_iteration_witness :
  exists w1 w2 f,
    stats_thread_body 64 (idle_world warm_env 0 []) = Done tt w1 [EStatsChanged; ESleep 2] /\
    run_iter w1 = Done true w2 [EDraw f; EDelay 50] /\
    fr_temp f = 45.
Proof.
  assert (Hbody : stats_thread_body 64 (idle_world warm_env 0 [])
                  = Done tt _ [EStatsChanged; ESleep 2])
    by (vm_compute; reflexivity).
  destruct (changed_reading_is_painted_next_iteration 64 _ _ _ Hbody
              ltac:(constructor) eq_refl)
    as (w2 & tr2 & Hrun & Hpaint & _).
  destruct (Hpaint ltac:(right; right; left; vm_compute; discriminate))
    as (f & -> & _ & _ & Htemp & _).
  eexists. exists w2, f. split; [exact Hbody |]. split; [exact Hrun |].
  rewrite Htemp. vm_compute. reflexivity.
Defined.
